(** * dataforsyningen_downloader: the block downloader and the index loader

    A shallow embedding of the two QGIS processing algorithms
    [DownloadBlockFilesFromFTPS.processAlgorithm] (processing/download_blocks.py)
    and [Load10KmIndexFile.processAlgorithm] (processing/load_index_file.py).

    Python exceptions are an error monad, the local filesystem and the
    record of calls made to the host and to the libraries (QGIS feedback,
    ftplib, open, zipfile) are an explicit state, and everything the outside
    world decides (does a directory exist, does a transfer succeed, what
    does an archive contain) is read from an environment record that the
    theorems quantify over. *)

From stdpp Require Import base strings gmap list pretty.
From Stdlib Require Import ZArith Ascii.

(** ** Python strings *)

Module PyStr.

(** [str.lower] on the ASCII letters. *)
Definition lower_ascii (c : ascii) : ascii :=
  let n := nat_of_ascii c in
  if (65 <=? n)%nat && (n <=? 90)%nat then ascii_of_nat (n + 32) else c.

Fixpoint lower (s : string) : string :=
  match s with
  | EmptyString => EmptyString
  | String c s' => String (lower_ascii c) (lower s')
  end.

(** [s.endswith(suf)]: some tail of [s] is [suf]. *)
Fixpoint endswith (s suf : string) : bool :=
  if String.eqb s suf then true
  else match s with
       | EmptyString => false
       | String _ s' => endswith s' suf
       end.

(** [s.startswith(pre)]. *)
Fixpoint startswith (s pre : string) {struct pre} : bool :=
  match pre with
  | EmptyString => true
  | String a pre' =>
      match s with
      | EmptyString => false
      | String b s' => Ascii.eqb a b && startswith s' pre'
      end
  end.

(** Truth value of a string: [not s] holds of the empty string only. *)
Definition truthy (s : string) : bool :=
  match s with EmptyString => false | _ => true end.

End PyStr.

(** [os.path.join(a, b)] of posixpath, for two components. *)
Definition os_path_join (a b : string) : string :=
  if PyStr.startswith b "/" then b
  else if negb (PyStr.truthy a) || PyStr.endswith a "/" then a +:+ b
  else a +:+ "/" +:+ b.

(** [s.split(sep)] for a separator of one character. *)
Fixpoint split_on (sep : ascii) (s : string) : list string :=
  match s with
  | EmptyString => [EmptyString]
  | String c s' =>
      let rest := split_on sep s' in
      if Ascii.eqb c sep then EmptyString :: rest
      else String c (hd EmptyString rest) :: tl rest
  end.

(** [os.path.normpath] of posixpath. One turn of its loop over the
    components: [new_comps] is the list built so far. *)
Definition normpath_step (initial_slashes : bool) (new_comps : list string)
    (comp : string) : list string :=
  if String.eqb comp "" || String.eqb comp "." then new_comps
  else if negb (String.eqb comp "..")
          || (negb initial_slashes && bool_decide (new_comps = []))
          || bool_decide (last new_comps = Some "..")
       then new_comps ++ [comp]
       else removelast new_comps.

(** The number of leading slashes [normpath] keeps: none, one, or two
    when the path starts with exactly two. *)
Definition initial_slashes (path : string) : nat :=
  if PyStr.startswith path "/" then
    if PyStr.startswith path "//" && negb (PyStr.startswith path "///") then 2 else 1
  else 0.

(** The components [normpath] keeps. *)
Definition components (path : string) : list string :=
  foldl (normpath_step (PyStr.startswith path "/")) [] (split_on "/" path).

(** [sep*initial_slashes + sep.join(comps)] *)
Definition path_of (slashes : nat) (comps : list string) : string :=
  match slashes with 0 => "" | 1 => "/" | _ => "//" end +:+ String.concat "/" comps.

Definition normpath (path : string) : string :=
  if negb (PyStr.truthy path) then "."
  else let p := path_of (initial_slashes path) (components path) in
       if PyStr.truthy p then p else ".".

(** ** Where zipfile writes a member

    [ZipFile._extract_member] of the standard library, on POSIX: the
    member's name is split at the slashes, the components "", "." and ".."
    are dropped, and what is left is joined to the target directory and
    normalised. *)
Definition invalid_path_part (x : string) : bool :=
  String.eqb x "" || String.eqb x "." || String.eqb x "..".

Definition zip_arcname (name : string) : string :=
  String.concat "/"
    (List.filter (λ x, negb (invalid_path_part x)) (split_on "/" name)).

Definition zip_targetpath (targetpath name : string) : string :=
  normpath (os_path_join targetpath (zip_arcname name)).

(** [ZipInfo.is_dir]: the name ends with a slash. *)
Definition zip_is_dir (name : string) : bool := PyStr.endswith name "/".

(** What [extractall] writes of the file members [ms] (name in the
    archive, content), in order, when the library ends the extraction with
    [r] after them: a directory entry creates no file; a member whose name
    has no component left would be written onto the target directory
    itself, which raises (with the message [unnamed]) and ends the
    extraction there. The result lists the files written, by path. *)
Fixpoint extract_members (unnamed targetpath : string)
    (ms : list (string * string)) (r : option string)
    : list (string * string) * option string :=
  match ms with
  | [] => ([], r)
  | (name, data) :: ms =>
      if zip_is_dir name then extract_members unnamed targetpath ms r
      else if PyStr.truthy (zip_arcname name) then
        let '(written, r') := extract_members unnamed targetpath ms r in
        ((zip_targetpath targetpath name, data) :: written, r')
      else ([], Some unnamed)
  end.

(** ** Paths below a folder *)

Fixpoint has_sep (x : string) : bool :=
  match x with
  | EmptyString => false
  | String c x' => Ascii.eqb c "/" || has_sep x'
  end.

(** A proper path component: not empty, not "." or "..", no slash. *)
Definition path_part (x : string) : bool :=
  negb (invalid_path_part x) && negb (has_sep x).

(** [q] is the normalised [folder] followed by one or more proper
    components: a path inside the folder, whatever the folder holds. *)
Definition below (folder q : string) : Prop :=
  ∃ parts, parts ≠ [] ∧ Forall (λ x, path_part x = true) parts
    ∧ q = path_of (initial_slashes folder) (components folder ++ parts).

(** [seq[i]] for a Python list: negative indices count from the end, and an
    index out of range raises IndexError (here [None]). *)
Definition py_index {A} (l : list A) (i : Z) : option A :=
  let n := Z.of_nat (length l) in
  if (0 <=? i)%Z then l !! Z.to_nat i
  else if (0 <=? n + i)%Z then l !! Z.to_nat (n + i)
  else None.

(** ** The category table of the block downloader *)

Definition BLOCK_TYPES : list string := ["DTM"; "DSM"; "Pointclouds"].

(** The two locals the conditional chain of [processAlgorithm] assigns.
    The filename template [PRE{grid_id}SUF] is kept as its two literal
    halves. *)
Record template := {
  ftp_path : string;
  filename_prefix : string;
  filename_suffix : string
}.

(** The [if / elif / elif] chain on [block_type]; it has no [else], so for
    any other string the two locals stay unbound ([None]). *)
Definition select_template (block_type : string) : option template :=
  if String.eqb block_type "DTM" then
    Some {| ftp_path := "/dhm_danmarks_hoejdemodel/DTM/";
            filename_prefix := "DTM_";
            filename_suffix := "_TIF_UTM32-ETRS89.zip" |}
  else if String.eqb block_type "DSM" then
    Some {| ftp_path := "/dhm_danmarks_hoejdemodel/DSM/";
            filename_prefix := "DSM_";
            filename_suffix := "_TIF_UTM32-ETRS89.zip" |}
  else if String.eqb block_type "Pointclouds" then
    Some {| ftp_path := "/dhm_danmarks_hoejdemodel/PUNKTSKY/";
            filename_prefix := "PUNKTSKY_";
            filename_suffix := "_TIF_UTM32-ETRS89.zip" |}
  else None.

(** [filename_template.format(grid_id=grid_id)]. *)
Definition format_filename (t : template) (grid_id : string) : string :=
  filename_prefix t +:+ grid_id +:+ filename_suffix t.

(** ** The host's data: layers, features, parameters *)

(** An attribute value as PyQGIS hands it to Python: the dialog offers
    every field of the layer, so the value may be NULL, a string, an
    integer, a boolean or a float. The code only tests a value for truth
    and renders it with [str.format], so a float is given by whether it is
    non-zero and by its rendering. *)
Inductive attr_value :=
| NULL
| AttrStr (s : string)
| AttrInt (z : Z)
| AttrBool (b : bool)
| AttrFloat (nonzero : bool) (text : string).

(** [not v] is the negation of this: NULL, the empty string, 0, 0.0 and
    False are false. *)
Definition attr_truthy (v : attr_value) : bool :=
  match v with
  | NULL => false
  | AttrStr s => PyStr.truthy s
  | AttrInt z => negb (z =? 0)%Z
  | AttrBool b => b
  | AttrFloat nonzero _ => nonzero
  end.

(** [str(v)], as [str.format] renders the value. *)
Definition attr_str (v : attr_value) : string :=
  match v with
  | NULL => "NULL"
  | AttrStr s => s
  | AttrInt z => pretty z
  | AttrBool b => if b then "True" else "False"
  | AttrFloat _ text => text
  end.

(** The attribute carries a value: it is neither NULL nor the empty
    string. *)
Definition attr_nonempty (v : attr_value) : bool :=
  match v with
  | NULL => false
  | AttrStr s => PyStr.truthy s
  | _ => true
  end.

Record feature := {
  feature_id : Z;
  attributes : list attr_value      (* aligned with the layer's fields *)
}.

Inductive layer_kind := VectorLayer | RasterLayer | PluginLayer.

Record map_layer := {
  layer_type : layer_kind;
  fields : list string;             (* [field.name() for field in layer.fields()] *)
  selectedFeatures : list feature
}.

(** The parameters of the download algorithm, after [parameterAsInt],
    [parameterAsString] and [parameterAsBool]. *)
Record parameters := {
  ATTRIBUTE_FIELD : Z;
  BLOCK_TYPE : Z;
  FTP_USERNAME : string;
  FTP_PASSWORD : string;
  OUTPUT_FOLDER : string;
  UNPACK_ZIP : bool
}.

(** Index of the first field called [name]. *)
Fixpoint fieldNameIndex (fs : list string) (name : string) : option nat :=
  match fs with
  | [] => None
  | f :: fs' => if String.eqb f name then Some 0
                else S <$> fieldNameIndex fs' name
  end.

(** [feature[name]]: KeyError ([None]) when the layer has no such field,
    otherwise the attribute at that position (NULL when the vector is
    short). *)
Definition feature_getitem (fs : list string) (f : feature) (name : string)
    : option attr_value :=
  match fieldNameIndex fs name with
  | None => None
  | Some i => Some (default NULL (attributes f !! i))
  end.

(** ** The layer of the index loader *)

(** Widths and distances are kept in hundredths of a unit (0.26 is 26). *)
Inductive symbol_layer :=
| SimpleFill
| LinePatternFill (line_width distance angle : Z) (color : Z * Z * Z)
| SimpleLine (color : Z * Z * Z) (width : Z).

Record vector_layer := {
  vl_source : string;
  vl_name : string;
  vl_provider : string;
  vl_has_renderer : bool;           (* [layer.renderer()] is not None *)
  vl_symbol : list symbol_layer
}.

(** ** Exceptions, calls, state *)

Inductive exn :=
| QgsProcessingException (msg : string)
| IndexError
| KeyError
| UnboundLocalError
| AttributeError
| LibError (msg : string).   (* any Exception a library call raises; [msg] is str(e) *)

Definition exn_str (e : exn) : string :=
  match e with
  | QgsProcessingException m => m
  | IndexError => "list index out of range"
  | KeyError => "key"
  | UnboundLocalError => "local variable referenced before assignment"
  | AttributeError => "'NoneType' object has no attribute 'setSymbol'"
  | LibError m => m
  end.

(** The calls that leave the algorithm, in the order they are made. A
    library call carries its outcome: [None] when it returned, [Some msg]
    when it raised an exception [e] with [str(e) = msg]. A transfer also
    carries the bytes it delivered and an extraction the members it wrote. *)
Inductive event :=
| PushInfo (msg : string)
| ReportError (msg : string)
| Connect (host : string) (port : Z) (r : option string)
| Login (user passwd : string) (r : option string)
| ProtP (r : option string)
| OpenWB (path : string) (r : option string)
| Retrbinary (cmd data : string) (r : option string)
| ZipOpen (path : string) (r : option string)
| ExtractAll (archive dest : string) (written : list (string * string))
             (r : option string)
| Quit (r : option string)
| LoadLayer (source : string) (valid : bool)
| AddMapLayer (l : vector_layer).

(** The world the algorithms act on, together with the one local variable
    that is assigned inside a [try] block and read after it. *)
Record state := {
  files : gmap string string;       (* local filesystem: path to content *)
  project : list vector_layer;      (* layers of QgsProject.instance() *)
  calls : list event;
  downloaded_files : nat
}.

(** What the outside world answers. The calls made at most once per
    invocation have one answer; the calls made once per feature may answer
    differently each time, so their answer depends on the whole state, hence
    on all earlier calls and their outcomes. *)
Record Env := {
  os_path_isdir : string → bool;
  ftp_connect : string → Z → option string;
  ftp_login : string → string → option string;
  ftp_prot_p : option string;
  ftp_quit : option string;
  ogr_valid : string → bool;
  (* whether the loaded layer has a renderer; one without geometry has none *)
  ogr_renderer : string → bool;
  file_open_wb : state → string → option string;
  (* the bytes handed to the callback, and how the transfer ended *)
  ftp_retrbinary : state → string → string * option string;
  zip_open : state → string → option string;
  (* the file members the extraction gets to (name in the archive,
     content), and how it ended after them *)
  zip_extractall : state → string → string → list (string * string) * option string;
  (* the message with which writing a member onto the target directory
     itself raises; its wording depends on the Python version *)
  zip_unnamed : string
}.

(** ** The exception monad *)

Inductive res (A : Type) :=
| Ok (a : A)
| Raise (e : exn).
Arguments Ok {A} a.
Arguments Raise {A} e.

Definition M (A : Type) : Type := state → res A * state.

Definition ret {A} (a : A) : M A := λ s, (Ok a, s).

Definition raise {A} (e : exn) : M A := λ s, (Raise e, s).

Definition bind {A B} (m : M A) (k : A → M B) : M B :=
  λ s, match m s with
       | (Ok a, s') => k a s'
       | (Raise e, s') => (Raise e, s')
       end.

Notation "'do' x <- m ; k" := (bind m (λ x, k))
  (at level 10, x name, m at level 100, k at level 200, only parsing).
Notation "'run' m ; k" := (bind m (λ _, k))
  (at level 10, m at level 100, k at level 200, only parsing).

(** [try: body  except Exception as e: handler e]. *)
Definition try_except {A} (body : M A) (handler : exn → M A) : M A :=
  λ s, match body s with
       | (Ok a, s') => (Ok a, s')
       | (Raise e, s') => handler e s'
       end.

(** [for x in l: body x]. *)
Fixpoint for_each {A} (l : list A) (body : A → M unit) : M unit :=
  match l with
  | [] => ret tt
  | x :: l' => run body x; for_each l' body
  end.

(** [None] raises, as an unbound local or a failed lookup does. *)
Definition or_raise {A} (o : option A) (e : exn) : M A :=
  match o with
  | Some a => ret a
  | None => raise e
  end.

Definition record (e : event) (s : state) : state :=
  {| files := files s; project := project s;
     calls := calls s ++ [e]; downloaded_files := downloaded_files s |}.

Definition write_file (path data : string) (s : state) : state :=
  {| files := <[path := data]> (files s); project := project s;
     calls := calls s; downloaded_files := downloaded_files s |}.

Definition emit (e : event) : M unit := λ s, (Ok tt, record e s).

Definition outcome (r : option string) : res unit :=
  match r with
  | None => Ok tt
  | Some msg => Raise (LibError msg)
  end.

(** ** Calls into the host and the libraries *)

Section Algorithms.

Context (env : Env).

Definition pushInfo (msg : string) : M unit := emit (PushInfo msg).

Definition reportError (msg : string) : M unit := emit (ReportError msg).

(** [ftps.connect(host, port)] *)
Definition connect (host : string) (port : Z) : M unit :=
  λ s, let r := ftp_connect env host port in
       (outcome r, record (Connect host port r) s).

(** [ftps.login(user=username, passwd=password)] *)
Definition login (user passwd : string) : M unit :=
  λ s, let r := ftp_login env user passwd in
       (outcome r, record (Login user passwd r) s).

(** [ftps.prot_p()] *)
Definition prot_p : M unit :=
  λ s, let r := ftp_prot_p env in
       (outcome r, record (ProtP r) s).

(** [ftps.quit()] *)
Definition quit : M unit :=
  λ s, let r := ftp_quit env in
       (outcome r, record (Quit r) s).

(** [open(path, "wb")]: creates the file, or empties an existing one. *)
Definition open_wb (path : string) : M unit :=
  λ s, let r := file_open_wb env s path in
       (outcome r,
        record (OpenWB path r)
          match r with
          | None => write_file path "" s
          | Some _ => s
          end).

(** [ftps.retrbinary(cmd, f.write)] for the file [f] opened at [path]:
    whatever reached the callback is in the file, also when the transfer
    raises. *)
Definition retrbinary (cmd path : string) : M unit :=
  λ s, let '(data, r) := ftp_retrbinary env s cmd in
       (outcome r, record (Retrbinary cmd data r) (write_file path data s)).

(** [zipfile.ZipFile(path, 'r')] *)
Definition zipfile_open (path : string) : M unit :=
  λ s, let r := zip_open env s path in
       (outcome r, record (ZipOpen path r) s).

(** The files an extraction wrote, each at its path. *)
Definition write_members (written : list (string * string)) (s : state) : state :=
  foldl (λ s' m, write_file m.1 m.2 s') s written.

(** [zip_ref.extractall(dest)] for the archive opened at [archive]. *)
Definition extractall (archive dest : string) : M unit :=
  λ s, let '(ms, r) := zip_extractall env s archive dest in
       let '(written, r') := extract_members (zip_unnamed env) dest ms r in
       (outcome r', record (ExtractAll archive dest written r') (write_members written s)).

(** [downloaded_files = n] and [downloaded_files += 1] *)
Definition set_downloaded_files (n : nat) : M unit :=
  λ s, (Ok tt, {| files := files s; project := project s;
                  calls := calls s; downloaded_files := n |}).

Definition incr_downloaded_files : M unit :=
  λ s, set_downloaded_files (downloaded_files s + 1) s.

Definition get_downloaded_files : M nat :=
  λ s, (Ok (downloaded_files s), s).

(** [os.path.isdir(path)] *)
Definition isdir (path : string) : M bool :=
  λ s, (Ok (os_path_isdir env path), s).

(** ** DownloadBlockFilesFromFTPS.processAlgorithm *)

Definition ftp_server : string := "ftp.dataforsyningen.dk".
Definition ftp_port : Z := 990.

(** The [try] block of the loop body (lines 206-215). *)
Definition transfer_and_unpack (output_folder : string) (unpack_zip : bool)
    (ftp_dir filename : string) : M unit :=
  let local_filepath := os_path_join output_folder filename in
  let ftp_filepath := ftp_dir +:+ filename in
  run open_wb local_filepath;
  run retrbinary ("RETR " +:+ ftp_filepath) local_filepath;
  run incr_downloaded_files;
  run pushInfo ("Downloaded: " +:+ filename);
  if unpack_zip && PyStr.endswith (PyStr.lower filename) ".zip" then
    run pushInfo ("Unpacking " +:+ filename +:+ "...");
    run zipfile_open local_filepath;
    run extractall local_filepath output_folder;
    pushInfo ("Unpacked: " +:+ filename)
  else ret tt.

(** The body of [for feature in selected_features] (lines 192-217). *)
Definition process_feature (layer_fields : list string)
    (attribute_field : string) (tmpl : option template)
    (output_folder : string) (unpack_zip : bool) (f : feature) : M unit :=
  do grid_id <- or_raise (feature_getitem layer_fields f attribute_field) KeyError;
  if negb (attr_truthy grid_id) then
    pushInfo ("Skipping feature ID " +:+ pretty (feature_id f) +:+ " with no grid ID.")
  else
    do t <- or_raise tmpl UnboundLocalError;
    let filename := format_filename t (attr_str grid_id) in
    let local_filepath := os_path_join output_folder filename in
    run pushInfo ("Downloading " +:+ filename +:+ " to " +:+ local_filepath +:+ "...");
    try_except
      (transfer_and_unpack output_folder unpack_zip (ftp_path t) filename)
      (λ e, reportError ("Failed to download " +:+ filename +:+ ": " +:+ exn_str e)).

Definition is_vector (l : map_layer) : bool :=
  match layer_type l with VectorLayer => true | _ => false end.

(** [processAlgorithm] of the block downloader; [activeLayer] is what
    [iface.activeLayer()] returns. The result is the value under the key
    DOWNLOADED_FILES of the returned dict. *)
Definition processAlgorithm (activeLayer : option map_layer)
    (p : parameters) : M nat :=
  do layer <- match activeLayer with
              | Some l => if is_vector l then ret l
                          else raise (QgsProcessingException "No active vector layer found.")
              | None => raise (QgsProcessingException "No active vector layer found.")
              end;
  do attribute_field <- or_raise (py_index (fields layer) (ATTRIBUTE_FIELD p)) IndexError;
  do block_type <- or_raise (py_index BLOCK_TYPES (BLOCK_TYPE p)) IndexError;
  let username := FTP_USERNAME p in
  let password := FTP_PASSWORD p in
  if negb (PyStr.truthy username) || negb (PyStr.truthy password) then
    raise (QgsProcessingException "FTP username and password are required.")
  else
  let output_folder := OUTPUT_FOLDER p in
  do folder_ok <- isdir output_folder;
  if negb folder_ok then
    raise (QgsProcessingException "Output folder does not exist or is not valid.")
  else
  let unpack_zip := UNPACK_ZIP p in
  let selected_features := selectedFeatures layer in
  match selected_features with
  | [] => raise (QgsProcessingException "No features are selected in the active layer.")
  | _ :: _ =>
  run pushInfo ("Processing " +:+ pretty (length selected_features)
                +:+ " selected features...");
  let tmpl := select_template block_type in
  run try_except
        (run connect ftp_server ftp_port;
         run login username password;
         run prot_p;
         pushInfo "Connected to FTPS server.")
        (λ e, raise (QgsProcessingException
                       ("Failed to connect to FTPS server: " +:+ exn_str e)));
  run set_downloaded_files 0;
  run for_each selected_features
        (process_feature (fields layer) attribute_field tmpl output_folder unpack_zip);
  run quit;
  do n <- get_downloaded_files;
  run pushInfo ("Download complete. " +:+ pretty n +:+ " files downloaded.");
  ret n
  end.

(** ** Load10KmIndexFile.processAlgorithm *)

(** [QgsVectorLayer(url, name, provider)]: the constructor always returns
    a layer object; whether it is valid is what the data provider says. *)
Definition QgsVectorLayer (source name provider : string)
    : M (vector_layer * bool) :=
  λ s, let v := ogr_valid env source in
       (Ok ({| vl_source := source; vl_name := name;
               vl_provider := provider;
               vl_has_renderer := ogr_renderer env source;
               vl_symbol := [SimpleFill] |}, v),
        record (LoadLayer source v) s).

(** [fill_symbol.changeSymbolLayer(0, l)] and [appendSymbolLayer(l)]. *)
Definition changeSymbolLayer (i : nat) (l : symbol_layer)
    (sym : list symbol_layer) : list symbol_layer := <[i := l]> sym.

Definition appendSymbolLayer (l : symbol_layer)
    (sym : list symbol_layer) : list symbol_layer := sym ++ [l].

Definition hatched_symbol : list symbol_layer :=
  let line_pattern_fill := LinePatternFill 26 200 45 (55, 126, 184)%Z in
  let outline := SimpleLine (0, 0, 0)%Z 46 in
  let fill_symbol := [SimpleFill] in
  appendSymbolLayer outline (changeSymbolLayer 0 line_pattern_fill fill_symbol).

Definition setSymbol (sym : list symbol_layer) (l : vector_layer) : vector_layer :=
  {| vl_source := vl_source l; vl_name := vl_name l;
     vl_provider := vl_provider l; vl_has_renderer := vl_has_renderer l;
     vl_symbol := sym |}.

(** [layer.renderer().setSymbol(sym)]: [renderer()] is None for a layer
    without a renderer, and the method call on it raises AttributeError. *)
Definition renderer_setSymbol (sym : list symbol_layer) (l : vector_layer)
    : M vector_layer :=
  if vl_has_renderer l then ret (setSymbol sym l) else raise AttributeError.

(** [QgsProject.instance().addMapLayer(layer)] *)
Definition addMapLayer (l : vector_layer) : M unit :=
  λ s, (Ok tt,
        record (AddMapLayer l)
          {| files := files s; project := project s ++ [l];
             calls := calls s; downloaded_files := downloaded_files s |}).

(** [processAlgorithm] of the index loader; the result is the value under
    the key Result of the returned dict. *)
Definition load_processAlgorithm (url : string) : M string :=
  if negb (PyStr.truthy url) then
    raise (QgsProcessingException "No URL provided.")
  else
  run pushInfo ("Loading GeoJSON from: " +:+ url);
  do lv <- QgsVectorLayer url "10km_index_grid" "ogr";
  let '(layer, valid) := lv in
  if negb valid then
    raise (QgsProcessingException "Failed to load the GeoJSON file.")
  else
  run pushInfo "Applying hatched style...";
  do layer <- renderer_setSymbol hatched_symbol layer;
  run addMapLayer layer;
  run pushInfo "GeoJSON file loaded successfully with hatched style.";
  ret ("GeoJSON loaded: " +:+ vl_name layer).

End Algorithms.

(** ** Reading a record of calls *)

(** Local paths opened for writing: one per download attempt. *)
Definition opened (tr : list event) : list string :=
  omap (λ e, match e with OpenWB p _ => Some p | _ => None end) tr.

(** Local opens that succeeded. *)
Definition opened_ok (tr : list event) : list string :=
  omap (λ e, match e with OpenWB p None => Some p | _ => None end) tr.

(** Commands of the remote fetches that were issued. *)
Definition fetched (tr : list event) : list string :=
  omap (λ e, match e with Retrbinary c _ _ => Some c | _ => None end) tr.

(** Commands of the transfers that completed. *)
Definition transferred (tr : list event) : list string :=
  omap (λ e, match e with Retrbinary c _ None => Some c | _ => None end) tr.

(** Messages of [feedback.reportError]. *)
Definition errors (tr : list event) : list string :=
  omap (λ e, match e with ReportError m => Some m | _ => None end) tr.

(** Messages of [feedback.pushInfo]. *)
Definition infos (tr : list event) : list string :=
  omap (λ e, match e with PushInfo m => Some m | _ => None end) tr.

(** Messages of the library calls that raised. *)
Definition failures (tr : list event) : list string :=
  omap (λ e, match e with
             | OpenWB _ (Some m) | Retrbinary _ _ (Some m)
             | ZipOpen _ (Some m) | ExtractAll _ _ _ (Some m) => Some m
             | _ => None
             end) tr.

(** Messages of the extractions (opening the archive or unpacking it) that
    raised. *)
Definition extract_failures (tr : list event) : list string :=
  omap (λ e, match e with
             | ZipOpen _ (Some m) | ExtractAll _ _ _ (Some m) => Some m
             | _ => None
             end) tr.

(** Calls that use the network. *)
Definition is_network (e : event) : bool :=
  match e with
  | Connect _ _ _ | Login _ _ _ | ProtP _ | Retrbinary _ _ _ | Quit _ => true
  | _ => false
  end.

Definition network (tr : list event) : list event := List.filter is_network tr.

(** Layers handed to [addMapLayer]. *)
Definition added (tr : list event) : list vector_layer :=
  omap (λ e, match e with AddMapLayer l => Some l | _ => None end) tr.

(** Features whose whole processing went through: those attempted less
    those reported as failed. *)
Definition fully_processed (tr : list event) : nat :=
  length (opened tr) - length (errors tr).

(** ** Reading the inputs *)

(** The grid identifier the loop reads from a feature. *)
Definition grid_id_of (fs : list string) (field : string) (f : feature) : attr_value :=
  default NULL (feature_getitem fs f field).

(** The loop takes up the feature: [not grid_id] is false. *)
Definition has_grid_id (fs : list string) (field : string) (f : feature) : bool :=
  attr_truthy (grid_id_of fs field f).

(** The preconditions the claims list: an active vector layer, credentials,
    an existing folder, a selection. *)
Definition preconditions_ok (env : Env) (activeLayer : option map_layer)
    (p : parameters) : bool :=
  match activeLayer with
  | None => false
  | Some l =>
      is_vector l
      && PyStr.truthy (FTP_USERNAME p) && PyStr.truthy (FTP_PASSWORD p)
      && os_path_isdir env (OUTPUT_FOLDER p)
      && negb (bool_decide (selectedFeatures l = []))
  end.

(** The message of the first of connect, login and prot_p that raises. *)
Definition session_error (env : Env) (p : parameters) : option string :=
  match ftp_connect env ftp_server ftp_port with
  | Some m => Some m
  | None =>
      match ftp_login env (FTP_USERNAME p) (FTP_PASSWORD p) with
      | Some m => Some m
      | None => ftp_prot_p env
      end
  end.

(** ** What one download attempt can do *)

Definition failure_message (filename msg : string) : string :=
  "Failed to download " +:+ filename +:+ ": " +:+ msg.

Definition skip_message (f : feature) : string :=
  "Skipping feature ID " +:+ pretty (feature_id f) +:+ " with no grid ID.".

Definition downloading_message (filename local_filepath : string) : string :=
  "Downloading " +:+ filename +:+ " to " +:+ local_filepath +:+ "...".

Definition processing_message (l : map_layer) : string :=
  "Processing " +:+ pretty (length (selectedFeatures l)) +:+ " selected features...".

Definition complete_message (n : nat) : string :=
  "Download complete. " +:+ pretty n +:+ " files downloaded.".

(** The file name, local path and fetch command of a feature. *)
Definition attempt_filename (fs : list string) (field : string) (t : template)
    (f : feature) : string :=
  format_filename t (attr_str (grid_id_of fs field f)).

Definition attempt_path (fs : list string) (field : string) (t : template)
    (out : string) (f : feature) : string :=
  os_path_join out (attempt_filename fs field t f).

Definition attempt_cmd (fs : list string) (field : string) (t : template)
    (f : feature) : string :=
  "RETR " +:+ ftp_path t +:+ attempt_filename fs field t f.

(** The six ways the guarded block of the loop body can go for the file
    [filename], stored at [p], fetched with [c] and unpacked into [out]
    when [unpack] holds: the calls it makes, by how much the counter
    grows, and the filesystem it leaves. *)
Inductive attempt (unpack : bool) (filename p c out : string)
    (fs0 : gmap string string)
    : list event → nat → gmap string string → Prop :=
| open_failed m :
    attempt unpack filename p c out fs0
      [OpenWB p (Some m); ReportError (failure_message filename m)]
      0 fs0
| transfer_failed d m :
    attempt unpack filename p c out fs0
      [OpenWB p None; Retrbinary c d (Some m);
       ReportError (failure_message filename m)]
      0 (<[p := d]> fs0)
| downloaded d :
    unpack = false →
    attempt unpack filename p c out fs0
      [OpenWB p None; Retrbinary c d None;
       PushInfo ("Downloaded: " +:+ filename)]
      1 (<[p := d]> fs0)
| archive_rejected d m :
    unpack = true →
    attempt unpack filename p c out fs0
      [OpenWB p None; Retrbinary c d None;
       PushInfo ("Downloaded: " +:+ filename);
       PushInfo ("Unpacking " +:+ filename +:+ "...");
       ZipOpen p (Some m); ReportError (failure_message filename m)]
      1 (<[p := d]> fs0)
| extraction_failed d ms m :
    unpack = true →
    Forall (λ w, below out w.1) ms →
    attempt unpack filename p c out fs0
      [OpenWB p None; Retrbinary c d None;
       PushInfo ("Downloaded: " +:+ filename);
       PushInfo ("Unpacking " +:+ filename +:+ "...");
       ZipOpen p None; ExtractAll p out ms (Some m);
       ReportError (failure_message filename m)]
      1 (foldl (λ fs m, <[m.1 := m.2]> fs) (<[p := d]> fs0) ms)
| unpacked d ms :
    unpack = true →
    Forall (λ w, below out w.1) ms →
    attempt unpack filename p c out fs0
      [OpenWB p None; Retrbinary c d None;
       PushInfo ("Downloaded: " +:+ filename);
       PushInfo ("Unpacking " +:+ filename +:+ "...");
       ZipOpen p None; ExtractAll p out ms None;
       PushInfo ("Unpacked: " +:+ filename)]
      1 (foldl (λ fs m, <[m.1 := m.2]> fs) (<[p := d]> fs0) ms).

(** Messages with which an empty grid identifier is logged. *)
Definition skips (tr : list event) : list string :=
  List.filter (λ m, PyStr.startswith m "Skipping feature ID ") (infos tr).

(** Messages of the opens and transfers that raised. *)
Definition transfer_failures (tr : list event) : list string :=
  omap (λ e, match e with
             | OpenWB _ (Some m) | Retrbinary _ _ (Some m) => Some m
             | _ => None
             end) tr.

(** Outcomes of the QUIT commands sent. *)
Definition quits (tr : list event) : list (option string) :=
  omap (λ e, match e with Quit r => Some r | _ => None end) tr.


Section Runs.

Context (unpack : bool) (fs : list string) (field : string) (t : template)
  (out : string).

(** What the loop body does for one feature. *)
Inductive feature_run (f : feature) (fs0 : gmap string string)
    : list event → nat → gmap string string → Prop :=
| skipped :
    has_grid_id fs field f = false →
    feature_run f fs0 [PushInfo (skip_message f)] 0 fs0
| attempted tr n fs1 :
    has_grid_id fs field f = true →
    attempt (unpack && PyStr.endswith (PyStr.lower (attempt_filename fs field t f)) ".zip")
      (attempt_filename fs field t f) (attempt_path fs field t out f)
      (attempt_cmd fs field t f) out fs0 tr n fs1 →
    feature_run f fs0
      (PushInfo (downloading_message (attempt_filename fs field t f)
                   (attempt_path fs field t out f)) :: tr)
      n fs1.

(** What the loop does for a selection. *)
Inductive selection_run : list feature → gmap string string
    → list event → nat → gmap string string → Prop :=
| selection_done fs0 : selection_run [] fs0 [] 0 fs0
| selection_next f l fs0 tr1 n1 fs1 tr2 n2 fs2 :
    feature_run f fs0 tr1 n1 fs1 →
    selection_run l fs1 tr2 n2 fs2 →
    selection_run (f :: l) fs0 (tr1 ++ tr2) (n1 + n2) fs2.

End Runs.

(** The calls of a session that opens. *)
Definition session_calls (p : parameters) : list event :=
  [Connect ftp_server ftp_port None;
   Login (FTP_USERNAME p) (FTP_PASSWORD p) None;
   ProtP None;
   PushInfo "Connected to FTPS server."].

(** Both enumeration parameters index their lists. *)
Definition indices_ok (activeLayer : option map_layer) (p : parameters) : bool :=
  match activeLayer with
  | None => false
  | Some l =>
      bool_decide (is_Some (py_index (fields l) (ATTRIBUTE_FIELD p)))
      && bool_decide (is_Some (py_index BLOCK_TYPES (BLOCK_TYPE p)))
  end.

(** The calls of an invocation that reaches the loop: the session is
    opened, the loop makes the calls [tr], QUIT is sent and answers [r], and
    the closing message reports the count [n] when QUIT returned. *)
Definition invocation_calls (l : map_layer) (p : parameters) (tr : list event)
    (r : option string) (n : nat) : list event :=
  PushInfo (processing_message l) :: session_calls p ++ tr
  ++ Quit r :: match r with
               | None => [PushInfo (complete_message n)]
               | Some _ => []
               end.

(** The errors of the four precondition checks. *)
Definition precondition_errors : list exn :=
  [QgsProcessingException "No active vector layer found.";
   QgsProcessingException "FTP username and password are required.";
   QgsProcessingException "Output folder does not exist or is not valid.";
   QgsProcessingException "No features are selected in the active layer."].

(** The error a failed session is turned into. *)
Definition connect_error (msg : string) : exn :=
  QgsProcessingException ("Failed to connect to FTPS server: " +:+ msg).

(** ** The parameters the algorithms declare *)

Inductive parameter_definition :=
| ParameterEnum (name description : string) (options : list string)
                (optional : bool)
| ParameterString (name description defaultValue : string)
| ParameterFolderDestination (name description : string)
| ParameterBoolean (name description : string) (defaultValue : bool).

Section Declarations.

(** [self.tr]: the host's translation of a source string. *)
Context (tr : string → string).

(** [initAlgorithm] of the block downloader: the parameters in the order
    they are added; [activeLayer] is what [iface.activeLayer()] returns
    when the dialog is built. *)
Definition initAlgorithm (activeLayer : option map_layer)
    : list parameter_definition :=
  let fields :=
    match activeLayer with
    | Some layer => if is_vector layer then fields layer
                    else ["[No active layer found]"]
    | None => ["[No active layer found]"]
    end in
  [ParameterEnum "BLOCK_TYPE" (tr "Select Block Type") BLOCK_TYPES false;
   ParameterEnum "ATTRIBUTE_FIELD" (tr "Select attribute containing grid ID")
     fields false;
   ParameterString "FTP_USERNAME"
     (tr "FTP Username (create at https://dataforsyningen.dk/)") "";
   ParameterString "FTP_PASSWORD"
     (tr "FTP Password (WARNING: Entered in clear text, visible in logs)") "";
   ParameterFolderDestination "OUTPUT_FOLDER" (tr "Select output folder");
   ParameterBoolean "UNPACK_ZIP" (tr "Automatically unpack .zip files") false].

(** [initAlgorithm] of the index loader. *)
Definition load_initAlgorithm : list parameter_definition :=
  [ParameterString "URL" (tr "Enter the URL of the GeoJSON file")
     "https://raw.githubusercontent.com/Esbern/DK_10km_grid/refs/heads/main/DK_10K_grid.geojson"].

End Declarations.

Definition parameter_name (d : parameter_definition) : string :=
  match d with
  | ParameterEnum n _ _ _ | ParameterString n _ _
  | ParameterFolderDestination n _ | ParameterBoolean n _ _ => n
  end.

(** The options of the enumeration parameter called [name]. *)
Fixpoint enum_options (defs : list parameter_definition) (name : string)
    : option (list string) :=
  match defs with
  | [] => None
  | ParameterEnum n _ options _ :: defs' =>
      if String.eqb n name then Some options else enum_options defs' name
  | _ :: defs' => enum_options defs' name
  end.

(** The option an index picks in the dialog: the host accepts an index
    from 0 up to the number of options only. *)
Definition offered (defs : list parameter_definition) (name : string) (i : Z)
    : option string :=
  match enum_options defs name with
  | Some options => if (0 <=? i)%Z then options !! Z.to_nat i else None
  | None => None
  end.

(** ** The socket of ImplicitFTP_TLS *)

Module ImplicitFTP_TLS.

(** A socket is plain or an [ssl.SSLSocket]; [fd] tells sockets apart. *)
Inductive socket :=
| PlainSocket (fd : nat)
| SSLSocket (fd : nat).

(** [isinstance(value, ssl.SSLSocket)] *)
Definition is_ssl (value : socket) : bool :=
  match value with
  | SSLSocket _ => true
  | PlainSocket _ => false
  end.

(** The object: its [_sock] attribute, and the sockets handed to
    [context.wrap_socket] so far. *)
Record t := {
  _sock : option socket;
  wrap_calls : list socket
}.

(** After [__init__] without a host: nothing connected, [_sock] is None. *)
Definition init : t := {| _sock := None; wrap_calls := [] |}.

(** The getter of the [sock] property. *)
Definition sock (self : t) : option socket := _sock self.

(** The setter of the [sock] property; [wrap_socket] is
    [self.context.wrap_socket], which returns the wrapped socket or raises.
    A socket that is not an SSL socket is handed to [wrap_socket] first:
    the call is made whether it returns or raises.  When it raises, the
    exception leaves the setter and [_sock] keeps its value.  The result is
    the object after the assignment and the message of the exception, if
    one was raised. *)
Definition set_sock (wrap_socket : socket → socket + string)
    (value : option socket) (self : t) : t * option string :=
  match value with
  | Some v =>
      if negb (is_ssl v) then
        let called := wrap_calls self ++ [v] in
        match wrap_socket v with
        | inl v' => ({| _sock := Some v'; wrap_calls := called |}, None)
        | inr msg => ({| _sock := _sock self; wrap_calls := called |}, Some msg)
        end
      else ({| _sock := Some v; wrap_calls := wrap_calls self |}, None)
  | None => ({| _sock := None; wrap_calls := wrap_calls self |}, None)
  end.

(** A series of assignments, each on the object the one before left,
    whether it raised or not. *)
Definition assign_all (wrap_socket : socket → socket + string)
    (values : list (option socket)) (self : t) : t :=
  foldl (λ o v, (set_sock wrap_socket v o).1) self values.

(** The values of a series of assignments that are sockets but not SSL
    sockets, in order. *)
Definition plain_sockets (values : list (option socket)) : list socket :=
  omap (λ value, match value with
                 | Some v => if is_ssl v then None else Some v
                 | None => None
                 end) values.

(** The stored socket is None or an SSL socket. *)
Definition secured (self : t) : Prop :=
  match sock self with
  | Some v => is_ssl v = true
  | None => True
  end.

End ImplicitFTP_TLS.

(** ** More readings of a record of calls *)

(** Paths the extractions wrote members to. *)
Definition member_targets (tr : list event) : list string :=
  tr ≫= λ e, match e with
             | ExtractAll _ _ written _ => written.*1
             | _ => []
             end.

(** Archives that were opened for unpacking. *)
Definition unpackings (tr : list event) : list string :=
  omap (λ e, match e with
             | ZipOpen p _ | ExtractAll p _ _ _ => Some p
             | _ => None
             end) tr.

(** File names announced as downloaded. *)
Definition announced_downloads (tr : list event) : list string :=
  List.filter (λ m, PyStr.startswith m "Downloaded: ") (infos tr).

(** Folders the extractions unpacked into. *)
Definition extraction_folders (tr : list event) : list string :=
  omap (λ e, match e with ExtractAll _ d _ _ => Some d | _ => None end) tr.

(** The calls [tr] took the filesystem from [fs0] to [fs1] without
    deleting anything, changing only paths that were opened for a download
    or written by an extraction, unpacking only archives opened in [tr],
    only into [out], and not at all when [unpack] is off. *)
Definition contained (fs0 fs1 : gmap string string) (out : string)
    (unpack : bool) (tr : list event) : Prop :=
  (∀ q, is_Some (fs0 !! q) → is_Some (fs1 !! q))
  ∧ (∀ q, fs1 !! q ≠ fs0 !! q → q ∈ opened_ok tr ∨ q ∈ member_targets tr)
  ∧ (unpack = false → unpackings tr = [] ∧ member_targets tr = [])
  ∧ (∀ a, a ∈ unpackings tr → a ∈ opened_ok tr)
  ∧ (∀ d, d ∈ extraction_folders tr → d = out).

(** Sources the index loader tried to load. *)
Definition load_attempts (tr : list event) : list string :=
  omap (λ e, match e with LoadLayer u _ => Some u | _ => None end) tr.

(** ** Sample worlds *)

Definition init : state :=
  {| files := ∅; project := []; calls := []; downloaded_files := 0 |}.

(** Everything works; every archive holds one raster. *)
Definition env_fine : Env :=
  {| os_path_isdir := λ _, true;
     ftp_connect := λ _ _, None;
     ftp_login := λ _ _, None;
     ftp_prot_p := None;
     ftp_quit := None;
     ogr_valid := λ _, true;
     ogr_renderer := λ _, true;
     file_open_wb := λ _ _, None;
     ftp_retrbinary := λ _ _, ("PK-archive", None);
     zip_open := λ _ _, None;
     zip_extractall := λ _ _ _, ([("DTM_1km.tif", "raster")], None);
     zip_unnamed := "Empty filename." |}.

(** The index resource loads, but as a table without geometry: the layer
    is valid and has no renderer. *)
Definition env_no_geometry : Env :=
  {| os_path_isdir := λ _, true;
     ftp_connect := λ _ _, None;
     ftp_login := λ _ _, None;
     ftp_prot_p := None;
     ftp_quit := None;
     ogr_valid := λ _, true;
     ogr_renderer := λ _, false;
     file_open_wb := λ _ _, None;
     ftp_retrbinary := λ _ _, ("PK-archive", None);
     zip_open := λ _ _, None;
     zip_extractall := λ _ _ _, ([], None);
     zip_unnamed := "Empty filename." |}.

(** Every archive holds members whose names try to leave the folder, a
    directory entry, and a name with redundant components. *)
Definition env_hostile_archive : Env :=
  {| os_path_isdir := λ _, true;
     ftp_connect := λ _ _, None;
     ftp_login := λ _ _, None;
     ftp_prot_p := None;
     ftp_quit := None;
     ogr_valid := λ _, true;
     ogr_renderer := λ _, true;
     file_open_wb := λ _ _, None;
     ftp_retrbinary := λ _ _, ("PK-archive", None);
     zip_open := λ _ _, None;
     zip_extractall := λ _ _ _,
       ([("../../etc/cron.d/x", "job"); ("/abs/y", "y"); ("docs/", "");
         ("a/./b//c.tif", "raster")], None);
     zip_unnamed := "Empty filename." |}.

(** The server delivers something that is not a zip archive. *)
Definition env_corrupt : Env :=
  {| os_path_isdir := λ _, true;
     ftp_connect := λ _ _, None;
     ftp_login := λ _ _, None;
     ftp_prot_p := None;
     ftp_quit := None;
     ogr_valid := λ _, true;
     ogr_renderer := λ _, true;
     file_open_wb := λ _ _, None;
     ftp_retrbinary := λ _ _, ("<html>", None);
     zip_open := λ _ _, Some "File is not a zip file";
     zip_extractall := λ _ _ _, ([], None);
     zip_unnamed := "Empty filename." |}.

(** The destination folder exists but cannot be written to. *)
Definition env_readonly : Env :=
  {| os_path_isdir := λ _, true;
     ftp_connect := λ _ _, None;
     ftp_login := λ _ _, None;
     ftp_prot_p := None;
     ftp_quit := None;
     ogr_valid := λ _, true;
     ogr_renderer := λ _, true;
     file_open_wb := λ _ _, Some "[Errno 13] Permission denied";
     ftp_retrbinary := λ _ _, ("PK-archive", None);
     zip_open := λ _ _, None;
     zip_extractall := λ _ _ _, ([], None);
     zip_unnamed := "Empty filename." |}.

(** The control connection is gone when QUIT is sent. *)
Definition env_quit_fails : Env :=
  {| os_path_isdir := λ _, true;
     ftp_connect := λ _ _, None;
     ftp_login := λ _ _, None;
     ftp_prot_p := None;
     ftp_quit := Some "421 Timeout";
     ogr_valid := λ _, true;
     ogr_renderer := λ _, true;
     file_open_wb := λ _ _, None;
     ftp_retrbinary := λ _ _, ("PK-archive", None);
     zip_open := λ _ _, None;
     zip_extractall := λ _ _ _, ([], None);
     zip_unnamed := "Empty filename." |}.

(** The login is rejected. *)
Definition env_no_login : Env :=
  {| os_path_isdir := λ _, true;
     ftp_connect := λ _ _, None;
     ftp_login := λ _ _, Some "530 Login incorrect.";
     ftp_prot_p := None;
     ftp_quit := None;
     ogr_valid := λ _, false;
     ogr_renderer := λ _, true;
     file_open_wb := λ _ _, None;
     ftp_retrbinary := λ _ _, ("PK-archive", None);
     zip_open := λ _ _, None;
     zip_extractall := λ _ _ _, ([], None);
     zip_unnamed := "Empty filename." |}.

(** The archive holds an empty member that carries the archive's own name. *)
Definition env_self_named : Env :=
  {| os_path_isdir := λ _, true;
     ftp_connect := λ _ _, None;
     ftp_login := λ _ _, None;
     ftp_prot_p := None;
     ftp_quit := None;
     ogr_valid := λ _, true;
     ogr_renderer := λ _, true;
     file_open_wb := λ _ _, None;
     ftp_retrbinary := λ _ _, ("PK-archive", None);
     zip_open := λ _ _, None;
     zip_extractall := λ _ _ _, ([("DTM_605_64_TIF_UTM32-ETRS89.zip", "")], None);
     zip_unnamed := "Empty filename." |}.

Definition grid_layer (ids : list attr_value) : map_layer :=
  {| layer_type := VectorLayer;
     fields := ["name"; "grid_id"];
     selectedFeatures :=
       imap (λ i v, {| feature_id := Z.of_nat i;
                       attributes := [AttrStr "cell"; v] |}) ids |}.

Definition sample_parameters (unpack : bool) : parameters :=
  {| ATTRIBUTE_FIELD := 1; BLOCK_TYPE := 0;
     FTP_USERNAME := "user"; FTP_PASSWORD := "secret";
     OUTPUT_FOLDER := "/data/out"; UNPACK_ZIP := unpack |}.

Definition dtm : template :=
  {| ftp_path := "/dhm_danmarks_hoejdemodel/DTM/";
     filename_prefix := "DTM_";
     filename_suffix := "_TIF_UTM32-ETRS89.zip" |}.

Definition cell (i : Z) (id : string) : feature :=
  {| feature_id := i; attributes := [AttrStr "cell"; AttrStr id] |}.

Definition no_password : parameters :=
  {| ATTRIBUTE_FIELD := 1; BLOCK_TYPE := 0;
     FTP_USERNAME := "user"; FTP_PASSWORD := "";
     OUTPUT_FOLDER := "/data/out"; UNPACK_ZIP := false |}.

Definition two_cells : map_layer :=
  grid_layer [AttrStr "605_64"; NULL; AttrStr "606_64"].

Definition one_cell : map_layer := grid_layer [AttrStr "605_64"].

(** The connection breaks in the middle of every transfer. *)
Definition env_broken_transfer : Env :=
  {| os_path_isdir := λ _, true;
     ftp_connect := λ _ _, None;
     ftp_login := λ _ _, None;
     ftp_prot_p := None;
     ftp_quit := None;
     ogr_valid := λ _, true;
     ogr_renderer := λ _, true;
     file_open_wb := λ _ _, None;
     ftp_retrbinary := λ _ _, ("PK-arc", Some "[Errno 104] Connection reset by peer");
     zip_open := λ _ _, None;
     zip_extractall := λ _ _ _, ([], None);
     zip_unnamed := "Empty filename." |}.

(** A context whose handshake fails on the socket with descriptor 8. *)
Definition wrap_refusing (v : ImplicitFTP_TLS.socket)
    : ImplicitFTP_TLS.socket + string :=
  match v with
  | ImplicitFTP_TLS.PlainSocket 8 => inr "handshake failure"
  | ImplicitFTP_TLS.PlainSocket fd | ImplicitFTP_TLS.SSLSocket fd =>
      inl (ImplicitFTP_TLS.SSLSocket fd)
  end.

Definition no_cells : map_layer := grid_layer [NULL; AttrStr ""].

(** ** Examples *)

Example split_slashes : split_on "/" "a/b//c/" = ["a"; "b"; ""; "c"; ""].
Proof. reflexivity. Qed.
Example normpath_dots : normpath "/data/out/./x/../y" = "/data/out/y".
Proof. reflexivity. Qed.
Example normpath_two_slashes : normpath "//a//b/" = "//a/b".
Proof. reflexivity. Qed.
Example normpath_three_slashes : normpath "///a" = "/a".
Proof. reflexivity. Qed.
Example normpath_relative : normpath "../a/../.." = "../..".
Proof. reflexivity. Qed.
Example normpath_root : normpath "/.." = "/".
Proof. reflexivity. Qed.
Example normpath_empty : normpath "" = ".".
Proof. reflexivity. Qed.
Example member_stays_inside :
  zip_targetpath "/data/out" "../../etc/cron.d/x" = "/data/out/etc/cron.d/x".
Proof. reflexivity. Qed.
Example absolute_member_stays_inside :
  zip_targetpath "/data/out/" "/abs/y" = "/data/out/abs/y".
Proof. reflexivity. Qed.
Example hostile_archive_is_unpacked_inside :
  member_targets
    (calls (process_feature env_hostile_archive ["name"; "grid_id"] "grid_id"
              (select_template "DTM") "/data/out" true (cell 0 "605_64") init).2)
  = ["/data/out/etc/cron.d/x"; "/data/out/abs/y"; "/data/out/a/b/c.tif"].
Proof. reflexivity. Qed.
Example unnamed_member_ends_the_extraction :
  extract_members "Empty filename." "/data/out" [("a", "1"); ("..", "2"); ("b", "3")] None
  = ([("/data/out/a", "1")], Some "Empty filename.").
Proof. reflexivity. Qed.
Example number_zero_is_skipped :
  (processAlgorithm env_fine (Some (grid_layer [AttrInt 605; AttrInt 0]))
     (sample_parameters false) init).1 = Ok 1.
Proof. reflexivity. Qed.
Example number_is_rendered :
  opened (calls (processAlgorithm env_fine (Some (grid_layer [AttrInt 605; AttrInt 0]))
                   (sample_parameters false) init).2)
  = ["/data/out/DTM_605_TIF_UTM32-ETRS89.zip"].
Proof. reflexivity. Qed.
Example table_without_geometry :
  (load_processAlgorithm env_no_geometry "https://example.org/table.csv" init).1
  = Raise AttributeError.
Proof. reflexivity. Qed.
Example failed_wrap_is_a_call :
  ImplicitFTP_TLS.set_sock wrap_refusing (Some (ImplicitFTP_TLS.PlainSocket 8))
    ImplicitFTP_TLS.init
  = ({| ImplicitFTP_TLS._sock := None;
        ImplicitFTP_TLS.wrap_calls := [ImplicitFTP_TLS.PlainSocket 8] |},
     Some "handshake failure").
Proof. reflexivity. Qed.
Example join_plain : os_path_join "out" "x" = "out/x".
Proof. reflexivity. Qed.
Example join_slash : os_path_join "out/" "x" = "out/x".
Proof. reflexivity. Qed.
Example join_abs : os_path_join "out" "/abs" = "/abs".
Proof. reflexivity. Qed.
Example join_empty : os_path_join "" "x" = "x".
Proof. reflexivity. Qed.
Example index_last : py_index BLOCK_TYPES (-1) = Some "Pointclouds".
Proof. reflexivity. Qed.
Example index_out : py_index BLOCK_TYPES 3 = None.
Proof. reflexivity. Qed.
Example chain_has_no_else : select_template "Pointcloud" = None.
Proof. reflexivity. Qed.
Example ends_zip : PyStr.endswith (PyStr.lower "DTM_1_TIF.ZIP") ".zip" = true.
Proof. reflexivity. Qed.

(** ** Paths *)

Lemma split_on_hd sep s : ∃ w ws, split_on sep s = w :: ws.
Proof. induction s as [|c s IH]; simpl; [by eexists _, _|]. destruct (Ascii.eqb c sep); by eexists _, _. Qed.

Lemma split_on_app sep a b :
  split_on sep (a +:+ String sep b) = split_on sep a ++ split_on sep b.
Proof.
  induction a as [|c a IH]; simpl.
  - by rewrite Ascii.eqb_refl.
  - rewrite IH. destruct (Ascii.eqb c sep); [done|].
    destruct (split_on_hd sep a) as (w & ws & ->). done.
Qed.

Lemma split_on_no_sep x : has_sep x = false → split_on "/" x = [x].
Proof.
  induction x as [|c x IH]; simpl; [done|].
  intros [Hc Hx]%orb_false_elim. rewrite Hc, (IH Hx). done.
Qed.

Lemma split_on_parts s : Forall (λ x, has_sep x = false) (split_on "/" s).
Proof.
  induction s as [|c s IH]; simpl; [by constructor|].
  destruct (Ascii.eqb c "/") eqn:Hc; [by constructor|].
  destruct (split_on_hd "/" s) as (w & ws & Hs). rewrite Hs in *. simpl.
  apply Forall_cons in IH as [Hw Hws]. constructor; [|done]. simpl. by rewrite Hc.
Qed.


Lemma split_on_concat parts :
  parts ≠ [] → Forall (λ x, has_sep x = false) parts →
  split_on "/" (String.concat "/" parts) = parts.
Proof.
  induction parts as [|p parts IH]; [done|]. intros _ [Hp Hparts]%Forall_cons.
  destruct parts as [|p' parts]; simpl; [by apply split_on_no_sep|].
  change (split_on "/" (p +:+ String "/" (String.concat "/" (p' :: parts))) = p :: p' :: parts).
  rewrite split_on_app, (split_on_no_sep p Hp), IH; done.
Qed.

Lemma endswith_cons c a suf :
  PyStr.endswith (String c a) suf
  = if String.eqb (String c a) suf then true else PyStr.endswith a suf.
Proof. done. Qed.

Lemma endswith_sep a :
  PyStr.endswith a "/" = true → ∃ a', a = a' +:+ "/".
Proof.
  induction a as [|c a IH]; [done|]. rewrite endswith_cons.
  destruct (String.eqb (String c a) "/") eqn:Heq.
  - apply String.eqb_eq in Heq as ->. by exists "".
  - intros (a' & ->)%IH. by exists (String c a').
Qed.

Lemma path_part_step i acc x :
  path_part x = true → normpath_step i acc x = acc ++ [x].
Proof.
  unfold path_part, invalid_path_part, normpath_step.
  intros [H _]%andb_true_iff. apply negb_true_iff in H.
  apply orb_false_elim in H as [[H1 H2]%orb_false_elim H3].
  by rewrite H1, H2, H3.
Qed.

Lemma path_parts_fold i acc parts :
  Forall (λ x, path_part x = true) parts →
  foldl (normpath_step i) acc parts = acc ++ parts.
Proof.
  revert acc. induction parts as [|x parts IH]; intros acc; [by rewrite app_nil_r|].
  intros [Hx Hparts]%Forall_cons. simpl.
  rewrite (path_part_step _ _ _ Hx), IH by done. by rewrite <- app_assoc.
Qed.

Lemma path_part_no_sep x : path_part x = true → has_sep x = false.
Proof. unfold path_part. intros [_ H]%andb_true_iff. by apply negb_true_iff. Qed.

Lemma path_part_first x :
  path_part x = true → ∃ c x', x = String c x' ∧ Ascii.eqb c "/" = false.
Proof.
  unfold path_part, invalid_path_part. destruct x as [|c x']; [done|].
  simpl. intros [_ H]%andb_true_iff. apply negb_true_iff, orb_false_elim in H as [H _].
  eauto.
Qed.

Lemma concat_first parts :
  parts ≠ [] → Forall (λ x, path_part x = true) parts →
  ∃ c r, String.concat "/" parts = String c r ∧ Ascii.eqb c "/" = false.
Proof.
  destruct parts as [|p parts]; [done|]. intros _ [Hp _]%Forall_cons.
  destruct (path_part_first p Hp) as (c & x' & -> & Hc).
  destruct parts; simpl; eauto.
Qed.

Lemma truthy_first c r : PyStr.truthy (String c r) = true.
Proof. done. Qed.

Lemma startswith_cons b s a pre :
  PyStr.startswith (String b s) (String a pre) = Ascii.eqb a b && PyStr.startswith s pre.
Proof. done. Qed.

Lemma startswith_nil s : PyStr.startswith s "" = true.
Proof. by destruct s. Qed.

Lemma startswith_empty a pre : PyStr.startswith "" (String a pre) = false.
Proof. done. Qed.

Lemma eqb_sep_one c : String.eqb (String c "") "/" = Ascii.eqb "/" c.
Proof.
  destruct (Ascii.eqb "/" c) eqn:H.
  - apply Ascii.eqb_eq in H as <-. done.
  - apply String.eqb_neq. intros [= ->]. by rewrite Ascii.eqb_refl in H.
Qed.

Lemma eqb_sep_more c c' s : String.eqb (String c (String c' s)) "/" = false.
Proof. apply String.eqb_neq. done. Qed.

Lemma append_cons c a b : String c a +:+ b = String c (a +:+ b).
Proof. done. Qed.

Lemma append_nil b : "" +:+ b = b.
Proof. done. Qed.

Lemma endswith_nil c suf : PyStr.endswith "" (String c suf) = false.
Proof. done. Qed.

Local Ltac slashes :=
  repeat (rewrite ?endswith_cons, ?endswith_nil, ?eqb_sep_one, ?eqb_sep_more,
            ?append_cons, ?append_nil, ?startswith_cons, ?startswith_nil,
            ?startswith_empty;
          cbn [negb orb andb]).

Lemma initial_slashes_join a c r :
  PyStr.truthy a = true → Ascii.eqb "/" c = false →
  initial_slashes (os_path_join a (String c r)) = initial_slashes a
  ∧ PyStr.startswith (os_path_join a (String c r)) "/" = PyStr.startswith a "/".
Proof.
  intros Ha Hc. unfold os_path_join.
  rewrite startswith_cons, Hc, Ha. cbn [negb orb andb].
  unfold initial_slashes.
  destruct a as [|c1 [|c2 [|c3 a]]]; [done|..].
  - slashes. destruct (Ascii.eqb "/" c1) eqn:H1; slashes; rewrite ?H1, ?Hc; slashes; done.
  - slashes.
    destruct (Ascii.eqb "/" c1) eqn:H1, (Ascii.eqb "/" c2) eqn:H2; slashes;
      rewrite ?H1, ?H2, ?Hc; slashes; done.
  - destruct (PyStr.endswith _ "/"); slashes; done.
Qed.

Lemma concat_truthy parts :
  parts ≠ [] → Forall (λ x, path_part x = true) parts →
  PyStr.truthy (String.concat "/" parts) = true.
Proof. intros H1 H2. by destruct (concat_first parts H1 H2) as (c & r & -> & _). Qed.

Lemma concat_app_parts acc parts :
  parts ≠ [] → Forall (λ x, path_part x = true) parts →
  PyStr.truthy (String.concat "/" (acc ++ parts)) = true.
Proof.
  intros H1 H2. induction acc as [|a acc IH]; [by apply concat_truthy|].
  simpl. destruct (acc ++ parts) eqn:Heq.
  - by destruct acc, parts.
  - destruct a; [done|done].
Qed.

Lemma path_of_truthy n acc parts :
  parts ≠ [] → Forall (λ x, path_part x = true) parts →
  PyStr.truthy (path_of n (acc ++ parts)) = true.
Proof.
  intros H1 H2. unfold path_of.
  destruct n as [|[|n]]; simpl; [by apply concat_app_parts|done..].
Qed.

Lemma components_sep a :
  components (a +:+ "/") = components a.
Proof.
  unfold components.
  assert (Hs : PyStr.startswith (a +:+ "/") "/" = PyStr.startswith a "/" ∨ a = "").
  { destruct a; [by right|by left]. }
  destruct Hs as [->| ->]; [|done].
  by rewrite (split_on_app "/" a ""), foldl_app.
Qed.

(** A path of one or more proper components, joined to a folder and
    normalised, is the normalised folder followed by those components. *)
Lemma normpath_join folder parts :
  parts ≠ [] → Forall (λ x, path_part x = true) parts →
  normpath (os_path_join folder (String.concat "/" parts))
  = path_of (initial_slashes folder) (components folder ++ parts).
Proof.
  intros Hne Hparts.
  assert (Hnosep : Forall (λ x, has_sep x = false) parts).
  { eapply Forall_impl; [exact Hparts|]. intros x. apply path_part_no_sep. }
  destruct (concat_first parts Hne Hparts) as (c & r & Harc & Hc).
  rewrite Ascii.eqb_sym in Hc.
  destruct folder as [|c0 folder0] eqn:Hfolder.
  { unfold os_path_join. rewrite Harc. rewrite startswith_cons, Hc. simpl.
    rewrite <- Harc, append_nil. unfold normpath. rewrite (concat_truthy parts Hne Hparts). simpl.
    unfold initial_slashes, components. rewrite Harc, !startswith_cons, Hc.
    cbn [andb]. rewrite <- Harc, (split_on_concat parts Hne Hnosep).
    rewrite (path_parts_fold _ _ _ Hparts). simpl.
    assert (Hp := path_of_truthy 0 [] parts Hne Hparts).
    rewrite app_nil_l in Hp. by rewrite Hp. }
  rewrite <- Hfolder.
  assert (Ha : PyStr.truthy folder = true) by by subst.
  clear Hfolder c0 folder0.
  rewrite Harc.
  destruct (initial_slashes_join folder c r Ha Hc) as [Hinit Hstart].
  unfold normpath. rewrite Hinit.
  assert (Hcomp : components (os_path_join folder (String c r)) = components folder ++ parts).
  { unfold components at 1. rewrite Hstart. unfold os_path_join.
    rewrite startswith_cons, Hc, Ha. cbn [negb orb andb].
    destruct (PyStr.endswith folder "/") eqn:He.
    - apply endswith_sep in He as (a' & ->).
      rewrite components_sep.
      assert (Hs : PyStr.startswith (a' +:+ "/") "/" = PyStr.startswith a' "/" ∨ a' = "").
      { destruct a'; [by right|by left]. }
      rewrite <- Harc.
      replace ((a' +:+ "/") +:+ String.concat "/" parts)
        with (a' +:+ String "/" (String.concat "/" parts)).
      2:{ clear. induction a' as [|x a' IH]; [done|]. rewrite !append_cons. by f_equal. }
      rewrite split_on_app, foldl_app, (split_on_concat parts Hne Hnosep).
      rewrite (path_parts_fold _ _ _ Hparts).
      destruct Hs as [->| ->]; [done|]. simpl. done.
    - rewrite <- Harc.
      change (folder +:+ "/" +:+ String.concat "/" parts)
        with (folder +:+ String "/" (String.concat "/" parts)).
      rewrite split_on_app, foldl_app, (split_on_concat parts Hne Hnosep).
      by rewrite (path_parts_fold _ _ _ Hparts). }
  rewrite Hcomp.
  assert (Ht : PyStr.truthy (os_path_join folder (String c r)) = true).
  { unfold os_path_join. rewrite startswith_cons, Hc. cbn [andb].
    destruct (_ || _); by destruct folder. }
  rewrite Ht. simpl. by rewrite (path_of_truthy _ _ parts Hne Hparts).
Qed.

Lemma zip_arcname_parts name :
  Forall (λ x, path_part x = true)
    (List.filter (λ x, negb (invalid_path_part x)) (split_on "/" name)).
Proof.
  generalize (split_on_parts name).
  induction (split_on "/" name) as [|x l IH]; [constructor|].
  intros [Hx Hl]%Forall_cons. cbn [List.filter].
  destruct (invalid_path_part x) eqn:Hv; cbn [negb]; [by apply IH|].
  constructor; [|by apply IH]. unfold path_part. by rewrite Hv, Hx.
Qed.

Lemma zip_targetpath_below folder name :
  PyStr.truthy (zip_arcname name) = true →
  below folder (zip_targetpath folder name).
Proof.
  intros Harc. unfold zip_targetpath, zip_arcname in *.
  assert (Hparts := zip_arcname_parts name).
  set (parts := List.filter _ _) in *.
  assert (Hne : parts ≠ []) by (by destruct parts).
  exists parts. split_and!; [done..|]. by apply normpath_join.
Qed.


(** Every file an extraction writes lies below the target directory. *)
Lemma extract_members_below unnamed folder ms r :
  Forall (λ w, below folder w.1) (extract_members unnamed folder ms r).1.
Proof.
  induction ms as [|[name data] ms IH]; [constructor|].
  cbn [extract_members].
  destruct (zip_is_dir name); [done|].
  destruct (PyStr.truthy (zip_arcname name)) eqn:Harc; [|constructor].
  destruct (extract_members unnamed folder ms r) as [written r'].
  constructor; [|done]. by apply zip_targetpath_below.
Qed.

(** ** The state after a call *)

Lemma write_members_files ms s :
  files (write_members ms s)
  = foldl (λ fs m, <[m.1 := m.2]> fs) (files s) ms.
Proof.
  unfold write_members. revert s.
  induction ms as [|m ms IH]; intros s; simpl; [done|]. by rewrite IH.
Qed.

Lemma write_members_calls ms s :
  calls (write_members ms s) = calls s.
Proof.
  unfold write_members. revert s.
  induction ms as [|m ms IH]; intros s; simpl; [done|]. by rewrite IH.
Qed.

Lemma write_members_project ms s :
  project (write_members ms s) = project s.
Proof.
  unfold write_members. revert s.
  induction ms as [|m ms IH]; intros s; simpl; [done|]. by rewrite IH.
Qed.

Lemma write_members_count ms s :
  downloaded_files (write_members ms s) = downloaded_files s.
Proof.
  unfold write_members. revert s.
  induction ms as [|m ms IH]; intros s; simpl; [done|]. by rewrite IH.
Qed.

(** One branch of the guarded block: the state it ends in, the calls it
    made, and the constructor of [attempt] it is. *)
Local Ltac closes_with n :=
  eexists _, _, n; split_and!;
  [ reflexivity
  | simpl; rewrite ?write_members_calls; simpl; by rewrite <- ?app_assoc
  | simpl; by rewrite ?write_members_project
  | simpl; rewrite ?write_members_count; simpl; lia
  | simpl; rewrite ?write_members_files; simpl; rewrite ?insert_insert_eq;
    by constructor ].

(** The guarded block never raises: whatever the environment answers, it
    goes one of the six ways of [attempt]. *)
Lemma guarded_block env out unpack dir filename s :
  ∃ s' tr n,
    try_except (transfer_and_unpack env out unpack dir filename)
      (λ e, reportError ("Failed to download " +:+ filename +:+ ": " +:+ exn_str e)) s
    = (Ok tt, s')
    ∧ calls s' = calls s ++ tr
    ∧ project s' = project s
    ∧ downloaded_files s' = downloaded_files s + n
    ∧ attempt (unpack && PyStr.endswith (PyStr.lower filename) ".zip") filename
        (os_path_join out filename) ("RETR " +:+ dir +:+ filename) out
        (files s) tr n (files s').
Proof.
  unfold try_except, transfer_and_unpack, bind, open_wb.
  destruct (file_open_wb env s (os_path_join out filename)) as [m|]; simpl;
    [closes_with 0|].
  unfold retrbinary.
  destruct (ftp_retrbinary env _ _) as [d [m|]]; simpl; [closes_with 0|].
  destruct (unpack && PyStr.endswith (PyStr.lower filename) ".zip") eqn:Hun;
    simpl; [|closes_with 1].
  unfold zipfile_open.
  destruct (zip_open env _ _) as [m|]; simpl; [closes_with 1|].
  unfold extractall.
  destruct (zip_extractall env _ _ _) as [ms r]; simpl.
  assert (Hbelow := extract_members_below (zip_unnamed env) out ms r).
  destruct (extract_members (zip_unnamed env) out ms r) as [written [m|]]; simpl;
    closes_with 1.
Qed.

(** The loop body, for an attribute the layer has and an assigned
    template, never raises and is a [feature_run]. *)
Lemma process_feature_run env fs field t out unpack f s :
  is_Some (fieldNameIndex fs field) →
  ∃ s' tr n,
    process_feature env fs field (Some t) out unpack f s = (Ok tt, s')
    ∧ calls s' = calls s ++ tr
    ∧ project s' = project s
    ∧ downloaded_files s' = downloaded_files s + n
    ∧ feature_run unpack fs field t out f (files s) tr n (files s').
Proof.
  intros [i Hi]. unfold process_feature.
  assert (Hget : feature_getitem fs f field = Some (grid_id_of fs field f)).
  { unfold grid_id_of, feature_getitem. by rewrite Hi. }
  rewrite Hget. unfold bind at 1. simpl.
  destruct (attr_truthy (grid_id_of fs field f)) eqn:Hid; simpl.
  - unfold bind. simpl.
    set (announce := PushInfo (downloading_message (attempt_filename fs field t f)
                                 (attempt_path fs field t out f))).
    destruct (guarded_block env out unpack (ftp_path t)
                (format_filename t (attr_str (grid_id_of fs field f)))
                (record announce s))
      as (s' & tr & n & Hrun & Hcalls & Hproj & Hcount & Hatt).
    exists s', (announce :: tr), n.
    split_and!.
    + exact Hrun.
    + rewrite Hcalls. simpl. by rewrite <- app_assoc.
    + by rewrite Hproj.
    + by rewrite Hcount.
    + by apply attempted.
  - eexists _, _, 0. split_and!; [reflexivity|..]; simpl.
    + done.
    + done.
    + lia.
    + by apply skipped.
Qed.

Lemma for_each_cons {A} (x : A) (l : list A) (body : A → M unit) :
  for_each (x :: l) body = bind (body x) (λ _, for_each l body).
Proof. reflexivity. Qed.

Arguments for_each : simpl never.

(** The loop never raises and is a [selection_run]. *)
Lemma for_each_run env fs field t out unpack feats s :
  is_Some (fieldNameIndex fs field) →
  ∃ s' tr n,
    for_each feats (process_feature env fs field (Some t) out unpack) s = (Ok tt, s')
    ∧ calls s' = calls s ++ tr
    ∧ project s' = project s
    ∧ downloaded_files s' = downloaded_files s + n
    ∧ selection_run unpack fs field t out feats (files s) tr n (files s').
Proof.
  intros Hfield. revert s.
  induction feats as [|f feats IH]; intros s.
  - exists s, [], 0. split_and!; try done.
    + by rewrite app_nil_r.
    + constructor.
  - destruct (process_feature_run env fs field t out unpack f s Hfield)
      as (s1 & tr1 & n1 & Hrun1 & Hcalls1 & Hproj1 & Hcount1 & Hstep).
    destruct (IH s1) as (s2 & tr2 & n2 & Hrun2 & Hcalls2 & Hproj2 & Hcount2 & Hrest).
    exists s2, (tr1 ++ tr2), (n1 + n2). split_and!.
    + rewrite for_each_cons. unfold bind. by rewrite Hrun1.
    + by rewrite Hcalls2, Hcalls1, app_assoc.
    + by rewrite Hproj2.
    + lia.
    + by eapply selection_next.
Qed.

Lemma py_index_elem_of {A} (l : list A) i x : py_index l i = Some x → x ∈ l.
Proof.
  unfold py_index. intros H.
  destruct (0 <=? i)%Z; [by eapply list_elem_of_lookup_2|].
  destruct (0 <=? _)%Z; [by eapply list_elem_of_lookup_2|done].
Qed.

Lemma fieldNameIndex_elem_of fs name : name ∈ fs → is_Some (fieldNameIndex fs name).
Proof.
  induction fs as [|f fs IH]; intros H; [by apply elem_of_nil in H|].
  simpl. destruct (String.eqb f name) eqn:E; [by eexists|].
  apply elem_of_cons in H as [->|H].
  - by rewrite String.eqb_refl in E.
  - destruct (IH H) as [i ->]. by eexists.
Qed.

Lemma select_template_total bt : bt ∈ BLOCK_TYPES → is_Some (select_template bt).
Proof.
  unfold BLOCK_TYPES. intros H.
  repeat (apply elem_of_cons in H as [->|H]); [by eexists..|].
  by apply elem_of_nil in H.
Qed.

(** An invocation whose preconditions hold and whose session opens runs
    the loop over the whole selection and then sends QUIT, whose outcome
    alone decides between returning the counter and raising. *)
Lemma processAlgorithm_run env l p s :
  preconditions_ok env (Some l) p = true →
  indices_ok (Some l) p = true →
  session_error env p = None →
  ∃ field bt t s' tr,
    py_index (fields l) (ATTRIBUTE_FIELD p) = Some field
    ∧ py_index BLOCK_TYPES (BLOCK_TYPE p) = Some bt
    ∧ select_template bt = Some t
    ∧ selection_run (UNPACK_ZIP p) (fields l) field t (OUTPUT_FOLDER p)
        (selectedFeatures l) (files s) tr (downloaded_files s') (files s')
    ∧ project s' = project s
    ∧ calls s' = calls s ++ invocation_calls l p tr (ftp_quit env) (downloaded_files s')
    ∧ processAlgorithm env (Some l) p s
      = (match ftp_quit env with
         | None => Ok (downloaded_files s')
         | Some m => Raise (LibError m)
         end, s').
Proof.
  unfold preconditions_ok, indices_ok, session_error, invocation_calls.
  intros Hpre Hidx Hsess.
  apply andb_prop in Hpre as [Hpre Hsel]. apply andb_prop in Hpre as [Hpre Hdir].
  apply andb_prop in Hpre as [Hpre Hpw]. apply andb_prop in Hpre as [Hvec Huser].
  apply andb_prop in Hidx as [Hfield Hbt].
  apply bool_decide_eq_true in Hfield as [field Hfield].
  apply bool_decide_eq_true in Hbt as [bt Hbt].
  destruct (select_template_total bt (py_index_elem_of _ _ _ Hbt)) as [t Ht].
  destruct (ftp_connect env ftp_server ftp_port) eqn:Hc; [done|].
  destruct (ftp_login env (FTP_USERNAME p) (FTP_PASSWORD p)) eqn:Hl; [done|].
  apply negb_true_iff, bool_decide_eq_false in Hsel.
  pose (s0 := record (PushInfo "Connected to FTPS server.")
               (record (ProtP None)
                 (record (Login (FTP_USERNAME p) (FTP_PASSWORD p) None)
                   (record (Connect ftp_server ftp_port None)
                     (record (PushInfo (processing_message l)) s))))).
  pose (s1 := {| files := files s0; project := project s0; calls := calls s0;
                 downloaded_files := 0 |}).
  destruct (for_each_run env (fields l) field t (OUTPUT_FOLDER p) (UNPACK_ZIP p)
              (selectedFeatures l) s1
              (fieldNameIndex_elem_of _ _ (py_index_elem_of _ _ _ Hfield)))
    as (s2 & tr & n & Hrun & Hcalls & Hproj & Hcount & Hsel_run).
  simpl in Hcount. subst n.
  exists field, bt, t.
  assert (Hloop : processAlgorithm env (Some l) p s
                  = bind (quit env) (λ _, bind get_downloaded_files (λ n,
                      bind (pushInfo (complete_message n)) (λ _, ret n))) s2).
  { unfold processAlgorithm.
    rewrite Hvec. unfold bind at 1. simpl.
    rewrite Hfield. unfold bind at 1. simpl.
    rewrite Hbt. unfold bind at 1. simpl.
    rewrite Huser, Hpw. simpl.
    unfold bind at 1. simpl. rewrite Hdir. simpl.
    destruct (selectedFeatures l) as [|f0 feats] eqn:Hfeats; [done|].
    rewrite Ht.
    unfold bind at 1. simpl.
    unfold bind at 1. unfold try_except, bind at 1 2 3, connect, login, prot_p. simpl.
    rewrite Hc, Hl, Hsess. simpl.
    unfold bind at 1. simpl.
    unfold bind at 1.
    subst s1 s0. unfold processing_message in Hrun. rewrite Hfeats in Hrun.
    simpl in Hrun. rewrite Hrun. reflexivity. }
  rewrite Hloop. clear Hloop.
  unfold bind, quit, get_downloaded_files, pushInfo, emit, ret.
  destruct (ftp_quit env) as [m|]; simpl.
  - exists (record (Quit (Some m)) s2), tr. split_and!; try done.
    simpl. rewrite Hcalls. subst s1 s0. simpl. by rewrite <- !app_assoc.
  - exists (record (PushInfo (complete_message (downloaded_files s2)))
              (record (Quit None) s2)), tr.
    split_and!; try done.
    simpl. rewrite Hcalls. subst s1 s0. simpl. by rewrite <- !app_assoc.
Qed.

(** ** What one attempt leaves in the record of calls *)

Section RunFacts.

Context (unpack : bool) (fs : list string) (field : string) (t : template)
  (out : string).

Local Ltac by_attempt := intros H; destruct H; simpl; auto.

Lemma attempt_opened u fn p c fs0 tr n fs1 :
  attempt u fn p c out fs0 tr n fs1 → opened tr = [p].
Proof. by_attempt. Qed.

Lemma attempt_fetched u fn p c fs0 tr n fs1 :
  attempt u fn p c out fs0 tr n fs1 →
  fetched tr = (λ _, c) <$> opened_ok tr.
Proof. by_attempt. Qed.

Lemma attempt_count u fn p c fs0 tr n fs1 :
  attempt u fn p c out fs0 tr n fs1 → n = length (transferred tr).
Proof. by_attempt. Qed.

Lemma attempt_errors u fn p c fs0 tr n fs1 :
  attempt u fn p c out fs0 tr n fs1 →
  errors tr = failure_message fn <$> failures tr.
Proof. by_attempt. Qed.

Lemma attempt_transfer u fn p c fs0 tr n fs1 :
  attempt u fn p c out fs0 tr n fs1 →
  length (transferred tr) + length (transfer_failures tr) = 1.
Proof. by_attempt. Qed.

Lemma attempt_skips u fn p c fs0 tr n fs1 :
  attempt u fn p c out fs0 tr n fs1 → skips tr = [].
Proof. by_attempt. Qed.

Lemma attempt_quits u fn p c fs0 tr n fs1 :
  attempt u fn p c out fs0 tr n fs1 → quits tr = [].
Proof. by_attempt. Qed.

Lemma attempt_failures u fn p c fs0 tr n fs1 :
  attempt u fn p c out fs0 tr n fs1 →
  length (failures tr) = length (transfer_failures tr) + length (extract_failures tr)
  ∧ length (failures tr) ≤ 1
  ∧ length (extract_failures tr) ≤ length (transferred tr).
Proof. intros H; destruct H; simpl; lia. Qed.

End RunFacts.

(** ** What a whole selection leaves in the record of calls *)

Section SelectionFacts.

Context (unpack : bool) (fs : list string) (field : string) (t : template)
  (out : string).

Local Ltac by_feature lem :=
  intros H; destruct H as [Hid|tr n fs1 Hid Hatt]; rewrite Hid; simpl;
  [done|try (rewrite (lem _ _ _ _ _ _ _ _ _ Hatt)); try done].

Lemma feature_run_opened f fs0 tr n fs1 :
  feature_run unpack fs field t out f fs0 tr n fs1 →
  opened tr = if has_grid_id fs field f then [attempt_path fs field t out f] else [].
Proof. by_feature attempt_opened. Qed.

Lemma feature_run_fetched f fs0 tr n fs1 :
  feature_run unpack fs field t out f fs0 tr n fs1 →
  fetched tr = (λ _, attempt_cmd fs field t f) <$> opened_ok tr.
Proof.
  intros H; destruct H as [Hid|tr n fs1 Hid Hatt]; simpl; [done|].
  by rewrite (attempt_fetched _ _ _ _ _ _ _ _ _ Hatt).
Qed.

Lemma feature_run_count f fs0 tr n fs1 :
  feature_run unpack fs field t out f fs0 tr n fs1 → n = length (transferred tr).
Proof.
  intros H; destruct H as [Hid|tr n fs1 Hid Hatt]; simpl; [done|].
  by rewrite (attempt_count _ _ _ _ _ _ _ _ _ Hatt).
Qed.

Lemma feature_run_errors f fs0 tr n fs1 :
  feature_run unpack fs field t out f fs0 tr n fs1 →
  errors tr = failure_message (attempt_filename fs field t f) <$> failures tr.
Proof.
  intros H; destruct H as [Hid|tr n fs1 Hid Hatt]; simpl; [done|].
  by rewrite (attempt_errors _ _ _ _ _ _ _ _ _ Hatt).
Qed.

Lemma feature_run_transfer f fs0 tr n fs1 :
  feature_run unpack fs field t out f fs0 tr n fs1 →
  length (transferred tr) + length (transfer_failures tr) = length (opened tr).
Proof.
  intros H; destruct H as [Hid|tr n fs1 Hid Hatt]; simpl; [done|].
  rewrite (attempt_transfer _ _ _ _ _ _ _ _ _ Hatt).
  by rewrite (attempt_opened _ _ _ _ _ _ _ _ _ Hatt).
Qed.

Lemma feature_run_skips f fs0 tr n fs1 :
  feature_run unpack fs field t out f fs0 tr n fs1 →
  skips tr = if has_grid_id fs field f then [] else [skip_message f].
Proof.
  intros H; destruct H as [Hid|tr n fs1 Hid Hatt]; rewrite Hid; [reflexivity|].
  unfold skips, infos, downloading_message. simpl.
  apply (attempt_skips _ _ _ _ _ _ _ _ _ Hatt).
Qed.

Lemma feature_run_quits f fs0 tr n fs1 :
  feature_run unpack fs field t out f fs0 tr n fs1 → quits tr = [].
Proof.
  intros H; destruct H as [Hid|tr n fs1 Hid Hatt]; simpl; [done|].
  apply (attempt_quits _ _ _ _ _ _ _ _ _ Hatt).
Qed.

(** Download attempts: one per feature with a grid identifier, in the
    order of the selection. *)
Lemma selection_run_opened feats fs0 tr n fs1 :
  selection_run unpack fs field t out feats fs0 tr n fs1 →
  opened tr = attempt_path fs field t out <$> List.filter (has_grid_id fs field) feats.
Proof.
  induction 1 as [|f l fs0 tr1 n1 fs1 tr2 n2 fs2 Hf _ IH]; [done|].
  unfold opened in *. rewrite omap_app, IH.
  fold (opened tr1). rewrite (feature_run_opened _ _ _ _ _ Hf). simpl.
  by destruct (has_grid_id fs field f).
Qed.

(** Remote fetches: issued for the attempts whose local open succeeded. *)
Lemma selection_run_fetched feats fs0 tr n fs1 :
  selection_run unpack fs field t out feats fs0 tr n fs1 →
  length (fetched tr) = length (opened_ok tr)
  ∧ fetched tr `sublist_of`
      (attempt_cmd fs field t <$> List.filter (has_grid_id fs field) feats).
Proof.
  induction 1 as [|f l fs0 tr1 n1 fs1 tr2 n2 fs2 Hf _ [IHn IHs]]; [done|].
  unfold fetched, opened_ok in *. rewrite !omap_app, !length_app, IHn.
  fold (fetched tr1) (opened_ok tr1).
  rewrite (feature_run_fetched _ _ _ _ _ Hf), length_fmap. split; [done|].
  simpl. destruct Hf as [Hid|tr n fs1 Hid Hatt]; rewrite Hid; simpl; [done|].
  destruct Hatt; simpl; try (by apply sublist_skip); by apply sublist_cons.
Qed.

(** The counter grows by the number of completed transfers. *)
Lemma selection_run_count feats fs0 tr n fs1 :
  selection_run unpack fs field t out feats fs0 tr n fs1 →
  n = length (transferred tr).
Proof.
  induction 1 as [|f l fs0 tr1 n1 fs1 tr2 n2 fs2 Hf _ IH]; [done|].
  unfold transferred in *. rewrite omap_app, length_app, <- IH.
  by rewrite (feature_run_count _ _ _ _ _ Hf).
Qed.

(** Every library call that raised was reported, and nothing else was. *)
Lemma selection_run_errors feats fs0 tr n fs1 :
  selection_run unpack fs field t out feats fs0 tr n fs1 →
  length (errors tr) = length (failures tr).
Proof.
  induction 1 as [|f l fs0 tr1 n1 fs1 tr2 n2 fs2 Hf _ IH]; [done|].
  unfold errors, failures in *. rewrite !omap_app, !length_app, IH.
  fold (errors tr1) (failures tr1).
  by rewrite (feature_run_errors _ _ _ _ _ Hf), length_fmap.
Qed.

(** Every attempt either completed its transfer or failed in it. *)
Lemma selection_run_transfer feats fs0 tr n fs1 :
  selection_run unpack fs field t out feats fs0 tr n fs1 →
  length (transferred tr) + length (transfer_failures tr) = length (opened tr).
Proof.
  induction 1 as [|f l fs0 tr1 n1 fs1 tr2 n2 fs2 Hf _ IH]; [done|].
  pose proof (feature_run_transfer _ _ _ _ _ Hf) as H1.
  unfold transferred, transfer_failures, opened in *.
  rewrite !omap_app, !length_app. lia.
Qed.

(** Features without a grid identifier: one skip message each. *)
Lemma selection_run_skips feats fs0 tr n fs1 :
  selection_run unpack fs field t out feats fs0 tr n fs1 →
  skips tr = skip_message <$> List.filter (λ f, negb (has_grid_id fs field f)) feats.
Proof.
  induction 1 as [|f l fs0 tr1 n1 fs1 tr2 n2 fs2 Hf _ IH]; [done|].
  unfold skips, infos in *. rewrite omap_app, List.filter_app, IH.
  fold (infos tr1) (skips tr1). rewrite (feature_run_skips _ _ _ _ _ Hf). simpl.
  by destruct (has_grid_id fs field f).
Qed.

(** The loop never sends QUIT. *)
Lemma selection_run_quits feats fs0 tr n fs1 :
  selection_run unpack fs field t out feats fs0 tr n fs1 → quits tr = [].
Proof.
  induction 1 as [|f l fs0 tr1 n1 fs1 tr2 n2 fs2 Hf _ IH]; [done|].
  unfold quits in *. rewrite omap_app, IH.
  fold (quits tr1). by rewrite (feature_run_quits _ _ _ _ _ Hf).
Qed.

(** Failures come from attempts only, at most one per attempt, and an
    extraction can only fail after its transfer completed. *)
Lemma selection_run_failures feats fs0 tr n fs1 :
  selection_run unpack fs field t out feats fs0 tr n fs1 →
  length (failures tr) = length (transfer_failures tr) + length (extract_failures tr)
  ∧ length (failures tr) ≤ length (opened tr)
  ∧ length (extract_failures tr) ≤ length (transferred tr).
Proof.
  induction 1 as [|f l fs0 tr1 n1 fs1 tr2 n2 fs2 Hf _ IH]; [simpl; lia|].
  assert (length (failures tr1) = length (transfer_failures tr1) + length (extract_failures tr1)
          ∧ length (failures tr1) ≤ length (opened tr1)
          ∧ length (extract_failures tr1) ≤ length (transferred tr1)) as H1.
  { destruct Hf as [Hid|tr n fs1 Hid Hatt]; simpl; [lia|].
    pose proof (attempt_failures _ _ _ _ _ _ _ _ _ Hatt).
    rewrite (attempt_opened _ _ _ _ _ _ _ _ _ Hatt). simpl. lia. }
  unfold failures, transfer_failures, extract_failures, opened, transferred in *.
  rewrite !omap_app, !length_app. lia.
Qed.

End SelectionFacts.

(** ** File names *)


Lemma endswith_refl s : PyStr.endswith s s = true.
Proof. destruct s; simpl; [done|]. by rewrite Ascii.eqb_refl, String.eqb_refl. Qed.


Lemma startswith_app a b : PyStr.startswith (a +:+ b) a = true.
Proof. induction a as [|c a IH]; simpl; [done|]. by rewrite Ascii.eqb_refl. Qed.

Lemma select_template_inv bt t :
  select_template bt = Some t →
  filename_suffix t = "_TIF_UTM32-ETRS89.zip"
  ∧ (filename_prefix t = "DTM_" ∨ filename_prefix t = "DSM_"
     ∨ filename_prefix t = "PUNKTSKY_").
Proof.
  unfold select_template. intros H.
  repeat (destruct (String.eqb bt _); [injection H as <-; simpl; auto|]).
  done.
Qed.


(** The file name never starts with a slash, so joining it to the
    destination folder keeps the folder in front. *)
Lemma template_filename_relative bt t id :
  select_template bt = Some t →
  PyStr.startswith (format_filename t id) "/" = false.
Proof.
  intros [_ Hpre]%select_template_inv. unfold format_filename.
  by destruct Hpre as [-> | [-> | ->]].
Qed.


(** ** The ways an invocation ends before the loop *)

(** A failed check raises before anything was called. *)
Lemma precondition_failure env layer p s :
  preconditions_ok env layer p = false →
  ∃ e, processAlgorithm env layer p s = (Raise e, s)
       ∧ (e ∈ precondition_errors ∨ e = IndexError ∧ indices_ok layer p = false).
Proof.
  unfold preconditions_ok, indices_ok, processAlgorithm, precondition_errors.
  intros H.
  destruct layer as [l|]; [|eexists; split; [reflexivity|left; set_solver]].
  destruct (is_vector l) eqn:Hvec; [|eexists; split; [reflexivity|left; set_solver]].
  unfold bind, or_raise, isdir, ret, raise.
  destruct (py_index (fields l) (ATTRIBUTE_FIELD p)) as [field|] eqn:Hfield;
    [|eexists; split; [reflexivity|by right]].
  destruct (py_index BLOCK_TYPES (BLOCK_TYPE p)) as [bt|] eqn:Hbt;
    [|eexists; split; [reflexivity|by right]].
  destruct (PyStr.truthy (FTP_USERNAME p)) eqn:Hu;
    [|eexists; split; [reflexivity|left; set_solver]].
  destruct (PyStr.truthy (FTP_PASSWORD p)) eqn:Hp;
    [|eexists; split; [reflexivity|left; set_solver]].
  destruct (os_path_isdir env (OUTPUT_FOLDER p)) eqn:Hdir;
    [|eexists; split; [reflexivity|left; set_solver]].
  apply negb_false_iff, bool_decide_eq_true in H. rewrite H.
  eexists; split; [reflexivity|left; set_solver].
Qed.

(** With the checks passing, an enumeration index out of range raises
    IndexError, again before anything was called. *)
Lemma index_failure env layer p s :
  preconditions_ok env layer p = true →
  indices_ok layer p = false →
  processAlgorithm env layer p s = (Raise IndexError, s).
Proof.
  unfold preconditions_ok, indices_ok, processAlgorithm.
  destruct layer as [l|]; [|done]. intros Hpre Hidx.
  apply andb_prop in Hpre as [Hpre _]. apply andb_prop in Hpre as [Hpre _].
  apply andb_prop in Hpre as [Hpre _]. apply andb_prop in Hpre as [Hvec _].
  rewrite Hvec. unfold bind, or_raise, ret, raise.
  destruct (py_index (fields l) (ATTRIBUTE_FIELD p)) as [field|]; [|done].
  destruct (py_index BLOCK_TYPES (BLOCK_TYPE p)) as [bt|]; [|done].
  done.
Qed.

(** A session that does not open ends the invocation before the loop. *)
Lemma session_failure env l p s m :
  preconditions_ok env (Some l) p = true →
  indices_ok (Some l) p = true →
  session_error env p = Some m →
  ∃ s' tr,
    processAlgorithm env (Some l) p s = (Raise (connect_error m), s')
    ∧ calls s' = calls s ++ tr
    ∧ files s' = files s
    ∧ project s' = project s
    ∧ downloaded_files s' = downloaded_files s
    ∧ infos tr = [processing_message l]
    ∧ opened tr = [] ∧ fetched tr = [] ∧ errors tr = [] ∧ quits tr = [].
Proof.
  unfold preconditions_ok, indices_ok, session_error.
  intros Hpre Hidx Hsess.
  apply andb_prop in Hpre as [Hpre Hsel]. apply andb_prop in Hpre as [Hpre Hdir].
  apply andb_prop in Hpre as [Hpre Hpw]. apply andb_prop in Hpre as [Hvec Huser].
  apply andb_prop in Hidx as [Hfield Hbt].
  apply bool_decide_eq_true in Hfield as [field Hfield].
  apply bool_decide_eq_true in Hbt as [bt Hbt].
  apply negb_true_iff, bool_decide_eq_false in Hsel.
  unfold processAlgorithm.
  rewrite Hvec. unfold bind at 1. simpl.
  rewrite Hfield. unfold bind at 1. simpl.
  rewrite Hbt. unfold bind at 1. simpl.
  rewrite Huser, Hpw. simpl.
  unfold bind at 1. simpl. rewrite Hdir. simpl.
  unfold processing_message.
  destruct (selectedFeatures l) as [|f0 feats] eqn:Hfeats; [done|].
  unfold bind at 1. simpl.
  unfold bind at 1. unfold try_except, bind at 1 2 3, connect, login, prot_p. simpl.
  destruct (ftp_connect env ftp_server ftp_port) as [m1|] eqn:Hc; simpl.
  { injection Hsess as ->. eexists _, _.
    split_and!; [reflexivity|simpl; by rewrite <- !app_assoc|done..]. }
  destruct (ftp_login env (FTP_USERNAME p) (FTP_PASSWORD p)) as [m2|] eqn:Hl; simpl.
  { injection Hsess as ->. eexists _, _.
    split_and!; [reflexivity|simpl; by rewrite <- !app_assoc|done..]. }
  rewrite Hsess. simpl.
  eexists _, _. split_and!; [reflexivity|simpl; by rewrite <- !app_assoc|done..].
Qed.

(** ** Reading the calls of a whole invocation *)

Section InvocationCalls.

Context (l : map_layer) (p : parameters) (tr : list event)
  (r : option string) (n : nat).

Local Ltac through_invocation :=
  unfold invocation_calls, session_calls;
  repeat match goal with |- context [omap ?f (?x :: ?k)] =>
    change (omap f (x :: k)) with (omap f ([x] ++ k)) end;
  rewrite ?omap_app; destruct r; simpl; by rewrite ?app_nil_r.

Lemma invocation_opened : opened (invocation_calls l p tr r n) = opened tr.
Proof. unfold opened. through_invocation. Qed.

Lemma invocation_opened_ok : opened_ok (invocation_calls l p tr r n) = opened_ok tr.
Proof. unfold opened_ok. through_invocation. Qed.

Lemma invocation_fetched : fetched (invocation_calls l p tr r n) = fetched tr.
Proof. unfold fetched. through_invocation. Qed.

Lemma invocation_transferred :
  transferred (invocation_calls l p tr r n) = transferred tr.
Proof. unfold transferred. through_invocation. Qed.

Lemma invocation_transfer_failures :
  transfer_failures (invocation_calls l p tr r n) = transfer_failures tr.
Proof. unfold transfer_failures. through_invocation. Qed.

Lemma invocation_errors : errors (invocation_calls l p tr r n) = errors tr.
Proof. unfold errors. through_invocation. Qed.

Lemma invocation_failures : failures (invocation_calls l p tr r n) = failures tr.
Proof. unfold failures. through_invocation. Qed.

Lemma invocation_quits : quits (invocation_calls l p tr r n) = quits tr ++ [r].
Proof. unfold quits. through_invocation. Qed.

Lemma invocation_extract_failures :
  extract_failures (invocation_calls l p tr r n) = extract_failures tr.
Proof. unfold extract_failures. through_invocation. Qed.

End InvocationCalls.

Lemma invocation_skips l p tr r n :
  skips (invocation_calls l p tr r n) = skips tr.
Proof.
  unfold skips, infos, invocation_calls, session_calls.
  repeat match goal with |- context [omap ?f (?x :: ?k)] =>
    change (omap f (x :: k)) with (omap f ([x] ++ k)) end.
  rewrite ?omap_app, ?List.filter_app. destruct r; simpl; by rewrite ?app_nil_r.
Qed.

Lemma for_each_app {A} (l1 l2 : list A) (body : A → M unit) s :
  for_each (l1 ++ l2) body s
  = match for_each l1 body s with
    | (Ok _, s1) => for_each l2 body s1
    | (Raise e, s1) => (Raise e, s1)
    end.
Proof.
  revert s. induction l1 as [|x l1 IH]; intros s; [done|].
  change ((x :: l1) ++ l2) with (x :: (l1 ++ l2)). rewrite !for_each_cons.
  unfold bind. destruct (body x s) as [[[]|e] s1]; [apply IH|done].
Qed.

(** * The claims *)

(** What the loop body does with the names it builds for a feature it
    takes up: the file name and the local path are announced, the local
    path is the one opened, and the remote path is the one fetched, once
    the local file is open. *)
Lemma feature_run_paths unpack fs field t out f fs0 tr n fs1 :
  feature_run unpack fs field t out f fs0 tr n fs1 →
  has_grid_id fs field f = true →
  head tr = Some (PushInfo (downloading_message (attempt_filename fs field t f)
                              (os_path_join out (attempt_filename fs field t f))))
  ∧ opened tr = [os_path_join out (attempt_filename fs field t f)]
  ∧ fetched tr
    = (λ _, "RETR " +:+ ftp_path t +:+ attempt_filename fs field t f) <$> opened_ok tr.
Proof.
  intros Hrun Hid. split_and!.
  - destruct Hrun; [congruence|done].
  - by rewrite (feature_run_opened _ _ _ _ _ _ _ _ _ _ Hrun), Hid.
  - apply (feature_run_fetched _ _ _ _ _ _ _ _ _ _ Hrun).
Qed.

(** C3. For each of the three block types and every feature the loop
    takes up, the loop body uses a remote path and a local file name that
    depend on the block type and the grid identifier alone and follow the
    table (Pointclouds is served from PUNKTSKY): the file name is the one
    announced, the file opened is the output folder joined with it, and the
    remote path is the one fetched once the local file is open. Any other
    turn of the loop for the same block type and the same identifier,
    whatever the environment, the state, the layer, the folder and the
    feature, uses the same remote path and file name. Block type DTM with
    identifier 605_64 gives
    /dhm_danmarks_hoejdemodel/DTM/DTM_605_64_TIF_UTM32-ETRS89.zip and
    DTM_605_64_TIF_UTM32-ETRS89.zip. *)
Theorem C3_paths_follow_the_template_table
    i bt env fs field out unpack f s :
  py_index BLOCK_TYPES i = Some bt →
  is_Some (fieldNameIndex fs field) →
  has_grid_id fs field f = true →
  let id := attr_str (grid_id_of fs field f) in
  ∃ remote name s' tr,
    (bt, remote, name)
    ∈ [("DTM",
        "/dhm_danmarks_hoejdemodel/DTM/DTM_" +:+ id +:+ "_TIF_UTM32-ETRS89.zip",
        "DTM_" +:+ id +:+ "_TIF_UTM32-ETRS89.zip");
       ("DSM",
        "/dhm_danmarks_hoejdemodel/DSM/DSM_" +:+ id +:+ "_TIF_UTM32-ETRS89.zip",
        "DSM_" +:+ id +:+ "_TIF_UTM32-ETRS89.zip");
       ("Pointclouds",
        "/dhm_danmarks_hoejdemodel/PUNKTSKY/PUNKTSKY_" +:+ id +:+ "_TIF_UTM32-ETRS89.zip",
        "PUNKTSKY_" +:+ id +:+ "_TIF_UTM32-ETRS89.zip")]
    ∧ process_feature env fs field (select_template bt) out unpack f s = (Ok tt, s')
    ∧ calls s' = calls s ++ tr
    ∧ head tr = Some (PushInfo (downloading_message name (os_path_join out name)))
    ∧ opened tr = [os_path_join out name]
    ∧ fetched tr = (λ _, "RETR " +:+ remote) <$> opened_ok tr
    ∧ (∀ env' fs' field' out' unpack' f' s0,
         is_Some (fieldNameIndex fs' field') →
         has_grid_id fs' field' f' = true →
         attr_str (grid_id_of fs' field' f') = id →
         ∃ s1 tr',
           process_feature env' fs' field' (select_template bt) out' unpack' f' s0
           = (Ok tt, s1)
           ∧ calls s1 = calls s0 ++ tr'
           ∧ head tr'
             = Some (PushInfo (downloading_message name (os_path_join out' name)))
           ∧ opened tr' = [os_path_join out' name]
           ∧ fetched tr' = (λ _, "RETR " +:+ remote) <$> opened_ok tr')
    ∧ (bt = "DTM" → id = "605_64" →
       remote = "/dhm_danmarks_hoejdemodel/DTM/DTM_605_64_TIF_UTM32-ETRS89.zip"
       ∧ name = "DTM_605_64_TIF_UTM32-ETRS89.zip").
Proof.
  intros Hbt Hfield Hid id.
  assert (Hrow : ∃ t, select_template bt = Some t
                      ∧ (bt, ftp_path t +:+ format_filename t id, format_filename t id)
                        ∈ [("DTM",
                            "/dhm_danmarks_hoejdemodel/DTM/DTM_" +:+ id
                              +:+ "_TIF_UTM32-ETRS89.zip",
                            "DTM_" +:+ id +:+ "_TIF_UTM32-ETRS89.zip");
                           ("DSM",
                            "/dhm_danmarks_hoejdemodel/DSM/DSM_" +:+ id
                              +:+ "_TIF_UTM32-ETRS89.zip",
                            "DSM_" +:+ id +:+ "_TIF_UTM32-ETRS89.zip");
                           ("Pointclouds",
                            "/dhm_danmarks_hoejdemodel/PUNKTSKY/PUNKTSKY_" +:+ id
                              +:+ "_TIF_UTM32-ETRS89.zip",
                            "PUNKTSKY_" +:+ id +:+ "_TIF_UTM32-ETRS89.zip")]).
  { apply py_index_elem_of in Hbt. unfold BLOCK_TYPES in Hbt.
    rewrite !elem_of_cons in Hbt.
    destruct Hbt as [->|[->|[->|Hbt]]]; [..|by apply elem_of_nil in Hbt];
      eexists; (split; [reflexivity|]); rewrite !elem_of_cons; auto. }
  destruct Hrow as (t & Ht & Hrow).
  assert (Hany : ∀ env' fs' field' out' unpack' f' s0,
            is_Some (fieldNameIndex fs' field') →
            has_grid_id fs' field' f' = true →
            attr_str (grid_id_of fs' field' f') = id →
            ∃ s1 tr',
              process_feature env' fs' field' (select_template bt) out' unpack' f' s0
              = (Ok tt, s1)
              ∧ calls s1 = calls s0 ++ tr'
              ∧ head tr'
                = Some (PushInfo (downloading_message (format_filename t id)
                                    (os_path_join out' (format_filename t id))))
              ∧ opened tr' = [os_path_join out' (format_filename t id)]
              ∧ fetched tr'
                = (λ _, "RETR " +:+ ftp_path t +:+ format_filename t id)
                  <$> opened_ok tr').
  { intros env' fs' field' out' unpack' f' s0 Hfield' Hid' Hsame. rewrite Ht.
    destruct (process_feature_run env' fs' field' t out' unpack' f' s0 Hfield')
      as (s1 & tr' & n & Hrun & Hcalls & _ & _ & Hstep).
    destruct (feature_run_paths _ _ _ _ _ _ _ _ _ _ Hstep Hid') as (Hhead & Hopen & Hfetch).
    unfold attempt_filename in *. rewrite Hsame in *.
    exists s1, tr'. by split_and!. }
  destruct (Hany env fs field out unpack f s Hfield Hid eq_refl)
    as (s' & tr & Hrun & Hcalls & Hhead & Hopen & Hfetch).
  exists (ftp_path t +:+ format_filename t id), (format_filename t id), s', tr.
  split_and!; [done..|].
  intros -> Hsix. injection Ht as <-. by rewrite Hsix.
Qed.

Lemma C3_witness :
  ∃ remote name s' tr,
    ("DTM", remote, name)
    ∈ [("DTM",
        "/dhm_danmarks_hoejdemodel/DTM/DTM_605_64_TIF_UTM32-ETRS89.zip",
        "DTM_605_64_TIF_UTM32-ETRS89.zip");
       ("DSM",
        "/dhm_danmarks_hoejdemodel/DSM/DSM_605_64_TIF_UTM32-ETRS89.zip",
        "DSM_605_64_TIF_UTM32-ETRS89.zip");
       ("Pointclouds",
        "/dhm_danmarks_hoejdemodel/PUNKTSKY/PUNKTSKY_605_64_TIF_UTM32-ETRS89.zip",
        "PUNKTSKY_605_64_TIF_UTM32-ETRS89.zip")]
    ∧ process_feature env_fine ["name"; "grid_id"] "grid_id" (select_template "DTM")
        "/data/out" true (cell 0 "605_64") init = (Ok tt, s')
    ∧ calls s' = calls init ++ tr
    ∧ head tr = Some (PushInfo (downloading_message name (os_path_join "/data/out" name)))
    ∧ opened tr = [os_path_join "/data/out" name]
    ∧ fetched tr = (λ _, "RETR " +:+ remote) <$> opened_ok tr
    ∧ (∀ env' fs' field' out' unpack' f' s0,
         is_Some (fieldNameIndex fs' field') →
         has_grid_id fs' field' f' = true →
         attr_str (grid_id_of fs' field' f') = "605_64" →
         ∃ s1 tr',
           process_feature env' fs' field' (select_template "DTM") out' unpack' f' s0
           = (Ok tt, s1)
           ∧ calls s1 = calls s0 ++ tr'
           ∧ head tr'
             = Some (PushInfo (downloading_message name (os_path_join out' name)))
           ∧ opened tr' = [os_path_join out' name]
           ∧ fetched tr' = (λ _, "RETR " +:+ remote) <$> opened_ok tr')
    ∧ ("DTM" = "DTM" → "605_64" = "605_64" →
       remote = "/dhm_danmarks_hoejdemodel/DTM/DTM_605_64_TIF_UTM32-ETRS89.zip"
       ∧ name = "DTM_605_64_TIF_UTM32-ETRS89.zip").
Proof.
  apply (C3_paths_follow_the_template_table 0 "DTM" env_fine ["name"; "grid_id"]
           "grid_id" "/data/out" true (cell 0 "605_64") init);
    [reflexivity|by eexists|reflexivity].
Defined.

(** C9. Every index that selects an entry of BLOCK_TYPES selects a block
    type for which the conditional chain assigns the remote directory and
    the file name template, so the loop body never finds the template
    unbound; no invocation at all ends in an unbound local. *)
Theorem C9_template_selection_is_total (i : Z) (bt : string) :
  py_index BLOCK_TYPES i = Some bt →
  (∃ t, select_template bt = Some t)
  ∧ (∀ env fs field out unpack f s,
       (process_feature env fs field (select_template bt) out unpack f s).1
       ≠ Raise UnboundLocalError)
  ∧ (∀ env layer p s,
       (processAlgorithm env layer p s).1 ≠ Raise UnboundLocalError).
Proof.
  intros Hbt.
  destruct (select_template_total bt (py_index_elem_of _ _ _ Hbt)) as [t Ht].
  split_and!; [by exists t| |].
  - intros env fs field out unpack f s. rewrite Ht. unfold process_feature.
    destruct (feature_getitem fs f field) as [v|] eqn:Hget; [|done].
    unfold bind at 1. simpl.
    destruct (attr_truthy v); simpl; [|done].
    unfold bind. simpl.
    destruct (guarded_block env out unpack (ftp_path t)
                (format_filename t (attr_str v))
                (record (PushInfo ("Downloading " +:+ format_filename t (attr_str v)
                                   +:+ " to "
                                   +:+ os_path_join out (format_filename t (attr_str v))
                                   +:+ "...")) s))
      as (s' & tr & n & -> & _). done.
  - intros env layer p s.
    destruct (preconditions_ok env layer p) eqn:Hpre.
    2:{ destruct (precondition_failure env layer p s Hpre) as (e & -> & [He|[-> _]]);
          [|done].
        unfold precondition_errors in He. simpl. intros [= ->].
        repeat (apply elem_of_cons in He as [?|He]; [done|]).
        by apply elem_of_nil in He. }
    destruct (indices_ok layer p) eqn:Hidx.
    2:{ by rewrite (index_failure env layer p s Hpre Hidx). }
    destruct layer as [l|]; [|done].
    destruct (session_error env p) as [m|] eqn:Hsess.
    { by destruct (session_failure env l p s m Hpre Hidx Hsess) as (s' & tr & -> & _). }
    destruct (processAlgorithm_run env l p s Hpre Hidx Hsess)
      as (field & bt' & t' & s' & tr & _ & _ & _ & _ & _ & _ & ->).
    simpl. by destruct (ftp_quit env).
Qed.

Lemma C9_witness :
  (∃ t, select_template "Pointclouds" = Some t)
  ∧ (∀ env fs field out unpack f s,
       (process_feature env fs field (select_template "Pointclouds") out unpack f s).1
       ≠ Raise UnboundLocalError)
  ∧ (∀ env layer p s,
       (processAlgorithm env layer p s).1 ≠ Raise UnboundLocalError).
Proof.
  apply (C9_template_selection_is_total (-1)). reflexivity.
Defined.

(** C4, as stated, fails: the password is empty, so a precondition fails,
    but the attribute index read back does not index the fields of the
    active layer. The invocation raises before any call, yet not with the
    message of a check: line 145 raises IndexError first. *)
Lemma C4_counterexample :
  let p := {| ATTRIBUTE_FIELD := 2; BLOCK_TYPE := 0;
              FTP_USERNAME := "user"; FTP_PASSWORD := "";
              OUTPUT_FOLDER := "/data/out"; UNPACK_ZIP := false |} in
  preconditions_ok env_fine (Some one_cell) p = false
  ∧ PyStr.truthy (FTP_PASSWORD p) = false
  ∧ processAlgorithm env_fine (Some one_cell) p init = (Raise IndexError, init)
  ∧ (IndexError ∉ precondition_errors)
  ∧ exn_str IndexError = "list index out of range".
Proof.
  split_and!; try reflexivity.
  unfold precondition_errors. rewrite !elem_of_cons.
  intros [?|[?|[?|[?|H]]]]; try done. by apply elem_of_nil in H.
Qed.

(** C4, amended. When a precondition fails (no active vector layer, an
    empty user name or password, a destination folder that does not exist,
    an empty selection) the invocation raises before it made any call: the
    state, and with it the record of calls and the filesystem, is the one
    it started from, so nothing was connected and nothing transferred. The
    error is that of the first step that fails, in the order of the code:
    without an active vector layer "No active vector layer found."; else,
    with an enumeration index out of range, IndexError; else, with an empty
    user name or password, "FTP username and password are required."; else,
    with a folder that does not exist, "Output folder does not exist or is
    not valid."; else the selection is empty and the error is "No features
    are selected in the active layer.". *)
Theorem C4_failed_precondition_aborts_before_network env layer p s :
  preconditions_ok env layer p = false →
  ∃ e s',
    processAlgorithm env layer p s = (Raise e, s')
    ∧ s' = s
    ∧ network (calls s') = network (calls s)
    ∧ opened (calls s') = opened (calls s)
    ∧ (e ∈ precondition_errors ∨ e = IndexError ∧ indices_ok layer p = false)
    ∧ ((layer = None ∨ ∃ l, layer = Some l ∧ is_vector l = false) →
       e = QgsProcessingException "No active vector layer found.")
    ∧ (∀ l, layer = Some l → is_vector l = true →
         (indices_ok layer p = false → e = IndexError)
         ∧ (indices_ok layer p = true →
            (PyStr.truthy (FTP_USERNAME p) && PyStr.truthy (FTP_PASSWORD p) = false →
             e = QgsProcessingException "FTP username and password are required.")
            ∧ (PyStr.truthy (FTP_USERNAME p) && PyStr.truthy (FTP_PASSWORD p) = true →
               (os_path_isdir env (OUTPUT_FOLDER p) = false →
                e = QgsProcessingException
                      "Output folder does not exist or is not valid.")
               ∧ (os_path_isdir env (OUTPUT_FOLDER p) = true →
                  selectedFeatures l = []
                  ∧ e = QgsProcessingException
                          "No features are selected in the active layer.")))).
Proof.
  intros Hpre.
  destruct (precondition_failure env layer p s Hpre) as (e & Hrun & He).
  exists e, s. split_and!; [done..| |].
  - intros [->|(l & -> & Hvec)].
    + by injection Hrun as <-.
    + unfold processAlgorithm in Hrun. rewrite Hvec in Hrun. by injection Hrun as <-.
  - intros l -> Hvec.
    unfold preconditions_ok in Hpre. rewrite Hvec in Hpre. simpl in Hpre.
    unfold processAlgorithm in Hrun. rewrite Hvec in Hrun.
    unfold indices_ok, bind, or_raise, isdir, ret, raise in *.
    destruct (py_index (fields l) (ATTRIBUTE_FIELD p)) as [field|];
      [|split; [by injection Hrun as <-|done]].
    destruct (py_index BLOCK_TYPES (BLOCK_TYPE p)) as [bt|];
      [|split; [by injection Hrun as <-|done]].
    split.
    { intros Hno. apply andb_false_iff in Hno as [Hno|Hno];
        apply bool_decide_eq_false in Hno; destruct Hno; eauto. }
    intros _.
    destruct (PyStr.truthy (FTP_USERNAME p)); simpl in *;
      [|split; [by injection Hrun as <-|done]].
    destruct (PyStr.truthy (FTP_PASSWORD p)); simpl in *;
      [|split; [by injection Hrun as <-|done]].
    split; [done|]. intros _.
    destruct (os_path_isdir env (OUTPUT_FOLDER p)); simpl in *;
      [|split; [by injection Hrun as <-|done]].
    split; [done|]. intros _.
    apply negb_false_iff, bool_decide_eq_true in Hpre. rewrite Hpre in Hrun.
    split; [done|]. by injection Hrun as <-.
Qed.

Lemma C4_witness :
  ∃ e s',
    processAlgorithm env_fine (Some one_cell) no_password init = (Raise e, s')
    ∧ s' = init
    ∧ network (calls s') = network (calls init)
    ∧ opened (calls s') = opened (calls init)
    ∧ (e ∈ precondition_errors
       ∨ e = IndexError ∧ indices_ok (Some one_cell) no_password = false)
    ∧ ((Some one_cell = None ∨ ∃ l, Some one_cell = Some l ∧ is_vector l = false) →
       e = QgsProcessingException "No active vector layer found.")
    ∧ (∀ l, Some one_cell = Some l → is_vector l = true →
         (indices_ok (Some one_cell) no_password = false → e = IndexError)
         ∧ (indices_ok (Some one_cell) no_password = true →
            (PyStr.truthy (FTP_USERNAME no_password)
             && PyStr.truthy (FTP_PASSWORD no_password) = false →
             e = QgsProcessingException "FTP username and password are required.")
            ∧ (PyStr.truthy (FTP_USERNAME no_password)
               && PyStr.truthy (FTP_PASSWORD no_password) = true →
               (os_path_isdir env_fine (OUTPUT_FOLDER no_password) = false →
                e = QgsProcessingException
                      "Output folder does not exist or is not valid.")
               ∧ (os_path_isdir env_fine (OUTPUT_FOLDER no_password) = true →
                  selectedFeatures l = []
                  ∧ e = QgsProcessingException
                          "No features are selected in the active layer.")))).
Proof.
  apply C4_failed_precondition_aborts_before_network. reflexivity.
Defined.

(** C5. When the preconditions hold and connect, login or prot_p raises,
    the invocation raises the one error "Failed to connect to FTPS
    server: ..."; the loop is not entered: no local file is opened, no
    transfer is made, the filesystem and the counter are unchanged, and
    the only message is the announcement of the selection size. *)
Theorem C5_failed_session_aborts_with_nothing_downloaded env l p s m :
  preconditions_ok env (Some l) p = true →
  indices_ok (Some l) p = true →
  session_error env p = Some m →
  ∃ s' tr,
    processAlgorithm env (Some l) p s = (Raise (connect_error m), s')
    ∧ calls s' = calls s ++ tr
    ∧ files s' = files s
    ∧ downloaded_files s' = downloaded_files s
    ∧ infos tr = [processing_message l]
    ∧ opened tr = [] ∧ fetched tr = [] ∧ errors tr = [] ∧ quits tr = [].
Proof.
  intros Hpre Hidx Hsess.
  destruct (session_failure env l p s m Hpre Hidx Hsess)
    as (s' & tr & Hrun & Hcalls & Hfiles & _ & Hcount & Hrest).
  by exists s', tr.
Qed.

Lemma C5_witness :
  ∃ s' tr,
    processAlgorithm env_no_login (Some one_cell) (sample_parameters true) init
    = (Raise (connect_error "530 Login incorrect."), s')
    ∧ calls s' = calls init ++ tr
    ∧ files s' = files init
    ∧ downloaded_files s' = downloaded_files init
    ∧ infos tr = [processing_message one_cell]
    ∧ opened tr = [] ∧ fetched tr = [] ∧ errors tr = [] ∧ quits tr = [].
Proof.
  apply C5_failed_session_aborts_with_nothing_downloaded; reflexivity.
Defined.

(** C7. The index loader raises "No URL provided." for an empty URL and
    "Failed to load the GeoJSON file." for a resource that does not load as
    a valid layer, and in both cases adds no layer to the project; whenever
    a layer is added, the URL is not empty, the layer was found valid
    before, and it is the one layer added. *)
Theorem C7_index_loader_adds_only_a_valid_layer env url s :
  (PyStr.truthy url && ogr_valid env url = false →
   ∃ msg s',
     load_processAlgorithm env url s = (Raise (QgsProcessingException msg), s')
     ∧ msg ∈ ["No URL provided."; "Failed to load the GeoJSON file."]
     ∧ project s' = project s
     ∧ added (calls s') = added (calls s))
  ∧ (∀ r s', load_processAlgorithm env url s = (r, s') →
     project s' ≠ project s ∨ added (calls s') ≠ added (calls s) →
     PyStr.truthy url = true ∧ ogr_valid env url = true
     ∧ ∃ layer before after,
         calls s' = calls s ++ before ++ AddMapLayer layer :: after
         ∧ LoadLayer url true ∈ before
         ∧ added before = [] ∧ added after = []
         ∧ project s' = project s ++ [layer]).
Proof.
  unfold load_processAlgorithm, bind, QgsVectorLayer, pushInfo, emit, addMapLayer,
    renderer_setSymbol, raise, ret.
  destruct (PyStr.truthy url) eqn:Hurl; simpl.
  2:{ split.
      - intros _. eexists _, _. split_and!; [reflexivity|set_solver|done..].
      - intros r s' [= <- <-] [H|H]; done. }
  destruct (ogr_valid env url) eqn:Hvalid; simpl.
  2:{ split.
      - intros _. eexists _, _. split_and!; [reflexivity|set_solver|done|].
        simpl. unfold added. rewrite !omap_app. simpl. by rewrite !app_nil_r.
      - intros r s' [= <- <-] [H|H]; [done|].
        exfalso. apply H. simpl. unfold added. rewrite !omap_app. simpl.
        by rewrite !app_nil_r. }
  split; [done|].
  destruct (ogr_renderer env url) eqn:Hrenderer; simpl.
  2:{ intros r s' [= <- <-] [H|H]; [done|].
      exfalso. apply H. simpl. unfold added. rewrite !omap_app. simpl.
      by rewrite !app_nil_r. }
  intros r s' [= <- <-] _. split_and!; [done..|].
  eexists _, [PushInfo _; LoadLayer url true; PushInfo _], [PushInfo _].
  split_and!; simpl; [by rewrite <- !app_assoc|set_solver|done..].
Qed.

Lemma C7_witness :
  ∃ msg s',
    load_processAlgorithm env_no_login "https://example.org/grid.geojson" init
    = (Raise (QgsProcessingException msg), s')
    ∧ msg ∈ ["No URL provided."; "Failed to load the GeoJSON file."]
    ∧ project s' = project init
    ∧ added (calls s') = added (calls init).
Proof.
  apply (proj1 (C7_index_loader_adds_only_a_valid_layer env_no_login
                  "https://example.org/grid.geojson" init)).
  reflexivity.
Defined.

(** C2. In the loop, entered as [processAlgorithm] enters it (the
    attribute name is read from the layer's fields and the block type from
    BLOCK_TYPES), a feature with a grid identifier is processed without
    raising whatever the open, the transfer, the archive or the extraction
    answer: each call that raised is reported with reportError under the
    feature's file name, and the loop goes on with the features that
    follow, all of which are attempted in turn. *)
Theorem C2_feature_failures_do_not_stop_the_loop
    env fs i field j bt out unpack before f after s :
  py_index fs i = Some field →
  py_index BLOCK_TYPES j = Some bt →
  has_grid_id fs field f = true →
  ∃ t s1 s2 s3 tr tr',
    select_template bt = Some t
    ∧ for_each before (process_feature env fs field (select_template bt) out unpack) s
      = (Ok tt, s1)
    ∧ process_feature env fs field (select_template bt) out unpack f s1 = (Ok tt, s2)
    ∧ calls s2 = calls s1 ++ tr
    ∧ opened tr = [attempt_path fs field t out f]
    ∧ errors tr = failure_message (attempt_filename fs field t f) <$> failures tr
    ∧ for_each (before ++ f :: after)
        (process_feature env fs field (select_template bt) out unpack) s
      = for_each after (process_feature env fs field (select_template bt) out unpack) s2
    ∧ for_each after (process_feature env fs field (select_template bt) out unpack) s2
      = (Ok tt, s3)
    ∧ calls s3 = calls s2 ++ tr'
    ∧ opened tr' = attempt_path fs field t out <$> List.filter (has_grid_id fs field) after.
Proof.
  intros Hfield%py_index_elem_of%fieldNameIndex_elem_of
         [t Ht]%py_index_elem_of%select_template_total Hid.
  rewrite Ht.
  destruct (for_each_run env fs field t out unpack before s Hfield)
    as (s1 & tr0 & n0 & Hrun0 & _).
  destruct (process_feature_run env fs field t out unpack f s1 Hfield)
    as (s2 & tr & n & Hrun & Hcalls & _ & _ & Hstep).
  destruct (for_each_run env fs field t out unpack after s2 Hfield)
    as (s3 & tr' & n' & Hrun' & Hcalls' & _ & _ & Hrest).
  exists t, s1, s2, s3, tr, tr'. split_and!; try done.
  - rewrite (feature_run_opened _ _ _ _ _ _ _ _ _ _ Hstep). by rewrite Hid.
  - apply (feature_run_errors _ _ _ _ _ _ _ _ _ _ Hstep).
  - rewrite for_each_app, Hrun0, for_each_cons. unfold bind. by rewrite Hrun.
  - apply (selection_run_opened _ _ _ _ _ _ _ _ _ _ Hrest).
Qed.

Lemma C2_witness :
  ∃ t s1 s2 s3 tr tr',
    select_template "DTM" = Some t
    ∧ for_each [] (process_feature env_corrupt ["name"; "grid_id"] "grid_id"
                     (select_template "DTM") "/data/out" true) init = (Ok tt, s1)
    ∧ process_feature env_corrupt ["name"; "grid_id"] "grid_id" (select_template "DTM")
        "/data/out" true (cell 0 "605_64") s1 = (Ok tt, s2)
    ∧ calls s2 = calls s1 ++ tr
    ∧ opened tr = [attempt_path ["name"; "grid_id"] "grid_id" t "/data/out"
                     (cell 0 "605_64")]
    ∧ errors tr = failure_message
                    (attempt_filename ["name"; "grid_id"] "grid_id" t (cell 0 "605_64"))
                  <$> failures tr
    ∧ for_each ([] ++ cell 0 "605_64" :: [cell 1 "606_64"])
        (process_feature env_corrupt ["name"; "grid_id"] "grid_id"
           (select_template "DTM") "/data/out" true) init
      = for_each [cell 1 "606_64"]
          (process_feature env_corrupt ["name"; "grid_id"] "grid_id"
             (select_template "DTM") "/data/out" true) s2
    ∧ for_each [cell 1 "606_64"]
        (process_feature env_corrupt ["name"; "grid_id"] "grid_id"
           (select_template "DTM") "/data/out" true) s2 = (Ok tt, s3)
    ∧ calls s3 = calls s2 ++ tr'
    ∧ opened tr' = attempt_path ["name"; "grid_id"] "grid_id" t "/data/out"
                   <$> List.filter (has_grid_id ["name"; "grid_id"] "grid_id")
                         [cell 1 "606_64"].
Proof.
  apply (C2_feature_failures_do_not_stop_the_loop env_corrupt _ 1 _ 0);
    reflexivity.
Defined.

(** ** The counter, the fetches and the order of a whole invocation *)

(** C1, as stated, fails: the server delivers a file that is not a zip
    archive, unpacking is requested; the transfer completes, opening the
    archive raises, the failure is reported, and the feature is counted
    all the same: the invocation returns 1 although no feature was
    processed through. *)
Lemma C1_counterexample :
  let r := processAlgorithm env_corrupt (Some one_cell) (sample_parameters true) init in
  r.1 = Ok 1
  ∧ errors (calls r.2)
    = ["Failed to download DTM_605_64_TIF_UTM32-ETRS89.zip: File is not a zip file"]
  ∧ fully_processed (calls r.2) = 0
  ∧ (∀ n, r.1 = Ok n → n ≠ fully_processed (calls r.2)).
Proof. vm_compute. split_and!; try done. by intros n [= <-]. Qed.

(** C1, amended. An invocation that reaches the loop and whose QUIT
    returns, returns the number of completed transfers: every attempt
    whose open or transfer raised is left out, an attempt whose transfer
    completed is counted also when unpacking it then raised. So the count
    is the number of attempts less the failed transfers, and exceeds the
    number of features processed through by the number of failed
    extractions. *)
Theorem C1_count_is_the_number_of_completed_transfers env l p s :
  preconditions_ok env (Some l) p = true →
  indices_ok (Some l) p = true →
  session_error env p = None →
  ftp_quit env = None →
  ∃ n s' tr,
    processAlgorithm env (Some l) p s = (Ok n, s')
    ∧ calls s' = calls s ++ tr
    ∧ n = length (transferred tr)
    ∧ n + length (transfer_failures tr) = length (opened tr)
    ∧ n = fully_processed tr + length (extract_failures tr).
Proof.
  intros Hpre Hidx Hsess Hquit.
  destruct (processAlgorithm_run env l p s Hpre Hidx Hsess)
    as (field & bt & t & s' & tr & _ & _ & _ & Hsel & _ & Hcalls & Hrun).
  rewrite Hquit in Hrun, Hcalls.
  pose proof (selection_run_count _ _ _ _ _ _ _ _ _ _ Hsel) as Hn.
  pose proof (selection_run_transfer _ _ _ _ _ _ _ _ _ _ Hsel) as Htr.
  pose proof (selection_run_errors _ _ _ _ _ _ _ _ _ _ Hsel) as Herr.
  pose proof (selection_run_failures _ _ _ _ _ _ _ _ _ _ Hsel) as (Hsplit & _ & Hle).
  eexists _, s', _. split_and!; [exact Hrun|exact Hcalls|..]; unfold fully_processed.
  - by rewrite invocation_transferred.
  - rewrite invocation_transfer_failures, invocation_opened. lia.
  - rewrite invocation_opened, invocation_errors, invocation_extract_failures. lia.
Qed.

Lemma C1_witness :
  ∃ n s' tr,
    processAlgorithm env_corrupt (Some two_cells) (sample_parameters true) init
    = (Ok n, s')
    ∧ calls s' = calls init ++ tr
    ∧ n = length (transferred tr)
    ∧ n + length (transfer_failures tr) = length (opened tr)
    ∧ n = fully_processed tr + length (extract_failures tr).
Proof.
  apply C1_count_is_the_number_of_completed_transfers; reflexivity.
Defined.

(** C6, as stated, fails twice over. First, the destination folder
    exists but the file cannot be created in it: the one selected feature
    has the identifier 605_64, its local file is not opened and no fetch is
    issued. Second, the identifier attribute is an integer field and the
    one selected feature holds 0 in it: the value is not empty, but the
    test [not grid_id] of line 193 takes it for missing and the feature is
    skipped. *)
Lemma C6_counterexample :
  let r := processAlgorithm env_readonly (Some one_cell) (sample_parameters false) init in
  let r' := processAlgorithm env_fine (Some (grid_layer [AttrInt 0]))
              (sample_parameters false) init in
  (r.1 = Ok 0
   ∧ length (fetched (calls r.2)) = 0
   ∧ length (List.filter (λ f, attr_nonempty (grid_id_of (fields one_cell) "grid_id" f))
               (selectedFeatures one_cell)) = 1
   ∧ length (fetched (calls r.2))
     ≠ length (List.filter (λ f, attr_nonempty (grid_id_of (fields one_cell) "grid_id" f))
                 (selectedFeatures one_cell)))
  ∧ (r'.1 = Ok 0
     ∧ length (fetched (calls r'.2)) = 0
     ∧ skips (calls r'.2) = ["Skipping feature ID 0 with no grid ID."]
     ∧ length (List.filter
                 (λ f, attr_nonempty (grid_id_of (fields (grid_layer [AttrInt 0]))
                                        "grid_id" f))
                 (selectedFeatures (grid_layer [AttrInt 0]))) = 1).
Proof. vm_compute. split_and!; done. Qed.

(** C6, amended. In an invocation that reaches the loop, the download
    attempts are the selected features whose grid identifier is true in
    Python's sense (not NULL, not the empty string, and not 0, 0.0 or
    False either), one local open each, in the order of the selection; a
    remote fetch is issued for exactly those attempts whose local file
    could be opened, each with the command of its feature. Every other
    feature, so every feature with an empty identifier, makes no attempt
    and is logged with its own skip message; errors are reported for
    failed library calls of attempts only, so never for a skipped
    feature. *)
Theorem C6_one_attempt_per_feature_with_grid_id env l p s :
  preconditions_ok env (Some l) p = true →
  indices_ok (Some l) p = true →
  session_error env p = None →
  ∃ field bt t r s' tr,
    py_index (fields l) (ATTRIBUTE_FIELD p) = Some field
    ∧ py_index BLOCK_TYPES (BLOCK_TYPE p) = Some bt
    ∧ select_template bt = Some t
    ∧ processAlgorithm env (Some l) p s = (r, s')
    ∧ calls s' = calls s ++ tr
    ∧ opened tr = attempt_path (fields l) field t (OUTPUT_FOLDER p)
                  <$> List.filter (has_grid_id (fields l) field) (selectedFeatures l)
    ∧ length (fetched tr) = length (opened_ok tr)
    ∧ fetched tr `sublist_of`
        (attempt_cmd (fields l) field t
         <$> List.filter (has_grid_id (fields l) field) (selectedFeatures l))
    ∧ skips tr = skip_message
                 <$> List.filter (λ f, negb (has_grid_id (fields l) field f))
                       (selectedFeatures l)
    ∧ length (errors tr) = length (failures tr)
    ∧ length (errors tr) ≤ length (opened tr)
    ∧ (∀ f, has_grid_id (fields l) field f = attr_truthy (grid_id_of (fields l) field f))
    ∧ (∀ f, attr_nonempty (grid_id_of (fields l) field f) = false →
            has_grid_id (fields l) field f = false)
    ∧ length (fetched tr)
      ≤ length (List.filter (λ f, attr_nonempty (grid_id_of (fields l) field f))
                  (selectedFeatures l)).
Proof.
  intros Hpre Hidx Hsess.
  destruct (processAlgorithm_run env l p s Hpre Hidx Hsess)
    as (field & bt & t & s' & tr & Hfield & Hbt & Ht & Hsel & _ & Hcalls & Hrun).
  pose proof (selection_run_opened _ _ _ _ _ _ _ _ _ _ Hsel) as Hopen.
  pose proof (selection_run_fetched _ _ _ _ _ _ _ _ _ _ Hsel) as [Hlen Hsub].
  pose proof (selection_run_skips _ _ _ _ _ _ _ _ _ _ Hsel) as Hskip.
  pose proof (selection_run_errors _ _ _ _ _ _ _ _ _ _ Hsel) as Herr.
  pose proof (selection_run_failures _ _ _ _ _ _ _ _ _ _ Hsel) as (_ & Hle & _).
  assert (Hempty : ∀ f, attr_nonempty (grid_id_of (fields l) field f) = false →
                        has_grid_id (fields l) field f = false).
  { intros f. unfold has_grid_id. by destruct (grid_id_of (fields l) field f). }
  exists field, bt, t. eexists _, s', _.
  split_and!; [done|done|done|exact Hrun|exact Hcalls|..].
  - by rewrite invocation_opened.
  - by rewrite invocation_fetched, invocation_opened_ok.
  - by rewrite invocation_fetched.
  - by rewrite invocation_skips.
  - by rewrite invocation_errors, invocation_failures.
  - rewrite invocation_errors, invocation_opened. lia.
  - done.
  - exact Hempty.
  - rewrite invocation_fetched.
    apply sublist_length in Hsub. rewrite length_fmap in Hsub.
    etrans; [exact Hsub|].
    clear -Hempty. induction (selectedFeatures l) as [|f feats IH]; [done|].
    simpl. destruct (has_grid_id (fields l) field f) eqn:Hid.
    + destruct (attr_nonempty (grid_id_of (fields l) field f)) eqn:Hne.
      * simpl. lia.
      * by rewrite (Hempty f Hne) in Hid.
    + destruct (attr_nonempty (grid_id_of (fields l) field f)); simpl; lia.
Qed.

Lemma C6_witness :
  ∃ field bt t r s' tr,
    py_index (fields two_cells) (ATTRIBUTE_FIELD (sample_parameters true)) = Some field
    ∧ py_index BLOCK_TYPES (BLOCK_TYPE (sample_parameters true)) = Some bt
    ∧ select_template bt = Some t
    ∧ processAlgorithm env_fine (Some two_cells) (sample_parameters true) init = (r, s')
    ∧ calls s' = calls init ++ tr
    ∧ opened tr = attempt_path (fields two_cells) field t
                    (OUTPUT_FOLDER (sample_parameters true))
                  <$> List.filter (has_grid_id (fields two_cells) field)
                        (selectedFeatures two_cells)
    ∧ length (fetched tr) = length (opened_ok tr)
    ∧ fetched tr `sublist_of`
        (attempt_cmd (fields two_cells) field t
         <$> List.filter (has_grid_id (fields two_cells) field)
               (selectedFeatures two_cells))
    ∧ skips tr = skip_message
                 <$> List.filter (λ f, negb (has_grid_id (fields two_cells) field f))
                       (selectedFeatures two_cells)
    ∧ length (errors tr) = length (failures tr)
    ∧ length (errors tr) ≤ length (opened tr)
    ∧ (∀ f, has_grid_id (fields two_cells) field f
            = attr_truthy (grid_id_of (fields two_cells) field f))
    ∧ (∀ f, attr_nonempty (grid_id_of (fields two_cells) field f) = false →
            has_grid_id (fields two_cells) field f = false)
    ∧ length (fetched tr)
      ≤ length (List.filter
                  (λ f, attr_nonempty (grid_id_of (fields two_cells) field f))
                  (selectedFeatures two_cells)).
Proof.
  apply C6_one_attempt_per_feature_with_grid_id; reflexivity.
Defined.

(** C8, as stated, fails: preconditions hold, the session opens, the one
    feature is downloaded, and QUIT raises because the control connection
    timed out; the invocation ends in that error and returns no count. *)
Lemma C8_counterexample :
  preconditions_ok env_quit_fails (Some one_cell) (sample_parameters false) = true
  ∧ indices_ok (Some one_cell) (sample_parameters false) = true
  ∧ session_error env_quit_fails (sample_parameters false) = None
  ∧ (processAlgorithm env_quit_fails (Some one_cell) (sample_parameters false) init).1
    = Raise (LibError "421 Timeout")
  ∧ (∀ n, (processAlgorithm env_quit_fails (Some one_cell)
             (sample_parameters false) init).1 ≠ Ok n).
Proof. vm_compute. split_and!; done. Qed.

(** C8, amended. An invocation that reaches the loop attempts the
    features with a grid identifier in the order of the selection, each
    once and none merged with another; after the last call of the loop it
    sends QUIT, once; when QUIT returns, the invocation returns the number
    of completed transfers, and when QUIT raises, that error ends the
    invocation. *)
Theorem C8_quit_follows_the_loop_and_order_is_kept env l p s :
  preconditions_ok env (Some l) p = true →
  indices_ok (Some l) p = true →
  session_error env p = None →
  ∃ field bt t s' tr,
    py_index (fields l) (ATTRIBUTE_FIELD p) = Some field
    ∧ py_index BLOCK_TYPES (BLOCK_TYPE p) = Some bt
    ∧ select_template bt = Some t
    ∧ calls s' = calls s ++ invocation_calls l p tr (ftp_quit env) (length (transferred tr))
    ∧ quits tr = []
    ∧ opened tr = attempt_path (fields l) field t (OUTPUT_FOLDER p)
                  <$> List.filter (has_grid_id (fields l) field) (selectedFeatures l)
    ∧ fetched tr `sublist_of`
        (attempt_cmd (fields l) field t
         <$> List.filter (has_grid_id (fields l) field) (selectedFeatures l))
    ∧ processAlgorithm env (Some l) p s
      = (match ftp_quit env with
         | None => Ok (length (transferred tr))
         | Some m => Raise (LibError m)
         end, s').
Proof.
  intros Hpre Hidx Hsess.
  destruct (processAlgorithm_run env l p s Hpre Hidx Hsess)
    as (field & bt & t & s' & tr & Hfield & Hbt & Ht & Hsel & _ & Hcalls & Hrun).
  pose proof (selection_run_count _ _ _ _ _ _ _ _ _ _ Hsel) as Hn.
  rewrite Hn in Hcalls, Hrun.
  exists field, bt, t, s', tr. split_and!; try done.
  - apply (selection_run_quits _ _ _ _ _ _ _ _ _ _ Hsel).
  - apply (selection_run_opened _ _ _ _ _ _ _ _ _ _ Hsel).
  - apply (selection_run_fetched _ _ _ _ _ _ _ _ _ _ Hsel).
Qed.

Lemma C8_witness :
  ∃ field bt t s' tr,
    py_index (fields two_cells) (ATTRIBUTE_FIELD (sample_parameters true)) = Some field
    ∧ py_index BLOCK_TYPES (BLOCK_TYPE (sample_parameters true)) = Some bt
    ∧ select_template bt = Some t
    ∧ calls s' = calls init
                 ++ invocation_calls two_cells (sample_parameters true) tr
                      (ftp_quit env_fine) (length (transferred tr))
    ∧ quits tr = []
    ∧ opened tr = attempt_path (fields two_cells) field t
                    (OUTPUT_FOLDER (sample_parameters true))
                  <$> List.filter (has_grid_id (fields two_cells) field)
                        (selectedFeatures two_cells)
    ∧ fetched tr `sublist_of`
        (attempt_cmd (fields two_cells) field t
         <$> List.filter (has_grid_id (fields two_cells) field)
               (selectedFeatures two_cells))
    ∧ processAlgorithm env_fine (Some two_cells) (sample_parameters true) init
      = (match ftp_quit env_fine with
         | None => Ok (length (transferred tr))
         | Some m => Raise (LibError m)
         end, s').
Proof.
  apply C8_quit_follows_the_loop_and_order_is_kept; reflexivity.
Defined.

(** ** What lies below a folder starts with it *)

Lemma append_assoc a b c : (a +:+ b) +:+ c = a +:+ (b +:+ c).
Proof. induction a as [|x a IH]; [done|]. rewrite !append_cons. by f_equal. Qed.

Lemma concat_app_sep l parts :
  l ≠ [] → parts ≠ [] →
  String.concat "/" (l ++ parts) = String.concat "/" l +:+ "/" +:+ String.concat "/" parts.
Proof.
  intros Hl Hparts. induction l as [|x l IH]; [done|].
  destruct l as [|y l].
  - destruct parts; done.
  - change (String.concat "/" ((x :: y :: l) ++ parts))
      with (x +:+ "/" +:+ String.concat "/" ((y :: l) ++ parts)).
    rewrite IH by done.
    change (String.concat "/" (x :: y :: l)) with (x +:+ "/" +:+ String.concat "/" (y :: l)).
    by rewrite !append_assoc.
Qed.

(** A path below a folder starts with the normalised folder. *)
Lemma below_prefix folder q :
  below folder q →
  PyStr.startswith q (path_of (initial_slashes folder) (components folder)) = true.
Proof.
  intros (parts & Hne & _ & ->). unfold path_of.
  destruct (components folder) as [|x l] eqn:Hc.
  - rewrite app_nil_l. simpl String.concat.
    replace (match initial_slashes folder with 0 => "" | 1 => "/" | _ => "//" end
             +:+ String.concat "/" parts)
      with ((match initial_slashes folder with 0 => "" | 1 => "/" | _ => "//" end +:+ "")
            +:+ String.concat "/" parts).
    + apply startswith_app.
    + by rewrite append_assoc.
  - rewrite concat_app_sep by done. rewrite <- append_assoc. apply startswith_app.
Qed.

Example outside_is_not_below : ¬ below "/data/out" "/etc/cron.d/x".
Proof. intros H%below_prefix. vm_compute in H. discriminate H. Qed.

Example sibling_is_not_below : ¬ below "/data/out" "/data/outside/x".
Proof.
  intros (parts & Hne & _ & H). vm_compute in H.
  destruct parts as [|p parts]; [done|].
  change ("/data/outside/x" = "/data/out/" +:+ String.concat "/" (p :: parts)) in H.
  discriminate H.
Qed.

(** ** The filesystem after an extraction *)

Local Abbreviation extracted := (foldl (λ (fs : gmap string string) (m : string * string),
                         <[m.1 := m.2]> fs)).

(** A path no member is written to keeps its content. *)
Lemma extracted_elsewhere ms (base : gmap string string) q :
  q ∉ ms.*1 → extracted base ms !! q = base !! q.
Proof.
  revert base. induction ms as [|a ms IH]; intros base Hq; [done|].
  simpl in *. apply not_elem_of_cons in Hq as [Hne Hq].
  rewrite IH by done. by apply lookup_insert_ne.
Qed.

(** Nothing is deleted. *)
Lemma extracted_keeps ms (base : gmap string string) q :
  is_Some (base !! q) → is_Some (extracted base ms !! q).
Proof.
  revert base. induction ms as [|a ms IH]; intros base Hq; [done|].
  simpl. apply IH. rewrite lookup_insert_is_Some.
  destruct (decide (a.1 = q)); auto.
Qed.


(** A path whose content changed is the target of a member. *)
Lemma extracted_changed ms (base : gmap string string) q :
  extracted base ms !! q ≠ base !! q → q ∈ ms.*1.
Proof.
  intros Hne. destruct (decide (q ∈ ms.*1)) as [|Hno]; [done|].
  exfalso. by apply Hne, extracted_elsewhere.
Qed.





(** * Further properties of the code *)

(** ** File names and paths *)

Lemma length_append a b : String.length (a +:+ b) = String.length a + String.length b.
Proof. induction a as [|c a IH]; simpl; [done|]. by rewrite IH. Qed.

Lemma append_inj_r x y b : x +:+ b = y +:+ b → x = y.
Proof.
  revert y. induction x as [|c x IH]; intros [|c' y] H; simpl in H.
  - done.
  - apply (f_equal String.length) in H. rewrite !length_append in H. simpl in H. lia.
  - apply (f_equal String.length) in H. rewrite !length_append in H. simpl in H. lia.
  - injection H as -> H. f_equal. by apply IH.
Qed.

Lemma os_path_join_inj out a b :
  PyStr.startswith a "/" = false → PyStr.startswith b "/" = false →
  os_path_join out a = os_path_join out b → a = b.
Proof.
  unfold os_path_join. intros -> ->.
  destruct (_ || _); intros H.
  - by apply (inj (String.app out)) in H.
  - apply (inj (String.app out)) in H. by injection H.
Qed.

Lemma fetched_const (c c' : string) (l : list string) :
  c' ∈ (λ _, c) <$> l → c' = c.
Proof. by intros (x & -> & _)%list_elem_of_fmap. Qed.

(** X2. For one block type, two turns of the loop for features whose
    grid identifiers are written differently open their local files under
    different path strings and fetch with different commands, whatever the
    environment and the state of each turn. (Two spellings of one file,
    and what an extraction writes, are another matter.) *)
Theorem distinct_grid_ids_give_distinct_files
    bt t fs field out env1 env2 unpack1 unpack2 f1 f2 s1 s2 :
  select_template bt = Some t →
  is_Some (fieldNameIndex fs field) →
  has_grid_id fs field f1 = true →
  has_grid_id fs field f2 = true →
  attr_str (grid_id_of fs field f1) ≠ attr_str (grid_id_of fs field f2) →
  ∃ p1 p2 s1' s2' tr1 tr2,
    process_feature env1 fs field (select_template bt) out unpack1 f1 s1 = (Ok tt, s1')
    ∧ calls s1' = calls s1 ++ tr1
    ∧ process_feature env2 fs field (select_template bt) out unpack2 f2 s2 = (Ok tt, s2')
    ∧ calls s2' = calls s2 ++ tr2
    ∧ opened tr1 = [p1]
    ∧ opened tr2 = [p2]
    ∧ p1 ≠ p2
    ∧ (∀ c1 c2, c1 ∈ fetched tr1 → c2 ∈ fetched tr2 → c1 ≠ c2).
Proof.
  intros Ht Hfield Hid1 Hid2 Hne. rewrite Ht.
  destruct (process_feature_run env1 fs field t out unpack1 f1 s1 Hfield)
    as (s1' & tr1 & n1 & Hrun1 & Hcalls1 & _ & _ & Hstep1).
  destruct (process_feature_run env2 fs field t out unpack2 f2 s2 Hfield)
    as (s2' & tr2 & n2 & Hrun2 & Hcalls2 & _ & _ & Hstep2).
  destruct (feature_run_paths _ _ _ _ _ _ _ _ _ _ Hstep1 Hid1) as (_ & Hopen1 & Hfetch1).
  destruct (feature_run_paths _ _ _ _ _ _ _ _ _ _ Hstep2 Hid2) as (_ & Hopen2 & Hfetch2).
  assert (Hname : attempt_filename fs field t f1 ≠ attempt_filename fs field t f2).
  { unfold attempt_filename, format_filename. intros H.
    apply (inj (String.app _)) in H. by apply append_inj_r in H. }
  eexists _, _, s1', s2', tr1, tr2. split_and!; [done..| |].
  - intros H. apply os_path_join_inj in H; [done|..];
      by eapply template_filename_relative.
  - intros c1 c2 H1 H2. rewrite Hfetch1 in H1. rewrite Hfetch2 in H2.
    apply fetched_const in H1 as ->. apply fetched_const in H2 as ->.
    intros H. apply (inj (String.app _)) in H. by apply (inj (String.app _)) in H.
Qed.

Lemma X2_witness :
  ∃ p1 p2 s1' s2' tr1 tr2,
    process_feature env_fine ["name"; "grid_id"] "grid_id" (select_template "DTM")
      "/data/out" true (cell 0 "605_64") init = (Ok tt, s1')
    ∧ calls s1' = calls init ++ tr1
    ∧ process_feature env_readonly ["name"; "grid_id"] "grid_id" (select_template "DTM")
        "/data/out" false (cell 1 "606_64") init = (Ok tt, s2')
    ∧ calls s2' = calls init ++ tr2
    ∧ opened tr1 = [p1]
    ∧ opened tr2 = [p2]
    ∧ p1 ≠ p2
    ∧ (∀ c1 c2, c1 ∈ fetched tr1 → c2 ∈ fetched tr2 → c1 ≠ c2).
Proof.
  apply (distinct_grid_ids_give_distinct_files "DTM" dtm);
    [reflexivity|by eexists|reflexivity|reflexivity|done].
Defined.

(** X3. For two different block types, two turns of the loop open their
    local files under different path strings of the same output folder and
    fetch with different commands, whatever the grid identifiers, the
    layers, the environment and the state of each turn. *)
Theorem block_types_never_share_a_file
    bt1 bt2 t1 t2 out fs1 fs2 field1 field2 env1 env2 unpack1 unpack2 f1 f2 s1 s2 :
  select_template bt1 = Some t1 →
  select_template bt2 = Some t2 →
  bt1 ≠ bt2 →
  is_Some (fieldNameIndex fs1 field1) →
  is_Some (fieldNameIndex fs2 field2) →
  has_grid_id fs1 field1 f1 = true →
  has_grid_id fs2 field2 f2 = true →
  ∃ p1 p2 s1' s2' tr1 tr2,
    process_feature env1 fs1 field1 (select_template bt1) out unpack1 f1 s1 = (Ok tt, s1')
    ∧ calls s1' = calls s1 ++ tr1
    ∧ process_feature env2 fs2 field2 (select_template bt2) out unpack2 f2 s2 = (Ok tt, s2')
    ∧ calls s2' = calls s2 ++ tr2
    ∧ opened tr1 = [p1]
    ∧ opened tr2 = [p2]
    ∧ p1 ≠ p2
    ∧ (∀ c1 c2, c1 ∈ fetched tr1 → c2 ∈ fetched tr2 → c1 ≠ c2).
Proof.
  intros Ht1 Ht2 Hne Hfield1 Hfield2 Hid1 Hid2. rewrite Ht1, Ht2.
  destruct (process_feature_run env1 fs1 field1 t1 out unpack1 f1 s1 Hfield1)
    as (s1' & tr1 & n1 & Hrun1 & Hcalls1 & _ & _ & Hstep1).
  destruct (process_feature_run env2 fs2 field2 t2 out unpack2 f2 s2 Hfield2)
    as (s2' & tr2 & n2 & Hrun2 & Hcalls2 & _ & _ & Hstep2).
  destruct (feature_run_paths _ _ _ _ _ _ _ _ _ _ Hstep1 Hid1) as (_ & Hopen1 & Hfetch1).
  destruct (feature_run_paths _ _ _ _ _ _ _ _ _ _ Hstep2 Hid2) as (_ & Hopen2 & Hfetch2).
  assert (Hnames : ∀ id1 id2,
            format_filename t1 id1 ≠ format_filename t2 id2
            ∧ ftp_path t1 +:+ format_filename t1 id1
              ≠ ftp_path t2 +:+ format_filename t2 id2).
  { intros id1 id2. clear -Ht1 Ht2 Hne. unfold select_template in Ht1, Ht2.
    repeat match type of Ht1 with
           | context [String.eqb bt1 ?x] =>
               let E := fresh in destruct (String.eqb_spec bt1 x) as [E|E]
           end; try done;
    repeat match type of Ht2 with
           | context [String.eqb bt2 ?x] =>
               let E := fresh in destruct (String.eqb_spec bt2 x) as [E|E]
           end; try done; simplify_eq; try done;
    split; unfold format_filename; simpl; intros H; discriminate H. }
  eexists _, _, s1', s2', tr1, tr2. split_and!; [done..| |].
  - intros H. apply os_path_join_inj in H;
      [by apply Hnames in H|by eapply template_filename_relative..].
  - intros c1 c2 H1 H2. rewrite Hfetch1 in H1. rewrite Hfetch2 in H2.
    apply fetched_const in H1 as ->. apply fetched_const in H2 as ->.
    intros H. apply (inj (String.app _)) in H. by apply Hnames in H.
Qed.

Lemma X3_witness :
  ∃ p1 p2 s1' s2' tr1 tr2,
    process_feature env_fine ["name"; "grid_id"] "grid_id" (select_template "DTM")
      "/data/out" true (cell 0 "605_64") init = (Ok tt, s1')
    ∧ calls s1' = calls init ++ tr1
    ∧ process_feature env_fine ["name"; "grid_id"] "grid_id" (select_template "DSM")
        "/data/out" true (cell 0 "605_64") init = (Ok tt, s2')
    ∧ calls s2' = calls init ++ tr2
    ∧ opened tr1 = [p1]
    ∧ opened tr2 = [p2]
    ∧ p1 ≠ p2
    ∧ (∀ c1 c2, c1 ∈ fetched tr1 → c2 ∈ fetched tr2 → c1 ≠ c2).
Proof.
  apply (block_types_never_share_a_file "DTM" "DSM" dtm
           {| ftp_path := "/dhm_danmarks_hoejdemodel/DSM/";
              filename_prefix := "DSM_";
              filename_suffix := "_TIF_UTM32-ETRS89.zip" |});
    [reflexivity|reflexivity|done|by eexists|by eexists|reflexivity|reflexivity].
Defined.

(** ** The socket of the implicit-TLS client *)

Lemma set_sock_secured wrap value self :
  (∀ v v', wrap v = inl v' → ImplicitFTP_TLS.is_ssl v' = true) →
  ImplicitFTP_TLS.secured self →
  ImplicitFTP_TLS.secured (ImplicitFTP_TLS.set_sock wrap value self).1.
Proof.
  unfold ImplicitFTP_TLS.set_sock, ImplicitFTP_TLS.secured, ImplicitFTP_TLS.sock.
  intros Hwrap Hself.
  destruct value as [v|]; [|done].
  destruct (ImplicitFTP_TLS.is_ssl v) eqn:Hv; simpl; [done|].
  destruct (wrap v) as [v'|msg] eqn:Hw; simpl; [eauto|done].
Qed.

Lemma set_sock_wrap_calls wrap value self :
  ImplicitFTP_TLS.wrap_calls (ImplicitFTP_TLS.set_sock wrap value self).1
  = ImplicitFTP_TLS.wrap_calls self ++ ImplicitFTP_TLS.plain_sockets [value].
Proof.
  unfold ImplicitFTP_TLS.set_sock, ImplicitFTP_TLS.plain_sockets.
  destruct value as [v|]; simpl; [|by rewrite app_nil_r].
  destruct (ImplicitFTP_TLS.is_ssl v); simpl; [by rewrite app_nil_r|].
  by destruct (wrap v).
Qed.

Lemma assign_all_secured wrap values self :
  (∀ v v', wrap v = inl v' → ImplicitFTP_TLS.is_ssl v' = true) →
  ImplicitFTP_TLS.secured self →
  ImplicitFTP_TLS.secured (ImplicitFTP_TLS.assign_all wrap values self).
Proof.
  intros Hwrap. unfold ImplicitFTP_TLS.assign_all.
  revert self. induction values as [|value values IH]; intros self Hself; [done|].
  simpl. apply IH. by apply set_sock_secured.
Qed.

Lemma assign_all_wrap_calls wrap values self :
  ImplicitFTP_TLS.wrap_calls (ImplicitFTP_TLS.assign_all wrap values self)
  = ImplicitFTP_TLS.wrap_calls self ++ ImplicitFTP_TLS.plain_sockets values.
Proof.
  unfold ImplicitFTP_TLS.assign_all.
  revert self. induction values as [|value values IH]; intros self.
  { simpl. by rewrite app_nil_r. }
  simpl. rewrite IH, set_sock_wrap_calls, <- app_assoc. f_equal.
  unfold ImplicitFTP_TLS.plain_sockets. simpl.
  destruct value as [v|]; [|done]. by destruct (ImplicitFTP_TLS.is_ssl v).
Qed.

Lemma plain_sockets_not_ssl values :
  Forall (λ v, ImplicitFTP_TLS.is_ssl v = false) (ImplicitFTP_TLS.plain_sockets values).
Proof.
  unfold ImplicitFTP_TLS.plain_sockets.
  induction values as [|[v|] values IH]; simpl; [constructor| |done].
  destruct (ImplicitFTP_TLS.is_ssl v) eqn:Hv; [done|by constructor].
Qed.

(** X1. Whatever is assigned to the [sock] property, in whatever order and
    whether or not some assignments raise, the socket the object holds is
    None or an SSL socket, provided [wrap_socket] returns SSL sockets when
    it returns.  The sockets handed to [wrap_socket], whether the call
    returned or raised, are exactly the assigned sockets that are not SSL
    sockets, in order: an SSL socket and None are stored as they are.
    Assigning the object's own socket back raises nothing, makes no call
    and changes nothing. *)
Theorem stored_socket_is_always_wrapped wrap values :
  (∀ v v', wrap v = inl v' → ImplicitFTP_TLS.is_ssl v' = true) →
  ImplicitFTP_TLS.secured (ImplicitFTP_TLS.assign_all wrap values ImplicitFTP_TLS.init)
  ∧ ImplicitFTP_TLS.wrap_calls
      (ImplicitFTP_TLS.assign_all wrap values ImplicitFTP_TLS.init)
    = ImplicitFTP_TLS.plain_sockets values
  ∧ Forall (λ v, ImplicitFTP_TLS.is_ssl v = false)
      (ImplicitFTP_TLS.wrap_calls
         (ImplicitFTP_TLS.assign_all wrap values ImplicitFTP_TLS.init))
  ∧ ImplicitFTP_TLS.set_sock wrap
      (ImplicitFTP_TLS.sock (ImplicitFTP_TLS.assign_all wrap values ImplicitFTP_TLS.init))
      (ImplicitFTP_TLS.assign_all wrap values ImplicitFTP_TLS.init)
    = (ImplicitFTP_TLS.assign_all wrap values ImplicitFTP_TLS.init, None).
Proof.
  intros Hwrap.
  assert (Hsec := assign_all_secured wrap values ImplicitFTP_TLS.init Hwrap I).
  assert (Hcalls := assign_all_wrap_calls wrap values ImplicitFTP_TLS.init).
  simpl in Hcalls.
  split_and!; [done|done|rewrite Hcalls; apply plain_sockets_not_ssl|].
  revert Hsec. generalize (ImplicitFTP_TLS.assign_all wrap values ImplicitFTP_TLS.init).
  unfold ImplicitFTP_TLS.secured, ImplicitFTP_TLS.set_sock, ImplicitFTP_TLS.sock.
  intros [[v|] ws]; simpl; [by intros ->|done].
Qed.

Lemma X1_witness :
  ImplicitFTP_TLS.assign_all wrap_refusing
    [Some (ImplicitFTP_TLS.PlainSocket 7); None;
     Some (ImplicitFTP_TLS.SSLSocket 9); Some (ImplicitFTP_TLS.PlainSocket 8)]
    ImplicitFTP_TLS.init
  = {| ImplicitFTP_TLS._sock := Some (ImplicitFTP_TLS.SSLSocket 9);
       ImplicitFTP_TLS.wrap_calls :=
         [ImplicitFTP_TLS.PlainSocket 7; ImplicitFTP_TLS.PlainSocket 8] |}
  ∧ ImplicitFTP_TLS.secured
      (ImplicitFTP_TLS.assign_all wrap_refusing
         [Some (ImplicitFTP_TLS.PlainSocket 7); None;
          Some (ImplicitFTP_TLS.SSLSocket 9); Some (ImplicitFTP_TLS.PlainSocket 8)]
         ImplicitFTP_TLS.init).
Proof.
  split; [reflexivity|].
  apply (stored_socket_is_always_wrapped wrap_refusing).
  intros [fd|fd] v'; [|by intros [= <-]].
  do 9 (destruct fd as [|fd]; [by intros [= <-]|]). by intros [= <-].
Defined.

(** ** The declared parameters and the indices read back *)

Lemma py_index_is_Some {A} (l : list A) i :
  is_Some (py_index l i) ↔ (- Z.of_nat (length l) ≤ i < Z.of_nat (length l))%Z.
Proof.
  unfold py_index.
  destruct (0 <=? i)%Z eqn:H0; [apply Z.leb_le in H0|apply Z.leb_gt in H0].
  - rewrite lookup_lt_is_Some. lia.
  - destruct (0 <=? _ + i)%Z eqn:H1; [apply Z.leb_le in H1|apply Z.leb_gt in H1].
    + rewrite lookup_lt_is_Some. lia.
    + split; [by intros [? ?]|lia].
Qed.

(** X4. An enumeration index outside the list it indexes (Python also
    admits the negative indices down to minus the length) makes the
    invocation raise IndexError, whatever the credentials, the folder and
    the selection are, and before anything was logged or called. *)
Theorem index_out_of_range_raises env l p s :
  is_vector l = true →
  (ATTRIBUTE_FIELD p < - Z.of_nat (length (fields l))
   ∨ Z.of_nat (length (fields l)) ≤ ATTRIBUTE_FIELD p
   ∨ BLOCK_TYPE p < -3 ∨ 3 ≤ BLOCK_TYPE p)%Z →
  processAlgorithm env (Some l) p s = (Raise IndexError, s).
Proof.
  intros Hvec Hrange. unfold processAlgorithm. rewrite Hvec.
  unfold bind, or_raise, ret, raise.
  destruct (py_index (fields l) (ATTRIBUTE_FIELD p)) as [field|] eqn:Hf; [|done].
  destruct (py_index BLOCK_TYPES (BLOCK_TYPE p)) as [bt|] eqn:Hb; [|done].
  exfalso.
  assert (is_Some (py_index (fields l) (ATTRIBUTE_FIELD p))) as Ha%py_index_is_Some
    by eauto.
  assert (is_Some (py_index BLOCK_TYPES (BLOCK_TYPE p))) as Hc%py_index_is_Some
    by eauto.
  simpl in Hc. lia.
Qed.

Lemma X4_witness :
  processAlgorithm env_fine (Some one_cell)
    {| ATTRIBUTE_FIELD := 2; BLOCK_TYPE := 0; FTP_USERNAME := ""; FTP_PASSWORD := "";
       OUTPUT_FOLDER := "/data/out"; UNPACK_ZIP := false |} init
  = (Raise IndexError, init).
Proof.
  apply index_out_of_range_raises; [reflexivity|]. right. left. simpl. lia.
Defined.

(** X5. When the dialog was built for the vector layer that is still
    active, the options the user picks from are the layer's fields and the
    block types: the field and block type [processAlgorithm] reads back are
    the options that were picked, and no invocation raises IndexError. *)
Theorem offered_options_are_read_back tr l p field bt :
  is_vector l = true →
  offered (initAlgorithm tr (Some l)) "ATTRIBUTE_FIELD" (ATTRIBUTE_FIELD p) = Some field →
  offered (initAlgorithm tr (Some l)) "BLOCK_TYPE" (BLOCK_TYPE p) = Some bt →
  py_index (fields l) (ATTRIBUTE_FIELD p) = Some field
  ∧ py_index BLOCK_TYPES (BLOCK_TYPE p) = Some bt
  ∧ indices_ok (Some l) p = true
  ∧ ∀ env s, (processAlgorithm env (Some l) p s).1 ≠ Raise IndexError.
Proof.
  unfold offered, initAlgorithm. intros Hvec. rewrite Hvec. simpl.
  destruct (0 <=? ATTRIBUTE_FIELD p)%Z eqn:Ha; [|done].
  destruct (0 <=? BLOCK_TYPE p)%Z eqn:Hb; [|done].
  intros Hfield Hbt.
  assert (H1 : py_index (fields l) (ATTRIBUTE_FIELD p) = Some field)
    by (unfold py_index; by rewrite Ha).
  assert (H2 : py_index BLOCK_TYPES (BLOCK_TYPE p) = Some bt)
    by (unfold py_index; by rewrite Hb).
  assert (H3 : indices_ok (Some l) p = true).
  { unfold indices_ok. rewrite H1, H2. done. }
  split_and!; [done..|].
  intros env s.
  destruct (preconditions_ok env (Some l) p) eqn:Hpre.
  2:{ destruct (precondition_failure env (Some l) p s Hpre) as (e & -> & [He|[_ He]]);
        [|congruence].
      simpl. intros [= ->]. unfold precondition_errors in He.
      repeat (apply elem_of_cons in He as [?|He]; [done|]).
      by apply elem_of_nil in He. }
  destruct (session_error env p) as [m|] eqn:Hsess.
  { by destruct (session_failure env l p s m Hpre H3 Hsess) as (s' & tr' & -> & _). }
  destruct (processAlgorithm_run env l p s Hpre H3 Hsess)
    as (? & ? & ? & s' & tr' & _ & _ & _ & _ & _ & _ & ->).
  simpl. by destruct (ftp_quit env).
Qed.

Lemma X5_witness :
  py_index (fields one_cell) (ATTRIBUTE_FIELD (sample_parameters true)) = Some "grid_id"
  ∧ py_index BLOCK_TYPES (BLOCK_TYPE (sample_parameters true)) = Some "DTM"
  ∧ indices_ok (Some one_cell) (sample_parameters true) = true
  ∧ ∀ env s, (processAlgorithm env (Some one_cell) (sample_parameters true) s).1
             ≠ Raise IndexError.
Proof.
  apply (offered_options_are_read_back id); reflexivity.
Defined.

(** ** The index loader when it succeeds *)

(** X6. For a URL that is not empty and loads as a valid layer: when the
    layer has a renderer, the index loader returns "GeoJSON loaded:
    10km_index_grid" whatever the URL, and appends to the project, after
    the layers already there, one layer read from that URL whose fill
    symbol is the line pattern followed by the outline, the default simple
    fill being replaced; when the layer has no renderer (a layer without
    geometry), setting the symbol raises AttributeError and no layer is
    added. *)
Theorem index_loader_adds_the_styled_layer env url s :
  PyStr.truthy url = true →
  ogr_valid env url = true →
  (ogr_renderer env url = true →
   ∃ layer s',
     load_processAlgorithm env url s = (Ok "GeoJSON loaded: 10km_index_grid", s')
     ∧ project s' = project s ++ [layer]
     ∧ files s' = files s
     ∧ vl_source layer = url
     ∧ vl_name layer = "10km_index_grid"
     ∧ vl_symbol layer
       = [LinePatternFill 26 200 45 (55, 126, 184)%Z; SimpleLine (0, 0, 0)%Z 46])
  ∧ (ogr_renderer env url = false →
     ∃ s',
       load_processAlgorithm env url s = (Raise AttributeError, s')
       ∧ project s' = project s
       ∧ added (calls s') = added (calls s)
       ∧ files s' = files s).
Proof.
  intros Hurl Hvalid.
  unfold load_processAlgorithm, bind, QgsVectorLayer, pushInfo, emit, addMapLayer,
    renderer_setSymbol, raise, ret.
  rewrite Hurl. simpl. rewrite Hvalid. simpl.
  split; intros ->; simpl.
  - eexists _, _. split_and!; [reflexivity|done..].
  - eexists. split_and!; [reflexivity|done| |done].
    simpl. unfold added. rewrite !omap_app. simpl. by rewrite !app_nil_r.
Qed.

Lemma X6_witness :
  ∃ layer s',
    load_processAlgorithm env_fine "https://example.org/grid.geojson" init
    = (Ok "GeoJSON loaded: 10km_index_grid", s')
    ∧ project s' = project init ++ [layer]
    ∧ files s' = files init
    ∧ vl_source layer = "https://example.org/grid.geojson"
    ∧ vl_name layer = "10km_index_grid"
    ∧ vl_symbol layer
      = [LinePatternFill 26 200 45 (55, 126, 184)%Z; SimpleLine (0, 0, 0)%Z 46].
Proof.
  apply (index_loader_adds_the_styled_layer env_fine
           "https://example.org/grid.geojson" init); reflexivity.
Defined.

(** X7. The index loader tries to load the resource once when the URL is
    not empty and not at all when it is empty; it never adds more layers
    than it loaded and never touches a local file. *)
Theorem index_loader_loads_at_most_once env url s :
  ∃ r s' tr,
    load_processAlgorithm env url s = (r, s')
    ∧ calls s' = calls s ++ tr
    ∧ load_attempts tr = (if PyStr.truthy url then [url] else [])
    ∧ length (added tr) ≤ length (load_attempts tr)
    ∧ files s' = files s.
Proof.
  unfold load_processAlgorithm, bind, QgsVectorLayer, pushInfo, emit, addMapLayer,
    renderer_setSymbol, raise, ret.
  destruct (PyStr.truthy url); simpl.
  2:{ exists (Raise (QgsProcessingException "No URL provided.")), s, [].
      split_and!; try done. by rewrite app_nil_r. }
  destruct (ogr_valid env url); simpl.
  2:{ eexists _, _, _.
      split_and!; [reflexivity|simpl; by rewrite <- !app_assoc|done|simpl; lia|done]. }
  destruct (ogr_renderer env url); simpl.
  - eexists _, _, _.
    split_and!; [reflexivity|simpl; by rewrite <- !app_assoc|done|simpl; lia|done].
  - eexists _, _, _.
    split_and!; [reflexivity|simpl; by rewrite <- !app_assoc|done|simpl; lia|done].
Qed.

(** ** What a download leaves on disk *)

Lemma attempt_file_content u fn p c out fs0 tr n fs1 :
  attempt u fn p c out fs0 tr n fs1 →
  (∀ c' d r, Retrbinary c' d r ∈ tr → member_targets tr = [] → fs1 !! p = Some d)
  ∧ (opened_ok tr = [] → fs1 = fs0).
Proof.
  intros H; destruct H; (split; [|done]); intros c' d' r Hin Hno;
    repeat (apply elem_of_cons in Hin as [Hin|Hin]; [try done|]);
    try (by apply elem_of_nil in Hin);
    injection Hin as -> -> ->; try apply lookup_insert_eq.
  - unfold member_targets in Hno. simpl in Hno. rewrite app_nil_r in Hno.
    apply fmap_nil_inv in Hno as ->. simpl. apply lookup_insert_eq.
  - unfold member_targets in Hno. simpl in Hno. rewrite app_nil_r in Hno.
    apply fmap_nil_inv in Hno as ->. simpl. apply lookup_insert_eq.
Qed.

(** X8. For a feature with a grid identifier, the local file holds
    exactly the bytes the transfer delivered, replacing whatever the path
    held before, also when the transfer raised midway: the partial file is
    left in place. (An extraction that writes members may write over it.)
    When the local file could not be opened, no file is changed. *)
Theorem local_file_holds_what_was_delivered
    env fs i field bt t out unpack f s :
  py_index fs i = Some field →
  select_template bt = Some t →
  has_grid_id fs field f = true →
  ∃ s' tr,
    process_feature env fs field (Some t) out unpack f s = (Ok tt, s')
    ∧ calls s' = calls s ++ tr
    ∧ (∀ c d r, Retrbinary c d r ∈ tr → member_targets tr = [] →
         files s' !! attempt_path fs field t out f = Some d)
    ∧ (opened_ok tr = [] → files s' = files s).
Proof.
  intros Hfield%py_index_elem_of%fieldNameIndex_elem_of Ht Hid.
  destruct (process_feature_run env fs field t out unpack f s Hfield)
    as (s' & tr & n & Hrun & Hcalls & _ & _ & Hstep).
  exists s', tr. split_and!; [done..| |].
  - destruct Hstep as [Hno|tr n fs1 _ Hatt]; [congruence|].
    intros c d r Hin Hm. apply elem_of_cons in Hin as [|Hin]; [done|].
    by apply (proj1 (attempt_file_content _ _ _ _ _ _ _ _ _ Hatt) c d r).
  - destruct Hstep as [Hno|tr n fs1 _ Hatt]; [done|].
    apply (proj2 (attempt_file_content _ _ _ _ _ _ _ _ _ Hatt)).
Qed.

Lemma X8_witness :
  ∃ s' tr,
    process_feature env_broken_transfer ["name"; "grid_id"] "grid_id" (Some dtm)
      "/data/out" true (cell 0 "605_64") init = (Ok tt, s')
    ∧ calls s' = calls init ++ tr
    ∧ (∀ c d r, Retrbinary c d r ∈ tr → member_targets tr = [] →
         files s' !! attempt_path ["name"; "grid_id"] "grid_id" dtm "/data/out"
                       (cell 0 "605_64") = Some d)
    ∧ (opened_ok tr = [] → files s' = files init).
Proof.
  apply (local_file_holds_what_was_delivered env_broken_transfer _ 1 _ "DTM");
    reflexivity.
Defined.

(** ** What a whole invocation writes *)

Lemma member_targets_app tr1 tr2 :
  member_targets (tr1 ++ tr2) = member_targets tr1 ++ member_targets tr2.
Proof. unfold member_targets. apply bind_app. Qed.
Lemma contained_nil fs0 out unpack : contained fs0 fs0 out unpack [].
Proof.
  split_and!; try done; intros a Ha; by apply elem_of_nil in Ha.
Qed.

Lemma contained_app fs0 fs1 fs2 out unpack tr1 tr2 :
  contained fs0 fs1 out unpack tr1 → contained fs1 fs2 out unpack tr2 →
  contained fs0 fs2 out unpack (tr1 ++ tr2).
Proof.
  intros (K1 & C1 & U1 & A1 & D1) (K2 & C2 & U2 & A2 & D2).
  unfold contained, opened_ok, unpackings, extraction_folders.
  rewrite member_targets_app, !omap_app.
  fold (opened_ok tr1) (opened_ok tr2) (unpackings tr1) (unpackings tr2)
    (extraction_folders tr1) (extraction_folders tr2).
  split_and!.
  - auto.
  - intros q Hq. rewrite !elem_of_app.
    destruct (decide (fs1 !! q = fs0 !! q)) as [E|E].
    + rewrite <- E in Hq. destruct (C2 q Hq); auto.
    + destruct (C1 q E); auto.
  - intros Hu. destruct (U1 Hu) as [-> ->], (U2 Hu) as [-> ->]. done.
  - intros a. rewrite !elem_of_app. intros [?|?]; auto.
  - intros d. rewrite !elem_of_app. intros [?|?]; auto.
Qed.

(** What one attempt does to the files, and what it unpacks. *)
Lemma attempt_contained u fn p c out fs0 tr n fs1 :
  attempt u fn p c out fs0 tr n fs1 → contained fs0 fs1 out u tr.
Proof.
  assert (Hkeep : ∀ d q, is_Some (fs0 !! q) → is_Some (<[p := d]> fs0 !! q)).
  { intros d q Hq. rewrite lookup_insert_is_Some. destruct (decide (p = q)); auto. }
  assert (Hone : ∀ d q, <[p := d]> fs0 !! q ≠ fs0 !! q → q = p).
  { intros d q Hq. destruct (decide (q = p)) as [|Hne]; [done|].
    by rewrite lookup_insert_ne in Hq. }
  assert (Hmany : ∀ d (ms : list (string * string)) q,
            foldl (λ fs m, <[m.1 := m.2]> fs) (<[p := d]> fs0) ms !! q ≠ fs0 !! q →
            q = p ∨ q ∈ ms.*1).
  { intros d ms q Hq. destruct (decide (q = p)) as [|Hne]; [by left|right].
    apply (extracted_changed ms (<[p := d]> fs0) q). by rewrite lookup_insert_ne. }
  intros H; destruct H; unfold contained, member_targets; simpl;
    rewrite ?app_nil_r; split_and!; try done; try congruence.
  all: try (intros a Ha; by apply elem_of_nil in Ha).
  all: try (intros q Hq; apply Hkeep, Hq).
  all: try (intros q Hq; apply extracted_keeps, Hkeep, Hq).
  all: try (intros q ->%Hone; left; by apply list_elem_of_singleton).
  all: try (intros q [->|Hq]%Hmany; [left; by apply list_elem_of_singleton|by right]).
  all: try (intros a Ha; repeat (apply elem_of_cons in Ha as [->|Ha]); 
            [by apply list_elem_of_singleton..|by apply elem_of_nil in Ha]).
  all: try (intros a Ha; by apply list_elem_of_singleton in Ha).
Qed.

Lemma contained_info fs0 fs1 out unpack m tr :
  contained fs0 fs1 out unpack tr → contained fs0 fs1 out unpack (PushInfo m :: tr).
Proof. done. Qed.

Lemma contained_unpack fs0 fs1 out (u unpack : bool) tr :
  (unpack = false → u = false) →
  contained fs0 fs1 out u tr → contained fs0 fs1 out unpack tr.
Proof. intros Hu (K & C & U & A & D). split_and!; auto. Qed.

Lemma selection_run_contained unpack fs field t out feats fs0 tr n fs1 :
  selection_run unpack fs field t out feats fs0 tr n fs1 →
  contained fs0 fs1 out unpack tr.
Proof.
  induction 1 as [|f l fs0 tr1 n1 fs1 tr2 n2 fs2 Hf _ IH]; [apply contained_nil|].
  eapply contained_app; [|exact IH].
  destruct Hf as [Hid|tr n fs1 Hid Hatt].
  - apply contained_info, contained_nil.
  - apply contained_info. eapply contained_unpack; [|by eapply attempt_contained].
    by intros ->.
Qed.

Lemma invocation_contained fs0 fs1 out unpack l p tr r n :
  contained fs0 fs1 out unpack tr →
  contained fs0 fs1 out unpack (invocation_calls l p tr r n).
Proof.
  assert (Hm : member_targets (invocation_calls l p tr r n) = member_targets tr).
  { unfold member_targets, invocation_calls, session_calls. simpl.
    rewrite bind_app. destruct r; simpl; by rewrite app_nil_r. }
  assert (Hu : unpackings (invocation_calls l p tr r n) = unpackings tr).
  { unfold unpackings, invocation_calls, session_calls. simpl.
    rewrite omap_app. destruct r; simpl; by rewrite app_nil_r. }
  assert (He : extraction_folders (invocation_calls l p tr r n) = extraction_folders tr).
  { unfold extraction_folders, invocation_calls, session_calls. simpl.
    rewrite omap_app. destruct r; simpl; by rewrite app_nil_r. }
  unfold contained. by rewrite Hm, Hu, He, invocation_opened_ok.
Qed.

Lemma session_failure_contained env l p s m :
  preconditions_ok env (Some l) p = true →
  indices_ok (Some l) p = true →
  session_error env p = Some m →
  ∃ s' tr,
    processAlgorithm env (Some l) p s = (Raise (connect_error m), s')
    ∧ calls s' = calls s ++ tr
    ∧ files s' = files s
    ∧ contained (files s) (files s) (OUTPUT_FOLDER p) (UNPACK_ZIP p) tr.
Proof.
  unfold preconditions_ok, indices_ok, session_error.
  intros Hpre Hidx Hsess.
  apply andb_prop in Hpre as [Hpre Hsel]. apply andb_prop in Hpre as [Hpre Hdir].
  apply andb_prop in Hpre as [Hpre Hpw]. apply andb_prop in Hpre as [Hvec Huser].
  apply andb_prop in Hidx as [Hfield Hbt].
  apply bool_decide_eq_true in Hfield as [field Hfield].
  apply bool_decide_eq_true in Hbt as [bt Hbt].
  apply negb_true_iff, bool_decide_eq_false in Hsel.
  unfold processAlgorithm.
  rewrite Hvec. unfold bind at 1. simpl.
  rewrite Hfield. unfold bind at 1. simpl.
  rewrite Hbt. unfold bind at 1. simpl.
  rewrite Huser, Hpw. simpl.
  unfold bind at 1. simpl. rewrite Hdir. simpl.
  destruct (selectedFeatures l) as [|f0 feats] eqn:Hfeats; [done|].
  unfold bind at 1. simpl.
  unfold bind at 1. unfold try_except, bind at 1 2 3, connect, login, prot_p. simpl.
  destruct (ftp_connect env ftp_server ftp_port) as [m1|] eqn:Hc; simpl.
  { injection Hsess as ->. eexists _, _.
    split_and!; [reflexivity|simpl; by rewrite <- !app_assoc|done|].
    split_and!; try done; intros a Ha; by apply elem_of_nil in Ha. }
  destruct (ftp_login env (FTP_USERNAME p) (FTP_PASSWORD p)) as [m2|] eqn:Hl; simpl.
  { injection Hsess as ->. eexists _, _.
    split_and!; [reflexivity|simpl; by rewrite <- !app_assoc|done|].
    split_and!; try done; intros a Ha; by apply elem_of_nil in Ha. }
  rewrite Hsess. simpl.
  eexists _, _. split_and!; [reflexivity|simpl; by rewrite <- !app_assoc|done|].
  split_and!; try done; intros a Ha; by apply elem_of_nil in Ha.
Qed.

(** X9. Whatever the inputs and the environment, an invocation of the
    block downloader deletes no file; every path whose content it changed
    was opened for a download or written by an extraction; it unpacks only
    archives it opened itself in this invocation, only into the output
    folder, and when unpacking is off it opens no archive and extracts
    nothing. *)
Theorem invocation_writes_only_downloads_and_members env layer p s :
  ∃ r s' tr,
    processAlgorithm env layer p s = (r, s')
    ∧ calls s' = calls s ++ tr
    ∧ (∀ q, is_Some (files s !! q) → is_Some (files s' !! q))
    ∧ (∀ q, files s' !! q ≠ files s !! q → q ∈ opened_ok tr ∨ q ∈ member_targets tr)
    ∧ (UNPACK_ZIP p = false → unpackings tr = [] ∧ member_targets tr = [])
    ∧ (∀ a, a ∈ unpackings tr → a ∈ opened_ok tr)
    ∧ (∀ d, d ∈ extraction_folders tr → d = OUTPUT_FOLDER p).
Proof.
  cut (∃ r s' tr, processAlgorithm env layer p s = (r, s')
         ∧ calls s' = calls s ++ tr
         ∧ contained (files s) (files s') (OUTPUT_FOLDER p) (UNPACK_ZIP p) tr).
  { intros (r & s' & tr & Hrun & Hcalls & Hc). by exists r, s', tr. }
  assert (Hquiet : ∀ r, ∃ (r' : res nat) s' tr,
            (r, s) = (r', s') ∧ calls s' = calls s ++ tr
            ∧ contained (files s) (files s') (OUTPUT_FOLDER p) (UNPACK_ZIP p) tr).
  { intros r. exists r, s, []. split_and!; [done|by rewrite app_nil_r|apply contained_nil]. }
  destruct (preconditions_ok env layer p) eqn:Hpre.
  2:{ destruct (precondition_failure env layer p s Hpre) as (e & -> & _). apply Hquiet. }
  destruct (indices_ok layer p) eqn:Hidx.
  2:{ rewrite (index_failure env layer p s Hpre Hidx). apply Hquiet. }
  destruct layer as [l|]; [|done].
  destruct (session_error env p) as [m|] eqn:Hsess.
  { destruct (session_failure_contained env l p s m Hpre Hidx Hsess)
      as (s' & tr & -> & Hcalls & Hfiles & Hc).
    eexists _, s', tr. rewrite Hfiles. by split_and!. }
  destruct (processAlgorithm_run env l p s Hpre Hidx Hsess)
    as (field & bt & t & s' & tr & _ & _ & _ & Hsel & _ & Hcalls & ->).
  eexists _, s', _. split_and!; [reflexivity|exact Hcalls|].
  apply invocation_contained, (selection_run_contained _ _ _ _ _ _ _ _ _ _ Hsel).
Qed.

(** ** Where an invocation unpacks to *)

Lemma attempt_members_below u fn p c out fs0 tr n fs1 :
  attempt u fn p c out fs0 tr n fs1 →
  Forall (below out) (member_targets tr).
Proof.
  intros H; destruct H; unfold member_targets; simpl; rewrite ?app_nil_r;
    try constructor; by apply Forall_fmap.
Qed.

Lemma selection_run_members_below unpack fs field t out feats fs0 tr n fs1 :
  selection_run unpack fs field t out feats fs0 tr n fs1 →
  Forall (below out) (member_targets tr).
Proof.
  induction 1 as [|f l fs0 tr1 n1 fs1 tr2 n2 fs2 Hf _ IH]; [constructor|].
  rewrite member_targets_app. apply Forall_app. split; [|done].
  destruct Hf as [Hid|tr n fs1 Hid Hatt]; [constructor|].
  apply (attempt_members_below _ _ _ _ _ _ _ _ _ Hatt).
Qed.

Lemma session_failure_members env l p s m :
  preconditions_ok env (Some l) p = true →
  indices_ok (Some l) p = true →
  session_error env p = Some m →
  ∃ s' tr,
    processAlgorithm env (Some l) p s = (Raise (connect_error m), s')
    ∧ calls s' = calls s ++ tr
    ∧ member_targets tr = [].
Proof.
  unfold preconditions_ok, indices_ok, session_error.
  intros Hpre Hidx Hsess.
  apply andb_prop in Hpre as [Hpre Hsel]. apply andb_prop in Hpre as [Hpre Hdir].
  apply andb_prop in Hpre as [Hpre Hpw]. apply andb_prop in Hpre as [Hvec Huser].
  apply andb_prop in Hidx as [Hfield Hbt].
  apply bool_decide_eq_true in Hfield as [field Hfield].
  apply bool_decide_eq_true in Hbt as [bt Hbt].
  apply negb_true_iff, bool_decide_eq_false in Hsel.
  unfold processAlgorithm.
  rewrite Hvec. unfold bind at 1. simpl.
  rewrite Hfield. unfold bind at 1. simpl.
  rewrite Hbt. unfold bind at 1. simpl.
  rewrite Huser, Hpw. simpl.
  unfold bind at 1. simpl. rewrite Hdir. simpl.
  destruct (selectedFeatures l) as [|f0 feats] eqn:Hfeats; [done|].
  unfold bind at 1. simpl.
  unfold bind at 1. unfold try_except, bind at 1 2 3, connect, login, prot_p. simpl.
  destruct (ftp_connect env ftp_server ftp_port) as [m1|] eqn:Hc; simpl.
  { injection Hsess as ->. eexists _, _.
    split_and!; [reflexivity|simpl; by rewrite <- !app_assoc|done]. }
  destruct (ftp_login env (FTP_USERNAME p) (FTP_PASSWORD p)) as [m2|] eqn:Hl; simpl.
  { injection Hsess as ->. eexists _, _.
    split_and!; [reflexivity|simpl; by rewrite <- !app_assoc|done]. }
  rewrite Hsess. simpl.
  eexists _, _. split_and!; [reflexivity|simpl; by rewrite <- !app_assoc|done].
Qed.

(** X14. Whatever the inputs, the environment and the names of the
    members in the archives, every file an invocation unpacks is written
    below the output folder: at the normalised folder followed by one or
    more components that are not empty, not "." or ".." and hold no
    slash. *)
Theorem members_are_written_below_the_folder env layer p s :
  ∃ r s' tr,
    processAlgorithm env layer p s = (r, s')
    ∧ calls s' = calls s ++ tr
    ∧ ∀ q, q ∈ member_targets tr → below (OUTPUT_FOLDER p) q.
Proof.
  cut (∃ r s' tr, processAlgorithm env layer p s = (r, s')
         ∧ calls s' = calls s ++ tr
         ∧ Forall (below (OUTPUT_FOLDER p)) (member_targets tr)).
  { intros (r & s' & tr & Hrun & Hcalls & Hall). exists r, s', tr.
    split_and!; [done..|]. by apply Forall_forall. }
  assert (Hquiet : ∀ r, ∃ (r' : res nat) s' tr,
            (r, s) = (r', s') ∧ calls s' = calls s ++ tr
            ∧ Forall (below (OUTPUT_FOLDER p)) (member_targets tr)).
  { intros r. exists r, s, []. split_and!; [done|by rewrite app_nil_r|constructor]. }
  destruct (preconditions_ok env layer p) eqn:Hpre.
  2:{ destruct (precondition_failure env layer p s Hpre) as (e & -> & _). apply Hquiet. }
  destruct (indices_ok layer p) eqn:Hidx.
  2:{ rewrite (index_failure env layer p s Hpre Hidx). apply Hquiet. }
  destruct layer as [l|]; [|done].
  destruct (session_error env p) as [m|] eqn:Hsess.
  { destruct (session_failure_members env l p s m Hpre Hidx Hsess)
      as (s' & tr & -> & Hcalls & Hnone).
    eexists _, s', tr. rewrite Hnone. by split_and!. }
  destruct (processAlgorithm_run env l p s Hpre Hidx Hsess)
    as (field & bt & t & s' & tr & _ & _ & _ & Hsel & _ & Hcalls & ->).
  eexists _, s', _. split_and!; [reflexivity|exact Hcalls|].
  assert (Hm : member_targets (invocation_calls l p tr (ftp_quit env) (downloaded_files s'))
               = member_targets tr).
  { unfold member_targets, invocation_calls, session_calls. simpl.
    rewrite bind_app. destruct (ftp_quit env); simpl; by rewrite app_nil_r. }
  rewrite Hm. apply (selection_run_members_below _ _ _ _ _ _ _ _ _ _ Hsel).
Qed.

(** ** The order of the network calls *)

Lemma fetched_app tr1 tr2 : fetched (tr1 ++ tr2) = fetched tr1 ++ fetched tr2.
Proof. apply omap_app. Qed.

Lemma quits_app tr1 tr2 : quits (tr1 ++ tr2) = quits tr1 ++ quits tr2.
Proof. apply omap_app. Qed.

(** X10. Whatever the inputs and the environment, every transfer of an
    invocation comes after connect, login with the given credentials and
    the switch to protected data transfer have all returned, and before
    QUIT is sent. *)
Theorem transfers_happen_inside_the_protected_session env layer p s :
  ∃ r s' tr,
    processAlgorithm env layer p s = (r, s')
    ∧ calls s' = calls s ++ tr
    ∧ ∀ pre c d o post,
        tr = pre ++ Retrbinary c d o :: post →
        Connect ftp_server ftp_port None ∈ pre
        ∧ Login (FTP_USERNAME p) (FTP_PASSWORD p) None ∈ pre
        ∧ ProtP None ∈ pre
        ∧ quits pre = [].
Proof.
  assert (Hnone : ∀ tr, fetched tr = [] → ∀ pre c d o post,
            tr = pre ++ Retrbinary c d o :: post →
            Connect ftp_server ftp_port None ∈ pre
            ∧ Login (FTP_USERNAME p) (FTP_PASSWORD p) None ∈ pre
            ∧ ProtP None ∈ pre ∧ quits pre = []).
  { intros tr Hf pre c d o post ->. rewrite fetched_app in Hf. simpl in Hf.
    by apply app_nil in Hf as [_ Hf]. }
  destruct (preconditions_ok env layer p) eqn:Hpre.
  2:{ destruct (precondition_failure env layer p s Hpre) as (e & -> & _).
      eexists _, s, []. split_and!; [done|by rewrite app_nil_r|by apply Hnone]. }
  destruct (indices_ok layer p) eqn:Hidx.
  2:{ rewrite (index_failure env layer p s Hpre Hidx).
      eexists _, s, []. split_and!; [done|by rewrite app_nil_r|by apply Hnone]. }
  destruct layer as [l|]; [|done].
  destruct (session_error env p) as [m|] eqn:Hsess.
  { destruct (session_failure env l p s m Hpre Hidx Hsess)
      as (s' & tr & -> & Hcalls & _ & _ & _ & _ & _ & Hf & _).
    eexists _, s', tr. split_and!; [done..|by apply Hnone]. }
  destruct (processAlgorithm_run env l p s Hpre Hidx Hsess)
    as (field & bt & t & s' & tr & _ & _ & _ & Hsel & _ & Hcalls & ->).
  eexists _, s', _. split_and!; [reflexivity|exact Hcalls|].
  pose proof (selection_run_quits _ _ _ _ _ _ _ _ _ _ Hsel) as Hq.
  unfold invocation_calls, session_calls. simpl.
  intros pre c d o post Heq.
  do 5 (destruct pre as [|? pre]; [done|]; injection Heq as <- Heq).
  split_and!; [rewrite !elem_of_cons; auto 10..|]. simpl.
  apply app_eq_inv in Heq as [(k & -> & _)|(k & -> & Heq)].
  - rewrite quits_app in Hq. by apply app_nil in Hq as [Hq _].
  - destruct k as [|e k]; [done|]. injection Heq as <- Heq.
    destruct (ftp_quit env); [by destruct k|].
    destruct k as [|e' k]; [done|]. injection Heq as <- Heq. by destruct k.
Qed.

(** ** The count, the log and the selection *)

Lemma attempt_announced u fn p c out fs0 tr n fs1 :
  attempt u fn p c out fs0 tr n fs1 →
  announced_downloads tr = (λ _, "Downloaded: " +:+ fn) <$> transferred tr.
Proof. intros H; destruct H; reflexivity. Qed.

Lemma selection_run_announced unpack fs field t out feats fs0 tr n fs1 :
  selection_run unpack fs field t out feats fs0 tr n fs1 →
  length (announced_downloads tr) = length (transferred tr).
Proof.
  induction 1 as [|f l fs0 tr1 n1 fs1 tr2 n2 fs2 Hf _ IH]; [done|].
  unfold announced_downloads, infos, transferred in *.
  rewrite !omap_app, List.filter_app, !length_app, IH. f_equal.
  destruct Hf as [Hid|tr n fs1 Hid Hatt]; [done|].
  fold (infos (PushInfo (downloading_message (attempt_filename fs field t f)
                           (attempt_path fs field t out f)) :: tr)).
  change (length (announced_downloads tr) = length (transferred tr)).
  by rewrite (attempt_announced _ _ _ _ _ _ _ _ _ Hatt), length_fmap.
Qed.

(** X12. When an invocation returns, the count it returns is the number
    of "Downloaded: ..." messages it logged, its last call is the message
    "Download complete. n files downloaded." with that same count, and
    QUIT was sent exactly once and returned. *)
Theorem log_agrees_with_the_count env l p s :
  preconditions_ok env (Some l) p = true →
  indices_ok (Some l) p = true →
  session_error env p = None →
  ftp_quit env = None →
  ∃ n s' tr,
    processAlgorithm env (Some l) p s = (Ok n, s')
    ∧ calls s' = calls s ++ tr
    ∧ length (announced_downloads tr) = n
    ∧ last tr = Some (PushInfo (complete_message n))
    ∧ quits tr = [None].
Proof.
  intros Hpre Hidx Hsess Hquit.
  destruct (processAlgorithm_run env l p s Hpre Hidx Hsess)
    as (field & bt & t & s' & tr & _ & _ & _ & Hsel & _ & Hcalls & Hrun).
  rewrite Hquit in Hrun, Hcalls.
  pose proof (selection_run_count _ _ _ _ _ _ _ _ _ _ Hsel) as Hn.
  pose proof (selection_run_announced _ _ _ _ _ _ _ _ _ _ Hsel) as Ha.
  pose proof (selection_run_quits _ _ _ _ _ _ _ _ _ _ Hsel) as Hq.
  eexists _, s', _. split_and!; [exact Hrun|exact Hcalls|..].
  - rewrite Hn, <- Ha. unfold announced_downloads, infos, invocation_calls, session_calls.
    simpl. rewrite !omap_app, List.filter_app, length_app. simpl. lia.
  - unfold invocation_calls.
    replace (PushInfo (processing_message l) :: session_calls p ++ tr
             ++ [Quit None; PushInfo (complete_message (downloaded_files s'))])
      with ((PushInfo (processing_message l) :: session_calls p ++ tr ++ [Quit None])
            ++ [PushInfo (complete_message (downloaded_files s'))])
      by (simpl; by rewrite <- !app_assoc).
    apply last_snoc.
  - by rewrite invocation_quits, Hq.
Qed.

Lemma X12_witness :
  ∃ n s' tr,
    processAlgorithm env_corrupt (Some two_cells) (sample_parameters true) init
    = (Ok n, s')
    ∧ calls s' = calls init ++ tr
    ∧ length (announced_downloads tr) = n
    ∧ last tr = Some (PushInfo (complete_message n))
    ∧ quits tr = [None].
Proof.
  apply log_agrees_with_the_count; reflexivity.
Defined.

Lemma selection_run_without_ids unpack fs field t out feats fs0 tr n fs1 :
  selection_run unpack fs field t out feats fs0 tr n fs1 →
  List.filter (has_grid_id fs field) feats = [] →
  tr = PushInfo ∘ skip_message <$> feats ∧ n = 0 ∧ fs1 = fs0.
Proof.
  induction 1 as [|f l fs0 tr1 n1 fs1 tr2 n2 fs2 Hf _ IH]; [done|].
  simpl. destruct Hf as [Hid|tr n fs1 Hid Hatt]; rewrite Hid; [|done].
  intros Hnone. destruct (IH Hnone) as (-> & -> & ->). done.
Qed.

(** X13. When no selected feature has a grid identifier, an invocation
    whose preconditions hold still opens the session and sends QUIT, but
    transfers nothing and changes no file: apart from the session it logs
    one skip message per feature, in selection order, and it returns 0. *)
Theorem selection_without_identifiers_transfers_nothing env l p s :
  preconditions_ok env (Some l) p = true →
  indices_ok (Some l) p = true →
  session_error env p = None →
  (∀ field, py_index (fields l) (ATTRIBUTE_FIELD p) = Some field →
            List.filter (has_grid_id (fields l) field) (selectedFeatures l) = []) →
  ∃ s',
    processAlgorithm env (Some l) p s
    = (match ftp_quit env with
       | None => Ok 0
       | Some m => Raise (LibError m)
       end, s')
    ∧ calls s' = calls s
                 ++ invocation_calls l p (PushInfo ∘ skip_message <$> selectedFeatures l)
                      (ftp_quit env) 0
    ∧ files s' = files s.
Proof.
  intros Hpre Hidx Hsess Hnone.
  destruct (processAlgorithm_run env l p s Hpre Hidx Hsess)
    as (field & bt & t & s' & tr & Hfield & _ & _ & Hsel & _ & Hcalls & Hrun).
  destruct (selection_run_without_ids _ _ _ _ _ _ _ _ _ _ Hsel (Hnone field Hfield))
    as (-> & Hn & Hfiles).
  rewrite Hn in Hrun, Hcalls. by exists s'.
Qed.

Lemma X13_witness :
  ∃ s',
    processAlgorithm env_fine (Some no_cells) (sample_parameters true) init
    = (match ftp_quit env_fine with
       | None => Ok 0
       | Some m => Raise (LibError m)
       end, s')
    ∧ calls s' = calls init
                 ++ invocation_calls no_cells (sample_parameters true)
                      (PushInfo ∘ skip_message <$> selectedFeatures no_cells)
                      (ftp_quit env_fine) 0
    ∧ files s' = files init.
Proof.
  apply selection_without_identifiers_transfers_nothing; try reflexivity.
  by intros field [= <-].
Defined.

(** X11. The count an invocation returns is at most the number of
    selected features the loop takes up, those whose grid identifier is
    true in Python's sense (not NULL, not the empty string, not 0, 0.0 or
    False), hence at most the size of the selection; when no library call
    raised, nothing is reported as an error and the count is exactly the
    number of features taken up, all of them processed through. *)
Theorem count_is_bounded_by_the_selection env l p s :
  preconditions_ok env (Some l) p = true →
  indices_ok (Some l) p = true →
  session_error env p = None →
  ∃ field n s' tr,
    py_index (fields l) (ATTRIBUTE_FIELD p) = Some field
    ∧ processAlgorithm env (Some l) p s
      = (match ftp_quit env with
         | None => Ok n
         | Some m => Raise (LibError m)
         end, s')
    ∧ calls s' = calls s ++ tr
    ∧ n ≤ length (List.filter (has_grid_id (fields l) field) (selectedFeatures l))
    ∧ n ≤ length (selectedFeatures l)
    ∧ (failures tr = [] →
       errors tr = []
       ∧ n = length (List.filter (has_grid_id (fields l) field) (selectedFeatures l))
       ∧ n = fully_processed tr).
Proof.
  intros Hpre Hidx Hsess.
  destruct (processAlgorithm_run env l p s Hpre Hidx Hsess)
    as (field & bt & t & s' & tr & Hfield & _ & _ & Hsel & _ & Hcalls & Hrun).
  pose proof (selection_run_count _ _ _ _ _ _ _ _ _ _ Hsel) as Hn.
  pose proof (selection_run_transfer _ _ _ _ _ _ _ _ _ _ Hsel) as Htr.
  pose proof (selection_run_errors _ _ _ _ _ _ _ _ _ _ Hsel) as Herr.
  pose proof (selection_run_opened _ _ _ _ _ _ _ _ _ _ Hsel) as Hop.
  pose proof (selection_run_failures _ _ _ _ _ _ _ _ _ _ Hsel) as (Hsplit & _ & _).
  apply (f_equal length) in Hop. rewrite length_fmap in Hop.
  pose proof (List.filter_length_le (has_grid_id (fields l) field) (selectedFeatures l)).
  exists field. eexists _, s', _. split_and!; [done|exact Hrun|exact Hcalls|lia|lia|].
  unfold fully_processed.
  rewrite invocation_failures, !invocation_errors, invocation_opened.
  intros Hno. rewrite Hno in Herr, Hsplit. simpl in Herr, Hsplit.
  assert (errors tr = []) as -> by (by apply length_zero_iff_nil).
  simpl. split_and!; [done|lia|lia].
Qed.

Lemma X11_witness :
  ∃ field n s' tr,
    py_index (fields two_cells) (ATTRIBUTE_FIELD (sample_parameters true)) = Some field
    ∧ processAlgorithm env_fine (Some two_cells) (sample_parameters true) init
      = (match ftp_quit env_fine with
         | None => Ok n
         | Some m => Raise (LibError m)
         end, s')
    ∧ calls s' = calls init ++ tr
    ∧ n ≤ length (List.filter (has_grid_id (fields two_cells) field)
                    (selectedFeatures two_cells))
    ∧ n ≤ length (selectedFeatures two_cells)
    ∧ (failures tr = [] →
       errors tr = []
       ∧ n = length (List.filter (has_grid_id (fields two_cells) field)
                       (selectedFeatures two_cells))
       ∧ n = fully_processed tr).
Proof.
  apply count_is_bounded_by_the_selection; reflexivity.
Defined.

Lemma X9_witness :
  ∃ r s' tr,
    processAlgorithm env_self_named (Some two_cells) (sample_parameters true) init
    = (r, s')
    ∧ calls s' = calls init ++ tr
    ∧ (∀ q, is_Some (files init !! q) → is_Some (files s' !! q))
    ∧ (∀ q, files s' !! q ≠ files init !! q →
            q ∈ opened_ok tr ∨ q ∈ member_targets tr)
    ∧ (UNPACK_ZIP (sample_parameters true) = false →
       unpackings tr = [] ∧ member_targets tr = [])
    ∧ (∀ a, a ∈ unpackings tr → a ∈ opened_ok tr)
    ∧ (∀ d, d ∈ extraction_folders tr → d = OUTPUT_FOLDER (sample_parameters true)).
Proof. apply invocation_writes_only_downloads_and_members. Defined.

Lemma X10_witness :
  ∃ r s' tr,
    processAlgorithm env_fine (Some two_cells) (sample_parameters true) init = (r, s')
    ∧ calls s' = calls init ++ tr
    ∧ ∀ pre c d o post,
        tr = pre ++ Retrbinary c d o :: post →
        Connect ftp_server ftp_port None ∈ pre
        ∧ Login (FTP_USERNAME (sample_parameters true))
            (FTP_PASSWORD (sample_parameters true)) None ∈ pre
        ∧ ProtP None ∈ pre
        ∧ quits pre = [].
Proof. apply transfers_happen_inside_the_protected_session. Defined.
